(** * PR preview environments on Lightsail: a shallow embedding

    The repository holds two copies of one command-line tool,
    [src/scripts/manage-preview.py] and
    [src/pr-preview-system/scripts/manage-preview.py].  Each defines a
    class [PreviewManager] around a boto3 Lightsail client and a [main]
    that dispatches on the [create] and [delete] actions.

    Modelling conventions.
    - A Python [str] is a Stdlib [string], one [ascii] per character.
      This is exact for ASCII text (repository names, branches, commit
      hashes, addresses); the console messages that hold emoji appear as
      their UTF-8 bytes and are only ever emitted, never inspected.
    - A Python [int] is a [Z].
    - The Lightsail client is external to the repository: it is a record
      of state transformers over an arbitrary provider state, each call
      answering with an exception or a value.
    - [time.time] reads a virtual clock counted in seconds and
      [time.sleep d] advances it by [d]; provider calls, console output
      and file output take no time, and console output does not fail.
    - The file system is external too: the world tells, for a path and
      a mode, whether a [with open(path, mode)] block raises, and which
      exception.
    - Methods run in a monad that threads the world (clock, provider
      state, environment, file system), accumulates the emitted events
      (console lines, provider calls with their answer, completed file
      output) and ends in a returned value, a raised exception or
      [sys.exit].
    - [main] starts from the command line.  [argparse] and the
      constructor of the boto3 client are libraries: the parser of
      lines 238-246 is a function from the command line to a namespace
      or to the status argparse exits with, and the constructor a
      function from the region to a client or to the exception it
      raises; it sends no request to the provider.

    Layout: the Python runtime ([PyStr], [Py]); one module per source
    file ([Scripts], [PrPreviewSystem]); provider stubs and the contract
    of a provider that keeps its instances ([Provider]); the methods
    restated by cases on the provider's answers ([Flow]); then the
    properties. *)

From Stdlib Require Import String Ascii List ZArith Lia Bool DecimalString DecimalPos DecimalZ.
From Equations Require Import Equations.
Import ListNotations.

(** The unfolding equations of the loops are proved without functional
    extensionality. *)
#[local] Unset Equations With Funext.

Local Open Scope string_scope.
Local Open Scope Z_scope.

(** ** Python strings *)

Module PyStr.

(** [str.split(sep)] for a one-character separator: never the empty list. *)
Fixpoint split (sep : ascii) (s : string) : list string :=
  match s with
  | EmptyString => [EmptyString]
  | String c s' =>
      if Ascii.eqb c sep then EmptyString :: split sep s'
      else match split sep s' with
           | [] => [String c EmptyString]
           | x :: xs => String c x :: xs
           end
  end.

(** [l[-1]] on a list of strings; [split] never yields the empty list, for
    which Python would raise [IndexError]. *)
Definition item_last (l : list string) : string := List.last l EmptyString.

(** [s.replace(old, new)] for one-character [old] and [new]. *)
Fixpoint replace (old new : ascii) (s : string) : string :=
  match s with
  | EmptyString => EmptyString
  | String c s' =>
      String (if Ascii.eqb c old then new else c) (replace old new s')
  end.

(** The slice [s[:n]]. *)
Definition slice_to (n : nat) (s : string) : string := String.substring 0 n s.

(** [str(i)] and the [{i}] field of an f-string, for an [int]. *)
Definition str_of_int (i : Z) : string := NilZero.string_of_int (Z.to_int i).

(** [c * n] for a one-character string [c]. *)
Fixpoint repeat_char (c : ascii) (n : nat) : string :=
  match n with
  | O => EmptyString
  | S n' => String c (repeat_char c n')
  end.

(** The double quote and the line feed, as one-character strings. *)
Definition dq : string := String "034"%char EmptyString.
Definition nl : string := String "010"%char EmptyString.

(** Truthiness of a string: the empty string is false. *)
Definition truthy (s : string) : bool :=
  match s with EmptyString => false | String _ _ => true end.

(** Truthiness of an optional string ([None] or a [str]). *)
Definition truthy_opt (o : option string) : bool :=
  match o with None => false | Some s => truthy s end.

(** The string held by a value known not to be [None]. *)
Definition str_value (o : option string) : string :=
  match o with None => EmptyString | Some s => s end.

(** Every character of [s] satisfies [p]. *)
Fixpoint all_chars (p : ascii -> bool) (s : string) : bool :=
  match s with
  | EmptyString => true
  | String c s' => p c && all_chars p s'
  end.

(** The character [c] occurs in [s]. *)
Fixpoint occurs (c : ascii) (s : string) : bool :=
  match s with
  | EmptyString => false
  | String d s' => Ascii.eqb c d || occurs c s'
  end.

Definition between (lo hi c : ascii) : bool :=
  (nat_of_ascii lo <=? nat_of_ascii c)%nat && (nat_of_ascii c <=? nat_of_ascii hi)%nat.

Definition is_digit (c : ascii) : bool := between "0" "9" c.
Definition is_lower (c : ascii) : bool := between "a" "z" c.
Definition is_upper (c : ascii) : bool := between "A" "Z" c.
Definition is_dash (c : ascii) : bool := Ascii.eqb c "-".

(** The alphabet [[a-z0-9-]]. *)
Definition lower_digit_dash (c : ascii) : bool :=
  is_lower c || is_digit c || is_dash c.

(** The alphabet [[A-Za-z0-9-]]. *)
Definition alnum_dash (c : ascii) : bool :=
  is_upper c || lower_digit_dash c.

(** The characters of an [owner/name] identifier on GitHub:
    [[A-Za-z0-9-]], underscore, dot and the slash between owner and name. *)
Definition repo_char (c : ascii) : bool :=
  alnum_dash c || Ascii.eqb c "_" || Ascii.eqb c "." || Ascii.eqb c "/".

(** A character other than the slash, the underscore and the dot. *)
Definition plain_char (c : ascii) : bool :=
  negb (Ascii.eqb c "/") && negb (Ascii.eqb c "_") && negb (Ascii.eqb c ".").

(** The same identifiers without upper-case letters. *)
Definition repo_char_lower (c : ascii) : bool :=
  lower_digit_dash c || Ascii.eqb c "_" || Ascii.eqb c "." || Ascii.eqb c "/".

End PyStr.

(** ** The Python runtime the tool relies on *)

Module Py.

(** Exceptions the tool can meet.  [NotFoundException] is the class the
    source names as [self.lightsail.exceptions.NotFoundException];
    [ProviderError] stands for every other exception a provider call
    raises, and for what the constructor of the client raises;
    [KeyError] is raised by a subscript on a missing key and [OSError] by
    a file that cannot be opened or written.  All four are instances of
    [Exception]. *)
Inductive exn : Type :=
| NotFoundException (msg : string)
| ProviderError (msg : string)
| KeyError (key : string)
| OSError (msg : string).

(** [str(e)], as interpolated by [{e}]. *)
Definition exn_str (e : exn) : string :=
  match e with
  | NotFoundException m => m
  | ProviderError m => m
  | KeyError k => "'" ++ k ++ "'"
  | OSError m => m
  end.

(** The part of [response['instance']] the tool reads: the state name and
    the public address, a key that is absent until one is assigned. *)
Record Instance : Type := mkInstance {
  state_name : string;
  publicIpAddress : option string }.

Record PortInfo : Type := mkPortInfo {
  fromPort : Z;
  toPort : Z;
  protocol : string }.

(** Keyword arguments of [create_instances]; [userData] is optional. *)
Record CreateInstances : Type := mkCreateInstances {
  instanceNames : list string;
  availabilityZone : string;
  blueprintId : string;
  bundleId : string;
  userData : option string;
  tags : list (string * string) }.

(** The four provider operations the tool consumes. *)
Inductive Request : Type :=
| GetInstance (instanceName : string)
| CreateInstancesReq (args : CreateInstances)
| PutInstancePublicPorts (portInfos : list PortInfo) (instanceName : string)
| DeleteInstance (instanceName : string).

(** What a run emits, in order: console lines, provider calls with the
    exception they raised if any, and the writes of a [with open] block
    that completed. *)
Inductive Event : Type :=
| Console (line : string)
| Call (req : Request) (raised : option exn)
| FileOut (path : string) (mode : string) (writes : list string).

(** The boto3 Lightsail client over a provider state [P]. *)
Record Lightsail (P : Type) : Type := mkLightsail {
  lightsail_get_instance : string -> P -> (exn + Instance) * P;
  lightsail_create_instances : CreateInstances -> P -> (exn + unit) * P;
  lightsail_put_instance_public_ports :
    list PortInfo -> string -> P -> (exn + unit) * P;
  lightsail_delete_instance : string -> P -> (exn + unit) * P }.

Arguments lightsail_get_instance {P} _ _ _.
Arguments lightsail_create_instances {P} _ _ _.
Arguments lightsail_put_instance_public_ports {P} _ _ _ _.
Arguments lightsail_delete_instance {P} _ _ _.

(** The world a run threads: virtual clock, provider state, [os.environ]
    and the file system.  [files w path mode] is the exception that a
    block [with open(path, mode) as f:] of writes raises, from [open],
    from a write or from closing the file, and [None] when the block
    completes. *)
Record World (P : Type) : Type := mkWorld {
  now : Z;
  cloud : P;
  environ : string -> option string;
  files : string -> string -> option exn }.

Arguments mkWorld {P} _ _ _ _.
Arguments now {P} _.
Arguments cloud {P} _.
Arguments environ {P} _.
Arguments files {P} _.

(** How a computation ends: a value, an uncaught exception, [sys.exit]. *)
Inductive outcome (A : Type) : Type :=
| Return (a : A)
| Raise (e : exn)
| Exit (code : Z).

Arguments Return {A} _.
Arguments Raise {A} _.
Arguments Exit {A} _.

Record Res (P A : Type) : Type := mkRes {
  out : outcome A;
  world : World P;
  log : list Event }.

Arguments mkRes {P A} _ _ _.
Arguments out {P A} _.
Arguments world {P A} _.
Arguments log {P A} _.

Definition M (P A : Type) : Type := World P -> Res P A.

(** [add_log l r]: the events [l] happened before those of [r]. *)
Definition add_log {P A} (l : list Event) (r : Res P A) : Res P A :=
  mkRes (out r) (world r) (l ++ log r).

Definition ret {P A} (a : A) : M P A := fun w => mkRes (Return a) w [].

Definition bind {P A B} (m : M P A) (k : A -> M P B) : M P B :=
  fun w =>
    let r := m w in
    match out r with
    | Return a => add_log (log r) (k a (world r))
    | Raise e => mkRes (Raise e) (world r) (log r)
    | Exit n => mkRes (Exit n) (world r) (log r)
    end.

Definition raise {P A} (e : exn) : M P A := fun w => mkRes (Raise e) w [].

(** [sys.exit(code)] *)
Definition sys_exit {P A} (code : Z) : M P A := fun w => mkRes (Exit code) w [].

(** [try: m except ...]: [handler e] is the body of the first clause that
    matches [e], or [None] when no clause does and [e] propagates.
    [SystemExit] is not an [Exception] and is never caught. *)
Definition try_except {P A} (m : M P A) (handler : exn -> option (M P A)) : M P A :=
  fun w =>
    let r := m w in
    match out r with
    | Raise e =>
        match handler e with
        | Some h => add_log (log r) (h (world r))
        | None => r
        end
    | _ => r
    end.

(** [print(line)] *)
Definition print {P} (line : string) : M P unit :=
  fun w => mkRes (Return tt) w [Console line].

(** [time.time()] *)
Definition time_time {P} : M P Z := fun w => mkRes (Return (now w)) w [].

(** [time.sleep(d)] *)
Definition time_sleep {P} (d : Z) : M P unit :=
  fun w => mkRes (Return tt) (mkWorld (now w + d) (cloud w) (environ w) (files w)) [].

(** [os.getenv(name)] *)
Definition os_getenv {P} (name : string) : M P (option string) :=
  fun w => mkRes (Return (environ w name)) w [].

(** [os.environ[name]] *)
Definition os_environ_item {P} (name : string) : M P string :=
  fun w =>
    match environ w name with
    | Some v => mkRes (Return v) w []
    | None => mkRes (Raise (KeyError name)) w []
    end.

(** [with open(path, mode) as f:] followed by one [f.write] per element:
    the block raises what the file system makes it raise, and is recorded
    when it completes. *)
Definition with_open_write {P} (path mode : string) (writes : list string) : M P unit :=
  fun w =>
    match files w path mode with
    | Some e => mkRes (Raise e) w []
    | None => mkRes (Return tt) w [FileOut path mode writes]
    end.

(** A provider call: the provider state moves, the call is recorded, and
    an exception of the provider is raised in the caller. *)
Definition provider_call {P A} (req : Request) (op : P -> (exn + A) * P) : M P A :=
  fun w =>
    let (ans, p') := op (cloud w) in
    let w' := mkWorld (now w) p' (environ w) (files w) in
    match ans with
    | inl e => mkRes (Raise e) w' [Call req (Some e)]
    | inr a => mkRes (Return a) w' [Call req None]
    end.

(** [instance['publicIpAddress']] *)
Definition item_publicIpAddress {P} (instance : Instance) : M P string :=
  match publicIpAddress instance with
  | Some ip => ret ip
  | None => raise (KeyError "publicIpAddress")
  end.

(** ['publicIpAddress' in instance] *)
Definition has_publicIpAddress (instance : Instance) : bool :=
  match publicIpAddress instance with Some _ => true | None => false end.

Definition inspect {A} (a : A) : {b : A | a = b} := exist _ a eq_refl.

(** The exit status of the process for the way [main] ended: an uncaught
    exception ends the interpreter with status 1, falling off the end
    with status 0. *)
Definition exit_status {A} (o : outcome A) : Z :=
  match o with
  | Return _ => 0
  | Raise _ => 1
  | Exit n => n
  end.

(** The provider calls among the events, in order. *)
Fixpoint calls (l : list Event) : list Request :=
  match l with
  | [] => []
  | Call req _ :: l' => req :: calls l'
  | _ :: l' => calls l'
  end.

(** The creation requests the provider accepted. *)
Fixpoint creations (l : list Event) : nat :=
  match l with
  | [] => O
  | Call (CreateInstancesReq _) None :: l' => S (creations l')
  | _ :: l' => creations l'
  end.

(** The parsed command line ([argparse.Namespace]). *)
Inductive Action : Type := create | delete.

Record Namespace : Type := mkNamespace {
  arg_action : Action;
  arg_pr_number : Z;
  arg_repo_name : string;
  arg_branch : option string;
  arg_commit_sha : option string;
  arg_region : string }.

End Py.

Declare Scope py_scope.
Delimit Scope py_scope with py.
Notation "x <- m ;; k" := (Py.bind m (fun x => k))
  (at level 61, m at next level, right associativity) : py_scope.
Notation "m ;; k" := (Py.bind m (fun _ => k))
  (at level 61, right associativity) : py_scope.

(** ** [src/scripts/manage-preview.py]: deployment through user data *)

Module Scripts.
Import PyStr Py.
Local Open Scope py_scope.

(** [PreviewManager.get_instance_name], lines 17-21. *)
Definition get_instance_name (pr_number : Z) (repo_name : string) : string :=
  let clean_repo :=
    replace "." "-" (replace "_" "-" (item_last (split "/" repo_name))) in
  slice_to 63 ("pr-" ++ str_of_int pr_number ++ "-" ++ clean_repo).

(** The f-string [user_data] of [create_instance], lines 36-75. *)
Definition user_data (repo_name branch : string) : string :=
  String.concat nl
    [
     "#!/bin/bash";
     "set -e";
     "exec > >(tee /var/log/user-data.log) 2>&1";
     EmptyString;
     "echo " ++ dq ++ "🔧 Setting up preview environment..." ++ dq;
     EmptyString;
     "# Update system";
     "apt-get update -qq";
     "apt-get install -y nginx git";
     EmptyString;
     "# Clone repository";
     "cd /home/ubuntu";
     "git clone https://github.com/" ++ repo_name ++ ".git app";
     "cd app";
     "git checkout " ++ branch;
     EmptyString;
     "# Deploy static preview page";
     "echo " ++ dq ++ "📦 Deploying preview page..." ++ dq;
     "rm -rf /var/www/html/*";
     "cp public/preview.html /var/www/html/index.html";
     EmptyString;
     "# Configure Nginx";
     "cat > /etc/nginx/sites-available/default << 'EOF'";
     "server {";
     "    listen 80 default_server;";
     "    listen [::]:80 default_server;";
     "    root /var/www/html;";
     "    index index.html;";
     "    server_name _;";
     "    location / {";
     "        try_files $uri $uri/ =404;";
     "    }";
     "}";
     "EOF";
     EmptyString;
     "# Restart Nginx";
     "systemctl restart nginx";
     EmptyString;
     "echo " ++ dq ++ "✅ Deployment complete!" ++ dq;
     EmptyString
    ].

(** [f"{'='*60}"] *)
Definition rule : string := repeat_char "=" 60.

Section Manager.
Context {P : Type}.

(** The attributes of a [PreviewManager]. *)
Record PreviewManager : Type := mkPreviewManager {
  lightsail : Lightsail P;
  region : string }.

(** [boto3.client('lightsail', region_name=region)]: the client, or the
    exception the constructor raises (for a malformed region name, for
    instance).  No request is sent to the provider. *)
Variable boto3_client : string -> exn + Lightsail P.

(** [__init__], lines 13-15. *)
Definition init (region : string) : M P PreviewManager :=
  match boto3_client region with
  | inl e => raise e
  | inr client => ret (mkPreviewManager client region)
  end.

(** Lines 23-29. *)
Definition instance_exists (self : PreviewManager) (instance_name : string) : M P bool :=
  try_except
    (_ <- provider_call (GetInstance instance_name)
            (lightsail_get_instance (lightsail self) instance_name) ;;
     ret true)
    (fun e => match e with
              | NotFoundException _ => Some (ret false)
              | _ => None
              end).

(** The keyword arguments of the call at lines 78-91. *)
Definition create_instances_args (self : PreviewManager)
    (instance_name : string) (pr_number : Z) (repo_name branch : string) : CreateInstances :=
  {| instanceNames := [instance_name];
     availabilityZone := region self ++ "a";
     blueprintId := "ubuntu_22_04";
     bundleId := "nano_3_0";
     userData := Some (user_data repo_name branch);
     tags := [("Type", "PR-Preview");
              ("PR", str_of_int pr_number);
              ("Repository", repo_name);
              ("Branch", branch);
              ("ManagedBy", "GitHub-Actions")] |}.

(** Lines 31-98. *)
Definition create_instance (self : PreviewManager)
    (instance_name : string) (pr_number : Z) (repo_name branch : string) : M P bool :=
  print ("Creating instance: " ++ instance_name) ;;
  let args := create_instances_args self instance_name pr_number repo_name branch in
  try_except
    (_ <- provider_call (CreateInstancesReq args)
            (lightsail_create_instances (lightsail self) args) ;;
     print "✅ Instance creation initiated" ;;
     ret true)
    (fun e => Some (print ("❌ Failed to create instance: " ++ exn_str e) ;;
                    ret false)).

(** One turn of the loop of [wait_for_instance], lines 106-122: [Some ip]
    when the method returns [ip], [None] when the loop goes on. *)
Definition wait_for_instance_body (self : PreviewManager) (instance_name : string)
    : M P (option string) :=
  try_except
    (instance <- provider_call (GetInstance instance_name)
                   (lightsail_get_instance (lightsail self) instance_name) ;;
     let state := state_name instance in
     print ("   Status: " ++ state) ;;
     if String.eqb state "running" && has_publicIpAddress instance then
       ip <- item_publicIpAddress instance ;;
       print ("✅ Instance ready with IP: " ++ ip) ;;
       ret (Some ip)
     else
       time_sleep 10 ;;
       ret None)
    (fun e => Some (print ("   Waiting... " ++ exn_str e) ;;
                    time_sleep 10 ;;
                    ret None)).

(** The [while] loop of lines 105-125, from the world [w] on. *)
Equations? wait_for_instance_loop (self : PreviewManager) (instance_name : string)
    (start_time max_wait : Z) (w : World P) : Res P (option string)
    by wf (Z.to_nat (start_time + max_wait - now w)) lt :=
wait_for_instance_loop self instance_name start_time max_wait w
    with inspect (now w - start_time <? max_wait) := {
  | exist _ false _ :=
      (print ("❌ Instance did not become ready within "
              ++ str_of_int max_wait ++ "s") ;;
       ret None) w
  | exist _ true Hlt with inspect (wait_for_instance_body self instance_name w) := {
    | exist _ (mkRes (Return None) w' l) Hbody :=
        add_log l (wait_for_instance_loop self instance_name start_time max_wait w')
    | exist _ r _ := r } }.
Proof.
  assert (now w' = now w + 10) as ->; [| apply Z.ltb_lt in Hlt; lia ].
  revert Hbody.
  cbv beta iota zeta delta
    [wait_for_instance_body try_except bind provider_call print time_sleep ret
     raise item_publicIpAddress add_log out world log].
  destruct (lightsail_get_instance (lightsail self) instance_name (cloud w))
    as [[e | i] p']; cbv beta iota zeta.
  - intros [= <- _]. reflexivity.
  - destruct (String.eqb (state_name i) "running" && has_publicIpAddress i).
    + destruct (publicIpAddress i); cbv beta iota zeta;
        [ discriminate | intros [= <- _]; reflexivity ].
    + intros [= <- _]. reflexivity.
Qed.

(** Lines 100-125. *)
Definition wait_for_instance (self : PreviewManager) (instance_name : string)
    (max_wait : Z) : M P (option string) :=
  print "⏳ Waiting for instance to be ready..." ;;
  start_time <- time_time ;;
  wait_for_instance_loop self instance_name start_time max_wait.

(** The [portInfos] of lines 133-139. *)
Definition port_infos : list PortInfo :=
  [ mkPortInfo 22 22 "tcp";
    mkPortInfo 80 80 "tcp";
    mkPortInfo 443 443 "tcp";
    mkPortInfo 3000 3000 "tcp";
    mkPortInfo 5000 5000 "tcp" ].

(** Lines 127-146. *)
Definition configure_firewall (self : PreviewManager) (instance_name : string) : M P bool :=
  print "🔥 Configuring firewall..." ;;
  try_except
    (_ <- provider_call (PutInstancePublicPorts port_infos instance_name)
            (lightsail_put_instance_public_ports (lightsail self) port_infos instance_name) ;;
     print "✅ Firewall configured" ;;
     ret true)
    (fun e => Some (print ("⚠️  Firewall configuration failed: " ++ exn_str e) ;;
                    ret false)).

(** Lines 148-157. *)
Definition deploy_application (self : PreviewManager)
    (instance_name instance_ip repo_name branch commit_sha : string) : M P bool :=
  print "📦 Application deployment initiated via user data..." ;;
  print "⏳ Waiting for deployment to complete (this may take 2-3 minutes)..." ;;
  time_sleep 120 ;;
  print ("✅ Deployment should be complete. Check " ++ instance_ip ++ " in your browser.") ;;
  ret true.

(** Lines 158-171. *)
Definition delete_instance (self : PreviewManager) (instance_name : string) : M P bool :=
  print ("🗑️  Deleting instance: " ++ instance_name) ;;
  try_except
    (_ <- provider_call (DeleteInstance instance_name)
            (lightsail_delete_instance (lightsail self) instance_name) ;;
     print "✅ Instance deletion initiated" ;;
     ret true)
    (fun e => match e with
              | NotFoundException _ =>
                  Some (print "⚠️  Instance not found (may already be deleted)" ;;
                        ret true)
              | _ =>
                  Some (print ("❌ Failed to delete instance: " ++ exn_str e) ;;
                        ret false)
              end).

(** The [if]/[else] of lines 188-203 that binds [instance_ip]: the address of
    the instance found, or of the one created and waited for.  The two
    guards [sys.exit(1)] leave [instance_ip] a non-empty string on the
    branch that goes on. *)
Definition ensure_instance (self : PreviewManager)
    (instance_name : string) (pr_number : Z) (repo_name branch : string) : M P string :=
  found <- instance_exists self instance_name ;;
  if found then
    print "ℹ️  Instance already exists, will update deployment" ;;
    instance <- provider_call (GetInstance instance_name)
                  (lightsail_get_instance (lightsail self) instance_name) ;;
    item_publicIpAddress instance
  else
    created <- create_instance self instance_name pr_number repo_name branch ;;
    (if negb created then sys_exit 1 else ret tt) ;;
    instance_ip <- wait_for_instance self instance_name 300 ;;
    (if negb (truthy_opt instance_ip) then sys_exit 1 else ret tt) ;;
    configure_firewall self instance_name ;;
    ret (str_value instance_ip).

(** Lines 173-222. *)
Definition create_preview (self : PreviewManager)
    (pr_number : Z) (repo_name branch commit_sha : string) : M P bool :=
  let instance_name := get_instance_name pr_number repo_name in
  print rule ;;
  print "🚀 Creating Preview Environment" ;;
  print rule ;;
  print ("PR Number: " ++ str_of_int pr_number) ;;
  print ("Repository: " ++ repo_name) ;;
  print ("Branch: " ++ branch) ;;
  print ("Commit: " ++ slice_to 7 commit_sha) ;;
  print ("Instance: " ++ instance_name) ;;
  print (rule ++ nl) ;;
  instance_ip <- ensure_instance self instance_name pr_number repo_name branch ;;
  deploy_application self instance_name instance_ip repo_name branch commit_sha ;;
  print (nl ++ rule) ;;
  print "✅ Preview Environment Ready!" ;;
  print rule ;;
  print ("URL: http://" ++ instance_ip ++ "/") ;;
  print ("Instance: " ++ instance_name) ;;
  github_output <- os_getenv "GITHUB_OUTPUT" ;;
  (if truthy_opt github_output then
     path <- os_environ_item "GITHUB_OUTPUT" ;;
     with_open_write path "a"
       [ "preview_url=http://" ++ instance_ip ++ "/" ++ nl;
         "instance_ip=" ++ instance_ip ++ nl;
         "instance_name=" ++ instance_name ++ nl ]
   else ret tt) ;;
  ret true.

(** Lines 224-235. *)
Definition delete_preview (self : PreviewManager)
    (pr_number : Z) (repo_name : string) : M P bool :=
  let instance_name := get_instance_name pr_number repo_name in
  print rule ;;
  print "🧹 Cleaning Up Preview Environment" ;;
  print rule ;;
  print ("PR Number: " ++ str_of_int pr_number) ;;
  print ("Instance: " ++ instance_name) ;;
  print (rule ++ nl) ;;
  delete_instance self instance_name.

(** [parser.parse_args()] for the parser built at lines 238-246, applied
    to the command line: the namespace, or the status argparse ends the
    process with (2 for a command line it rejects, 0 after [--help]). *)
Variable parse_args : list string -> Z + Namespace.

(** Lines 237-264, for the command line [argv].  After the guard both
    [args.branch] and [args.commit_sha] are non-empty strings. *)
Definition main (argv : list string) : M P unit :=
  args <- (match parse_args argv with
           | inl status => sys_exit status
           | inr args => ret args
           end) ;;
  manager <- init (arg_region args) ;;
  success <-
    (match arg_action args with
     | create =>
         (if negb (truthy_opt (arg_branch args)) || negb (truthy_opt (arg_commit_sha args)) then
            print "❌ --branch and --commit-sha are required for create action" ;;
            sys_exit 1
          else ret tt) ;;
         create_preview manager (arg_pr_number args) (arg_repo_name args)
           (str_value (arg_branch args)) (str_value (arg_commit_sha args))
     | delete =>
         delete_preview manager (arg_pr_number args) (arg_repo_name args)
     end) ;;
  sys_exit (if success then 0 else 1).

End Manager.

Arguments PreviewManager : clear implicits.

End Scripts.

(** ** [src/pr-preview-system/scripts/manage-preview.py]: deployment
    through an uploaded script *)

Module PrPreviewSystem.
Import PyStr Py.
Local Open Scope py_scope.

(** [PreviewManager.get_instance_name], lines 17-21. *)
Definition get_instance_name (pr_number : Z) (repo_name : string) : string :=
  let clean_repo :=
    replace "." "-" (replace "_" "-" (item_last (split "/" repo_name))) in
  slice_to 63 ("pr-" ++ str_of_int pr_number ++ "-" ++ clean_repo).

(** The f-string [deploy_script] of [deploy_application], lines 114-233. *)
Definition deploy_script (repo_name branch : string) : string :=
  String.concat nl
    [
     "#!/bin/bash";
     "set -e";
     EmptyString;
     "echo " ++ dq ++ "🔧 Setting up preview environment..." ++ dq;
     EmptyString;
     "# Update system";
     "sudo apt-get update -qq";
     EmptyString;
     "# Install dependencies";
     "sudo apt-get install -y nginx git curl";
     EmptyString;
     "# Clone repository";
     "cd /home/ubuntu";
     "if [ -d " ++ dq ++ "app" ++ dq ++ " ]; then";
     "    cd app";
     "    git fetch origin";
     "    git checkout " ++ branch;
     "    git pull";
     "else";
     "    git clone https://github.com/" ++ repo_name ++ ".git app";
     "    cd app";
     "    git checkout " ++ branch;
     "fi";
     EmptyString;
     "# Detect app type and deploy";
     "if [ -f " ++ dq ++ "package.json" ++ dq ++ " ]; then";
     "    echo " ++ dq ++ "📦 Node.js app detected" ++ dq;
     "    curl -fsSL https://deb.nodesource.com/setup_18.x | sudo -E bash -";
     "    sudo apt-get install -y nodejs";
     "    npm install";
     "    ";
     "    # Check if it's a React app";
     "    if grep -q '" ++ dq ++ "react" ++ dq ++ "' package.json; then";
     "        echo " ++ dq ++ "⚛️  React app detected" ++ dq;
     "        npm run build";
     "        sudo rm -rf /var/www/html/*";
     "        sudo cp -r build/* /var/www/html/";
     "        ";
     "        # Configure Nginx for React SPA";
     "        sudo tee /etc/nginx/sites-available/default > /dev/null << 'NGINX_EOF'";
     "server {{";
     "    listen 80;";
     "    server_name _;";
     "    root /var/www/html;";
     "    index index.html;";
     "    ";
     "    location / {{";
     "        try_files $uri $uri/ /index.html;";
     "    }}";
     "}}";
     "NGINX_EOF";
     "    else";
     "        echo " ++ dq ++ "🟢 Node.js API detected" ++ dq;
     "        # Install PM2";
     "        sudo npm install -g pm2";
     "        pm2 start npm --name " ++ dq ++ "app" ++ dq ++ " -- start";
     "        pm2 save";
     "        pm2 startup | tail -n 1 | sudo bash";
     "        ";
     "        # Configure Nginx as reverse proxy";
     "        sudo tee /etc/nginx/sites-available/default > /dev/null << 'NGINX_EOF'";
     "server {{";
     "    listen 80;";
     "    server_name _;";
     "    location / {{";
     "        proxy_pass http://localhost:3000;";
     "        proxy_http_version 1.1;";
     "        proxy_set_header Upgrade $http_upgrade;";
     "        proxy_set_header Connection 'upgrade';";
     "        proxy_set_header Host $host;";
     "        proxy_cache_bypass $http_upgrade;";
     "    }}";
     "}}";
     "NGINX_EOF";
     "    fi";
     "elif [ -f " ++ dq ++ "requirements.txt" ++ dq ++ " ]; then";
     "    echo " ++ dq ++ "🐍 Python app detected" ++ dq;
     "    sudo apt-get install -y python3-pip";
     "    pip3 install -r requirements.txt";
     "    ";
     "    # Create systemd service";
     "    sudo tee /etc/systemd/system/app.service > /dev/null << 'SERVICE_EOF'";
     "[Unit]";
     "Description=Python App";
     "After=network.target";
     EmptyString;
     "[Service]";
     "Type=simple";
     "User=ubuntu";
     "WorkingDirectory=/home/ubuntu/app";
     "ExecStart=/usr/bin/python3 app.py";
     "Restart=always";
     EmptyString;
     "[Install]";
     "WantedBy=multi-user.target";
     "SERVICE_EOF";
     "    ";
     "    sudo systemctl daemon-reload";
     "    sudo systemctl enable app";
     "    sudo systemctl start app";
     "    ";
     "    # Configure Nginx as reverse proxy";
     "    sudo tee /etc/nginx/sites-available/default > /dev/null << 'NGINX_EOF'";
     "server {{";
     "    listen 80;";
     "    server_name _;";
     "    location / {{";
     "        proxy_pass http://localhost:5000;";
     "        proxy_set_header Host $host;";
     "        proxy_set_header X-Real-IP $remote_addr;";
     "    }}";
     "}}";
     "NGINX_EOF";
     "fi";
     EmptyString;
     "# Restart Nginx";
     "sudo systemctl restart nginx";
     EmptyString;
     "echo " ++ dq ++ "✅ Deployment complete!" ++ dq;
     EmptyString
    ].

(** [f"{'='*60}"] *)
Definition rule : string := repeat_char "=" 60.

Section Manager.
Context {P : Type}.

(** The attributes of a [PreviewManager]. *)
Record PreviewManager : Type := mkPreviewManager {
  lightsail : Lightsail P;
  region : string }.

(** [boto3.client('lightsail', region_name=region)]: the client, or the
    exception the constructor raises (for a malformed region name, for
    instance).  No request is sent to the provider. *)
Variable boto3_client : string -> exn + Lightsail P.

(** [__init__], lines 13-15. *)
Definition init (region : string) : M P PreviewManager :=
  match boto3_client region with
  | inl e => raise e
  | inr client => ret (mkPreviewManager client region)
  end.

(** Lines 23-29. *)
Definition instance_exists (self : PreviewManager) (instance_name : string) : M P bool :=
  try_except
    (_ <- provider_call (GetInstance instance_name)
            (lightsail_get_instance (lightsail self) instance_name) ;;
     ret true)
    (fun e => match e with
              | NotFoundException _ => Some (ret false)
              | _ => None
              end).

(** The keyword arguments of the call at lines 36-48: no [userData]. *)
Definition create_instances_args (self : PreviewManager)
    (instance_name : string) (pr_number : Z) (repo_name branch : string) : CreateInstances :=
  {| instanceNames := [instance_name];
     availabilityZone := region self ++ "a";
     blueprintId := "ubuntu_22_04";
     bundleId := "nano_3_0";
     userData := None;
     tags := [("Type", "PR-Preview");
              ("PR", str_of_int pr_number);
              ("Repository", repo_name);
              ("Branch", branch);
              ("ManagedBy", "GitHub-Actions")] |}.

(** Lines 31-55. *)
Definition create_instance (self : PreviewManager)
    (instance_name : string) (pr_number : Z) (repo_name branch : string) : M P bool :=
  print ("Creating instance: " ++ instance_name) ;;
  let args := create_instances_args self instance_name pr_number repo_name branch in
  try_except
    (_ <- provider_call (CreateInstancesReq args)
            (lightsail_create_instances (lightsail self) args) ;;
     print "✅ Instance creation initiated" ;;
     ret true)
    (fun e => Some (print ("❌ Failed to create instance: " ++ exn_str e) ;;
                    ret false)).

(** One turn of the loop of [wait_for_instance], lines 63-79: [Some ip]
    when the method returns [ip], [None] when the loop goes on. *)
Definition wait_for_instance_body (self : PreviewManager) (instance_name : string)
    : M P (option string) :=
  try_except
    (instance <- provider_call (GetInstance instance_name)
                   (lightsail_get_instance (lightsail self) instance_name) ;;
     let state := state_name instance in
     print ("   Status: " ++ state) ;;
     if String.eqb state "running" && has_publicIpAddress instance then
       ip <- item_publicIpAddress instance ;;
       print ("✅ Instance ready with IP: " ++ ip) ;;
       ret (Some ip)
     else
       time_sleep 10 ;;
       ret None)
    (fun e => Some (print ("   Waiting... " ++ exn_str e) ;;
                    time_sleep 10 ;;
                    ret None)).

(** The [while] loop of lines 62-82, from the world [w] on. *)
Equations? wait_for_instance_loop (self : PreviewManager) (instance_name : string)
    (start_time max_wait : Z) (w : World P) : Res P (option string)
    by wf (Z.to_nat (start_time + max_wait - now w)) lt :=
wait_for_instance_loop self instance_name start_time max_wait w
    with inspect (now w - start_time <? max_wait) := {
  | exist _ false _ :=
      (print ("❌ Instance did not become ready within "
              ++ str_of_int max_wait ++ "s") ;;
       ret None) w
  | exist _ true Hlt with inspect (wait_for_instance_body self instance_name w) := {
    | exist _ (mkRes (Return None) w' l) Hbody :=
        add_log l (wait_for_instance_loop self instance_name start_time max_wait w')
    | exist _ r _ := r } }.
Proof.
  assert (now w' = now w + 10) as ->; [| apply Z.ltb_lt in Hlt; lia ].
  revert Hbody.
  cbv beta iota zeta delta
    [wait_for_instance_body try_except bind provider_call print time_sleep ret
     raise item_publicIpAddress add_log out world log].
  destruct (lightsail_get_instance (lightsail self) instance_name (cloud w))
    as [[e | i] p']; cbv beta iota zeta.
  - intros [= <- _]. reflexivity.
  - destruct (String.eqb (state_name i) "running" && has_publicIpAddress i).
    + destruct (publicIpAddress i); cbv beta iota zeta;
        [ discriminate | intros [= <- _]; reflexivity ].
    + intros [= <- _]. reflexivity.
Qed.

(** Lines 57-82. *)
Definition wait_for_instance (self : PreviewManager) (instance_name : string)
    (max_wait : Z) : M P (option string) :=
  print "⏳ Waiting for instance to be ready..." ;;
  start_time <- time_time ;;
  wait_for_instance_loop self instance_name start_time max_wait.

(** The [portInfos] of lines 90-96. *)
Definition port_infos : list PortInfo :=
  [ mkPortInfo 22 22 "tcp";
    mkPortInfo 80 80 "tcp";
    mkPortInfo 443 443 "tcp";
    mkPortInfo 3000 3000 "tcp";
    mkPortInfo 5000 5000 "tcp" ].

(** Lines 84-103. *)
Definition configure_firewall (self : PreviewManager) (instance_name : string) : M P bool :=
  print "🔥 Configuring firewall..." ;;
  try_except
    (_ <- provider_call (PutInstancePublicPorts port_infos instance_name)
            (lightsail_put_instance_public_ports (lightsail self) port_infos instance_name) ;;
     print "✅ Firewall configured" ;;
     ret true)
    (fun e => Some (print ("⚠️  Firewall configuration failed: " ++ exn_str e) ;;
                    ret false)).

(** Lines 105-243. *)
Definition deploy_application (self : PreviewManager)
    (instance_name instance_ip repo_name branch commit_sha : string) : M P bool :=
  print "📦 Deploying application..." ;;
  print "⏳ Waiting for SSH to be ready..." ;;
  time_sleep 60 ;;
  with_open_write "/tmp/deploy.sh" "w" [deploy_script repo_name branch] ;;
  print ("📤 Uploading deployment script to " ++ instance_ip ++ "...") ;;
  ret true.

(** Lines 245-258. *)
Definition delete_instance (self : PreviewManager) (instance_name : string) : M P bool :=
  print ("🗑️  Deleting instance: " ++ instance_name) ;;
  try_except
    (_ <- provider_call (DeleteInstance instance_name)
            (lightsail_delete_instance (lightsail self) instance_name) ;;
     print "✅ Instance deletion initiated" ;;
     ret true)
    (fun e => match e with
              | NotFoundException _ =>
                  Some (print "⚠️  Instance not found (may already be deleted)" ;;
                        ret true)
              | _ =>
                  Some (print ("❌ Failed to delete instance: " ++ exn_str e) ;;
                        ret false)
              end).

(** The [if]/[else] of lines 275-290 that binds [instance_ip]: the address of
    the instance found, or of the one created and waited for.  The two
    guards [sys.exit(1)] leave [instance_ip] a non-empty string on the
    branch that goes on. *)
Definition ensure_instance (self : PreviewManager)
    (instance_name : string) (pr_number : Z) (repo_name branch : string) : M P string :=
  found <- instance_exists self instance_name ;;
  if found then
    print "ℹ️  Instance already exists, will update deployment" ;;
    instance <- provider_call (GetInstance instance_name)
                  (lightsail_get_instance (lightsail self) instance_name) ;;
    item_publicIpAddress instance
  else
    created <- create_instance self instance_name pr_number repo_name branch ;;
    (if negb created then sys_exit 1 else ret tt) ;;
    instance_ip <- wait_for_instance self instance_name 300 ;;
    (if negb (truthy_opt instance_ip) then sys_exit 1 else ret tt) ;;
    configure_firewall self instance_name ;;
    ret (str_value instance_ip).

(** Lines 260-309. *)
Definition create_preview (self : PreviewManager)
    (pr_number : Z) (repo_name branch commit_sha : string) : M P bool :=
  let instance_name := get_instance_name pr_number repo_name in
  print rule ;;
  print "🚀 Creating Preview Environment" ;;
  print rule ;;
  print ("PR Number: " ++ str_of_int pr_number) ;;
  print ("Repository: " ++ repo_name) ;;
  print ("Branch: " ++ branch) ;;
  print ("Commit: " ++ slice_to 7 commit_sha) ;;
  print ("Instance: " ++ instance_name) ;;
  print (rule ++ nl) ;;
  instance_ip <- ensure_instance self instance_name pr_number repo_name branch ;;
  deploy_application self instance_name instance_ip repo_name branch commit_sha ;;
  print (nl ++ rule) ;;
  print "✅ Preview Environment Ready!" ;;
  print rule ;;
  print ("URL: http://" ++ instance_ip ++ "/") ;;
  print ("Instance: " ++ instance_name) ;;
  github_output <- os_getenv "GITHUB_OUTPUT" ;;
  (if truthy_opt github_output then
     path <- os_environ_item "GITHUB_OUTPUT" ;;
     with_open_write path "a"
       [ "preview_url=http://" ++ instance_ip ++ "/" ++ nl;
         "instance_ip=" ++ instance_ip ++ nl;
         "instance_name=" ++ instance_name ++ nl ]
   else ret tt) ;;
  ret true.

(** Lines 311-322. *)
Definition delete_preview (self : PreviewManager)
    (pr_number : Z) (repo_name : string) : M P bool :=
  let instance_name := get_instance_name pr_number repo_name in
  print rule ;;
  print "🧹 Cleaning Up Preview Environment" ;;
  print rule ;;
  print ("PR Number: " ++ str_of_int pr_number) ;;
  print ("Instance: " ++ instance_name) ;;
  print (rule ++ nl) ;;
  delete_instance self instance_name.

(** [parser.parse_args()] for the parser built at lines 325-333, applied
    to the command line: the namespace, or the status argparse ends the
    process with (2 for a command line it rejects, 0 after [--help]). *)
Variable parse_args : list string -> Z + Namespace.

(** Lines 324-351, for the command line [argv].  After the guard both
    [args.branch] and [args.commit_sha] are non-empty strings. *)
Definition main (argv : list string) : M P unit :=
  args <- (match parse_args argv with
           | inl status => sys_exit status
           | inr args => ret args
           end) ;;
  manager <- init (arg_region args) ;;
  success <-
    (match arg_action args with
     | create =>
         (if negb (truthy_opt (arg_branch args)) || negb (truthy_opt (arg_commit_sha args)) then
            print "❌ --branch and --commit-sha are required for create action" ;;
            sys_exit 1
          else ret tt) ;;
         create_preview manager (arg_pr_number args) (arg_repo_name args)
           (str_value (arg_branch args)) (str_value (arg_commit_sha args))
     | delete =>
         delete_preview manager (arg_pr_number args) (arg_repo_name args)
     end) ;;
  sys_exit (if success then 0 else 1).

End Manager.

Arguments PreviewManager : clear implicits.

End PrPreviewSystem.

(** ** Providers to run the tool against

    The provider is not part of the repository.  The definitions below
    fix the stubs the properties are stated for and the contract a
    provider without concurrent deletions obeys. *)

Module Provider.
Import PyStr Py.

(** The address carried by an answer of [get_instance] that ends the
    readiness poll: state [running] with a public address. *)
Definition ready_address (answer : exn + Instance) : option string :=
  match answer with
  | inr i => if String.eqb (state_name i) "running" then publicIpAddress i else None
  | inl _ => None
  end.

(** A provider stub for the readiness poll.  Its state counts the queries
    made so far.  Query number [K] and the later ones answer [running]
    with [address]; query number [i + 1 < K] answers [early i], an
    exception or an instance record. *)
Definition poll_stub (K : nat) (early : nat -> exn + Instance) (address : string)
    : Lightsail nat :=
  {| lightsail_get_instance := fun _ n =>
       (if (S n <? K)%nat then early n
        else inr (mkInstance "running" (Some address)), S n);
     lightsail_create_instances := fun _ n => (inr tt, n);
     lightsail_put_instance_public_ports := fun _ _ n => (inr tt, n);
     lightsail_delete_instance := fun _ n => (inr tt, n) |}.

(** A fake provider.  Its state maps the name of each instance to the
    number of queries it still answers [pending] without an address; an
    instance is created with [boot] such queries ahead and then runs at
    [address].  A missing instance raises [NotFoundException]; creating a
    name that is taken is refused. *)
Definition fake_state : Type := string -> option nat.

Definition fake_empty : fake_state := fun _ => None.

Definition fake_set (n : string) (v : option nat) (p : fake_state) : fake_state :=
  fun m => if String.eqb m n then v else p m.

Definition fake (boot : nat) (address : string) : Lightsail fake_state :=
  {| lightsail_get_instance := fun n p =>
       match p n with
       | None => (inl (NotFoundException "NotFoundException"), p)
       | Some O => (inr (mkInstance "running" (Some address)), p)
       | Some (S k) => (inr (mkInstance "pending" None), fake_set n (Some k) p)
       end;
     lightsail_create_instances := fun args p =>
       if existsb (fun n => match p n with Some _ => true | None => false end)
            (instanceNames args)
       then (inl (ProviderError "InvalidInputException"), p)
       else (inr tt,
             fun m => if existsb (String.eqb m) (instanceNames args)
                      then Some boot else p m);
     lightsail_put_instance_public_ports := fun _ n p =>
       match p n with
       | None => (inl (NotFoundException "NotFoundException"), p)
       | Some _ => (inr tt, p)
       end;
     lightsail_delete_instance := fun n p =>
       match p n with
       | None => (inl (NotFoundException "NotFoundException"), p)
       | Some _ => (inr tt, fake_set n None p)
       end |}.

(** A world to run the tool in: the clock at 0, the fake provider empty,
    no environment variable set, every file writable. *)
Definition fresh_world : World fake_state :=
  mkWorld 0 fake_empty (fun _ => None) (fun _ _ => None).

(** A stub of the client constructor: it raises for a region name that
    holds a space, as botocore does for a name that is no host label, and
    answers the client [c] otherwise. *)
Definition boto3_stub {P : Type} (c : Lightsail P) (region : string)
    : exn + Lightsail P :=
  if all_chars (fun ch => negb (Ascii.eqb ch " ")) region then inr c
  else inl (ProviderError ("Provided region_name '" ++ region
                           ++ "' doesn't match a supported format.")).

(** A stub of the parser of [main], for command lines in plain form: the
    action and the options written in full, each followed by its value.
    A command line without action, without [--pr-number] or without
    [--repo-name], a PR number that is no decimal integer, an option
    without value and any other argument end the process with status 2,
    as they do with argparse. *)
Definition plain_int (s : string) : option Z :=
  match s with
  | EmptyString => None
  | String "-" EmptyString => None
  | _ => option_map Z.of_int (NilZero.int_of_string s)
  end.

Record Options : Type := mkOptions {
  opt_action : option Action;
  opt_pr_number : option Z;
  opt_repo_name : option string;
  opt_branch : option string;
  opt_commit_sha : option string;
  opt_region : string }.

Fixpoint plain_options (argv : list string) (o : Options) : option Options :=
  match argv with
  | [] => Some o
  | "--pr-number" :: v :: rest =>
      match plain_int v with
      | Some n => plain_options rest
                    (mkOptions (opt_action o) (Some n) (opt_repo_name o) (opt_branch o)
                       (opt_commit_sha o) (opt_region o))
      | None => None
      end
  | "--repo-name" :: v :: rest =>
      plain_options rest
        (mkOptions (opt_action o) (opt_pr_number o) (Some v) (opt_branch o)
           (opt_commit_sha o) (opt_region o))
  | "--branch" :: v :: rest =>
      plain_options rest
        (mkOptions (opt_action o) (opt_pr_number o) (opt_repo_name o) (Some v)
           (opt_commit_sha o) (opt_region o))
  | "--commit-sha" :: v :: rest =>
      plain_options rest
        (mkOptions (opt_action o) (opt_pr_number o) (opt_repo_name o) (opt_branch o)
           (Some v) (opt_region o))
  | "--region" :: v :: rest =>
      plain_options rest
        (mkOptions (opt_action o) (opt_pr_number o) (opt_repo_name o) (opt_branch o)
           (opt_commit_sha o) v)
  | "create" :: rest =>
      match opt_action o with
      | None => plain_options rest
                  (mkOptions (Some create) (opt_pr_number o) (opt_repo_name o)
                     (opt_branch o) (opt_commit_sha o) (opt_region o))
      | Some _ => None
      end
  | "delete" :: rest =>
      match opt_action o with
      | None => plain_options rest
                  (mkOptions (Some delete) (opt_pr_number o) (opt_repo_name o)
                     (opt_branch o) (opt_commit_sha o) (opt_region o))
      | Some _ => None
      end
  | _ => None
  end.

Definition plain_parse_args (argv : list string) : Z + Namespace :=
  match plain_options argv (mkOptions None None None None None "us-east-1") with
  | Some (mkOptions (Some action) (Some pr_number) (Some repo_name) branch commit_sha
            region) =>
      inr (mkNamespace action pr_number repo_name branch commit_sha region)
  | _ => inl 2
  end.

(** The command lines of the examples: PR 7 of [acme/widgets]. *)
Definition create_argv : list string :=
  ["create"; "--pr-number"; "7"; "--repo-name"; "acme/widgets";
   "--branch"; "feature-x"; "--commit-sha"; "abcdef1"].

Definition delete_argv : list string :=
  ["delete"; "--pr-number"; "7"; "--repo-name"; "acme/widgets"].

(** A world like [w] in which the block [with open(path, mode)] raises
    [e]. *)
Definition unwritable {P : Type} (path mode : string) (e : exn) (w : World P) : World P :=
  mkWorld (now w) (cloud w) (environ w)
    (fun path' mode' =>
       if String.eqb path' path && String.eqb mode' mode then Some e
       else files w path' mode').

(** A world like [w] with the environment variable [name] set to [v]. *)
Definition setenv {P : Type} (name v : string) (w : World P) : World P :=
  mkWorld (now w) (cloud w)
    (fun name' => if String.eqb name' name then Some v else environ w name')
    (files w).

(** The provider [c], except that every port setting is refused with [e]. *)
Definition refusing_ports {P : Type} (c : Lightsail P) (e : exn) : Lightsail P :=
  {| lightsail_get_instance := lightsail_get_instance c;
     lightsail_create_instances := lightsail_create_instances c;
     lightsail_put_instance_public_ports := fun _ _ p => (inl e, p);
     lightsail_delete_instance := lightsail_delete_instance c |}.

Section Contract.
Context {P : Type} (c : Lightsail P).

(** The existence check would find [n] in the provider state [p]. *)
Definition present (n : string) (p : P) : bool :=
  match fst (lightsail_get_instance c n p) with
  | inl (NotFoundException _) => false
  | _ => true
  end.

(** In the provider state [p] the instance [n] answers with an address. *)
Definition addressed (n : string) (p : P) : bool :=
  match fst (lightsail_get_instance c n p) with
  | inr i => has_publicIpAddress i
  | inl _ => false
  end.

(** A provider in which nothing but a deletion removes an instance or its
    address: an instance whose creation was accepted is found afterwards,
    and queries and port settings keep what is found, and what has an
    address, that way. *)
Record persistent : Prop := mkPersistent {
  created_present : forall args p n,
    fst (lightsail_create_instances c args p) = inr tt ->
    In n (instanceNames args) ->
    present n (snd (lightsail_create_instances c args p)) = true;
  get_present : forall n m p,
    present n p = true ->
    present n (snd (lightsail_get_instance c m p)) = true;
  ports_present : forall n m ports p,
    present n p = true ->
    present n (snd (lightsail_put_instance_public_ports c ports m p)) = true;
  get_addressed : forall n m p,
    addressed n p = true ->
    addressed n (snd (lightsail_get_instance c m p)) = true;
  ports_addressed : forall n m ports p,
    addressed n p = true ->
    addressed n (snd (lightsail_put_instance_public_ports c ports m p)) = true }.

End Contract.

End Provider.

(** ** What the methods compute, case by case

    The definitions of this module restate the methods as functions of
    the provider's answers.  They are proved equal to the methods below
    and carry the reasoning shared by the two files. *)

Module Flow.
Import PyStr Py Provider.

Section WithClient.
Context {P : Type} (c : Lightsail P).

(** The world [w] with the provider in state [p]. *)
Definition at_cloud (w : World P) (p : P) : World P :=
  mkWorld (now w) p (environ w) (files w).

(** The events of one query of the readiness poll that goes on. *)
Definition poll_events (n : string) (answer : exn + Instance) : list Event :=
  match answer with
  | inl e => [Call (GetInstance n) (Some e); Console ("   Waiting... " ++ exn_str e)]
  | inr i => [Call (GetInstance n) None; Console ("   Status: " ++ state_name i)]
  end.

(** The events of the query that ends the readiness poll. *)
Definition ready_events (n ip : string) : list Event :=
  [Call (GetInstance n) None;
   Console "   Status: running";
   Console ("✅ Instance ready with IP: " ++ ip)].

(** The readiness poll gives up. *)
Definition timed_out (max_wait : Z) (w : World P) : Res P (option string) :=
  mkRes (Return None) w
    [Console ("❌ Instance did not become ready within " ++ str_of_int max_wait ++ "s")].

(** One turn of the readiness poll from [w], followed by [rest]. *)
Definition poll_step (n : string) (start_time max_wait : Z)
    (rest : World P -> Res P (option string)) (w : World P) : Res P (option string) :=
  if now w - start_time <? max_wait then
    let (answer, p') := lightsail_get_instance c n (cloud w) in
    match ready_address answer with
    | Some ip => mkRes (Return (Some ip)) (at_cloud w p') (ready_events n ip)
    | None =>
        add_log (poll_events n answer)
          (rest (mkWorld (now w + 10) p' (environ w) (files w)))
    end
  else timed_out max_wait w.

(** The events of the firewall step for the provider's answer. *)
Definition firewall_events (ports : list PortInfo) (n : string) (answer : exn + unit)
    : list Event :=
  Console "🔥 Configuring firewall..." ::
  match answer with
  | inr _ => [Call (PutInstancePublicPorts ports n) None;
              Console "✅ Firewall configured"]
  | inl e => [Call (PutInstancePublicPorts ports n) (Some e);
              Console ("⚠️  Firewall configuration failed: " ++ exn_str e)]
  end.

(** The events up to the creation request being accepted. *)
Definition created_events (args : CreateInstances) (n m : string) : list Event :=
  [Call (GetInstance n) (Some (NotFoundException m));
   Console ("Creating instance: " ++ n);
   Call (CreateInstancesReq args) None;
   Console "✅ Instance creation initiated"].

(** The block that binds [instance_ip], for the creation arguments
    [args], the port list [ports] and the readiness poll [wait]. *)
Definition ensure_flow (args : CreateInstances) (ports : list PortInfo)
    (wait : World P -> Res P (option string)) (n : string) (w : World P)
    : Res P string :=
  let (found, p1) := lightsail_get_instance c n (cloud w) in
  match found with
  | inr _ =>
      let (answer, p2) := lightsail_get_instance c n p1 in
      match answer with
      | inr i =>
          mkRes (match publicIpAddress i with
                 | Some ip => Return ip
                 | None => Raise (KeyError "publicIpAddress")
                 end)
            (at_cloud w p2)
            [Call (GetInstance n) None;
             Console "ℹ️  Instance already exists, will update deployment";
             Call (GetInstance n) None]
      | inl e =>
          mkRes (Raise e) (at_cloud w p2)
            [Call (GetInstance n) None;
             Console "ℹ️  Instance already exists, will update deployment";
             Call (GetInstance n) (Some e)]
      end
  | inl (NotFoundException m) =>
      let (answer, p2) := lightsail_create_instances c args p1 in
      match answer with
      | inl e =>
          mkRes (Exit 1) (at_cloud w p2)
            [Call (GetInstance n) (Some (NotFoundException m));
             Console ("Creating instance: " ++ n);
             Call (CreateInstancesReq args) (Some e);
             Console ("❌ Failed to create instance: " ++ exn_str e)]
      | inr _ =>
          match wait (at_cloud w p2) with
          | mkRes (Return o) w3 l3 =>
              if truthy_opt o then
                let (opened, p3) :=
                  lightsail_put_instance_public_ports c ports n (cloud w3) in
                mkRes (Return (str_value o)) (at_cloud w3 p3)
                  (created_events args n m ++ l3 ++ firewall_events ports n opened)
              else mkRes (Exit 1) w3 (created_events args n m ++ l3)
          | mkRes (Raise e) w3 l3 => mkRes (Raise e) w3 (created_events args n m ++ l3)
          | mkRes (Exit k) w3 l3 => mkRes (Exit k) w3 (created_events args n m ++ l3)
          end
      end
  | inl e => mkRes (Raise e) (at_cloud w p1) [Call (GetInstance n) (Some e)]
  end.

End WithClient.

(** The console lines [create_preview] starts with. *)
Definition header_events (rule : string) (pr_number : Z)
    (repo_name branch commit_sha instance_name : string) : list Event :=
  [Console rule;
   Console "🚀 Creating Preview Environment";
   Console rule;
   Console ("PR Number: " ++ str_of_int pr_number);
   Console ("Repository: " ++ repo_name);
   Console ("Branch: " ++ branch);
   Console ("Commit: " ++ slice_to 7 commit_sha);
   Console ("Instance: " ++ instance_name);
   Console (rule ++ nl)].

(** The console lines of the report [create_preview] ends with. *)
Definition report_lines (rule : string) (instance_name instance_ip : string)
    : list Event :=
  [Console (nl ++ rule);
   Console "✅ Preview Environment Ready!";
   Console rule;
   Console ("URL: http://" ++ instance_ip ++ "/");
   Console ("Instance: " ++ instance_name)].

(** The report [create_preview] ends with when the run completes, the
    output file included when [GITHUB_OUTPUT] names one. *)
Definition report_events (rule : string) (instance_name instance_ip : string)
    (github_output : option string) : list Event :=
  report_lines rule instance_name instance_ip ++
  (if truthy_opt github_output then
     [FileOut (str_value github_output) "a"
        [ "preview_url=http://" ++ instance_ip ++ "/" ++ nl;
          "instance_ip=" ++ instance_ip ++ nl;
          "instance_name=" ++ instance_name ++ nl ]]
   else []).

(** The exception the block that appends to the file named by
    [GITHUB_OUTPUT] raises in the world [w], if the variable names a file
    and the block raises. *)
Definition output_error {P : Type} (w : World P) : option exn :=
  match environ w "GITHUB_OUTPUT" with
  | Some path => if truthy path then files w path "a" else None
  | None => None
  end.

(** [create_preview] once the block that binds [instance_ip] ended as
    [ensured].  The deployment step sleeps [seconds]; it then raises
    [deploy_error], having emitted [deploy_started], or completes, having
    emitted [deploy instance_ip].  The report follows, and ends in the
    exception of the output block if that raises. *)
Definition create_flow {P : Type} (ensured : Res P string) (header : list Event)
    (deploy_error : World P -> option exn) (deploy_started : list Event)
    (deploy : string -> list Event) (seconds : Z)
    (rule instance_name : string) : Res P bool :=
  match ensured with
  | mkRes (Return ip) w1 l1 =>
      let w2 := mkWorld (now w1 + seconds) (cloud w1) (environ w1) (files w1) in
      match deploy_error w1 with
      | Some e => mkRes (Raise e) w2 (header ++ l1 ++ deploy_started)
      | None =>
          match output_error w1 with
          | Some e =>
              mkRes (Raise e) w2
                (header ++ l1 ++ deploy ip ++ report_lines rule instance_name ip)
          | None =>
              mkRes (Return true) w2
                (header ++ l1 ++ deploy ip
                 ++ report_events rule instance_name ip (environ w1 "GITHUB_OUTPUT"))
          end
      end
  | mkRes (Raise e) w1 l1 => mkRes (Raise e) w1 (header ++ l1)
  | mkRes (Exit k) w1 l1 => mkRes (Exit k) w1 (header ++ l1)
  end.

(** How [create_preview] ends once an address is bound, in a world where
    the deployment step raises [deploy_error] and the output block
    [output_error]. *)
Definition create_outcome (deploy_error output_error : option exn) : outcome bool :=
  match deploy_error, output_error with
  | Some e, _ => Raise e
  | None, Some e => Raise e
  | None, None => Return true
  end.

(** The deployment step of [src/scripts] writes no file. *)
Definition scripts_deploy_error {P : Type} (w : World P) : option exn := None.

(** The deployment step of [src/pr-preview-system] writes the script. *)
Definition upload_deploy_error {P : Type} (w : World P) : option exn :=
  files w "/tmp/deploy.sh" "w".

(** The events of [deploy_application] in [src/pr-preview-system] before
    it writes the script. *)
Definition upload_deploy_started : list Event :=
  [Console "📦 Deploying application...";
   Console "⏳ Waiting for SSH to be ready..."].

(** The events of [deploy_application] in [src/scripts], for the address
    [instance_ip]. *)
Definition scripts_deploy_events (instance_ip : string) : list Event :=
  [Console "📦 Application deployment initiated via user data...";
   Console "⏳ Waiting for deployment to complete (this may take 2-3 minutes)...";
   Console ("✅ Deployment should be complete. Check " ++ instance_ip
            ++ " in your browser.")].

(** The events of [deploy_application] in [src/pr-preview-system]. *)
Definition upload_deploy_events (repo_name branch instance_ip : string) : list Event :=
  [Console "📦 Deploying application...";
   Console "⏳ Waiting for SSH to be ready...";
   FileOut "/tmp/deploy.sh" "w" [PrPreviewSystem.deploy_script repo_name branch];
   Console ("📤 Uploading deployment script to " ++ instance_ip ++ "...")].

(** The console lines [delete_preview] starts with. *)
Definition cleanup_events (rule : string) (pr_number : Z) (instance_name : string)
    : list Event :=
  [Console rule;
   Console "🧹 Cleaning Up Preview Environment";
   Console rule;
   Console ("PR Number: " ++ str_of_int pr_number);
   Console ("Instance: " ++ instance_name);
   Console (rule ++ nl)].

(** An event of the readiness poll for [n]: console output, file output
    or a query of [n]. *)
Definition polling (n : string) (ev : Event) : Prop :=
  match ev with
  | Call (GetInstance m) _ => m = n
  | Call _ _ => False
  | _ => True
  end.

End Flow.

(** ** Further providers *)

Module ProviderMore.
Import PyStr Py Provider.

(** The provider [c], except that every creation request is refused
    with [e]. *)
Definition refusing_creation {P : Type} (c : Lightsail P) (e : exn) : Lightsail P :=
  {| lightsail_get_instance := lightsail_get_instance c;
     lightsail_create_instances := fun _ p => (inl e, p);
     lightsail_put_instance_public_ports := lightsail_put_instance_public_ports c;
     lightsail_delete_instance := lightsail_delete_instance c |}.

(** The provider [c], except that every query is answered with [e]. *)
Definition failing_queries {P : Type} (c : Lightsail P) (e : exn) : Lightsail P :=
  {| lightsail_get_instance := fun _ p => (inl e, p);
     lightsail_create_instances := lightsail_create_instances c;
     lightsail_put_instance_public_ports := lightsail_put_instance_public_ports c;
     lightsail_delete_instance := lightsail_delete_instance c |}.

(** The three lines [create_preview] appends to the file [GITHUB_OUTPUT]
    names. *)
Definition output_lines (instance_name instance_ip : string) : list string :=
  [ "preview_url=http://" ++ instance_ip ++ "/" ++ nl;
    "instance_ip=" ++ instance_ip ++ nl;
    "instance_name=" ++ instance_name ++ nl ].

End ProviderMore.

(** * Properties *)

(** ** Strings and the derived name *)

Module NameFacts.
Import PyStr.

Lemma length_slice_to n s : (String.length (slice_to n s) <= n)%nat.
Proof.
  unfold slice_to. revert s.
  induction n as [| n IH]; intros [| c s]; simpl; try lia.
  specialize (IH s). lia.
Qed.

Lemma all_chars_append p s t :
  all_chars p (s ++ t) = all_chars p s && all_chars p t.
Proof.
  induction s as [| c s IH]; simpl; [reflexivity |].
  rewrite IH. apply andb_assoc.
Qed.

Lemma all_chars_slice_to p n s :
  all_chars p s = true -> all_chars p (slice_to n s) = true.
Proof.
  unfold slice_to. revert s.
  induction n as [| n IH]; intros [| c s]; simpl; try reflexivity.
  intros [Hc Hs]%andb_prop. rewrite Hc, (IH s Hs). reflexivity.
Qed.

Lemma all_chars_replace (p q : ascii -> bool) old new s :
  (forall c, p c = true -> q (if Ascii.eqb c old then new else c) = true) ->
  all_chars p s = true -> all_chars q (replace old new s) = true.
Proof.
  intros Hpq. induction s as [| c s IH]; simpl; [reflexivity |].
  intros [Hc Hs]%andb_prop. rewrite (Hpq c Hc), (IH Hs). reflexivity.
Qed.

Lemma split_all_chars (p : ascii -> bool) sep s :
  all_chars p s = true ->
  Forall (fun x => all_chars (fun c => p c && negb (Ascii.eqb c sep)) x = true)
    (split sep s).
Proof.
  induction s as [| c s IH]; simpl.
  - intros _. repeat constructor.
  - intros [Hc Hs]%andb_prop. specialize (IH Hs).
    destruct (Ascii.eqb c sep) eqn:E.
    + constructor; [reflexivity | exact IH].
    + destruct (split sep s) as [| x xs].
      * repeat constructor. simpl. rewrite Hc, E. reflexivity.
      * inversion IH; subst. constructor; [| assumption].
        simpl. rewrite Hc, E. simpl. assumption.
Qed.

Lemma item_last_Forall (Q : string -> Prop) l :
  Q EmptyString -> Forall Q l -> Q (item_last l).
Proof.
  intros H0 H. unfold item_last.
  induction H as [| x l Hx Hl IH]; simpl; [exact H0 |].
  destruct l; [exact Hx | exact IH].
Qed.

Lemma all_chars_uint p d :
  (forall c, is_digit c = true -> p c = true) ->
  all_chars p (NilEmpty.string_of_uint d) = true.
Proof.
  intros Hp. induction d; simpl; try reflexivity;
    rewrite IHd, Hp; reflexivity.
Qed.

Lemma all_chars_str_of_int p i :
  (forall c, is_digit c = true -> p c = true) -> p "-"%char = true ->
  all_chars p (str_of_int i) = true.
Proof.
  intros Hd Hm. unfold str_of_int.
  destruct (Z.to_int i) as [d | d]; simpl.
  - destruct d; try reflexivity; simpl; rewrite ?all_chars_uint, ?Hd; auto.
  - rewrite Hm. destruct d; try reflexivity; simpl; rewrite ?all_chars_uint, ?Hd; auto.
Qed.

Lemma all_chars_weaken (p q : ascii -> bool) s :
  (forall c, p c = true -> q c = true) -> all_chars p s = true -> all_chars q s = true.
Proof.
  intros H. induction s as [| c s IH]; simpl; [reflexivity |].
  intros [Hc Hs]%andb_prop. rewrite (H c Hc), (IH Hs). reflexivity.
Qed.

Ltac by_cases_on_ascii c :=
  destruct c as [[] [] [] [] [] [] [] []]; vm_compute; intros H;
  first [reflexivity | discriminate H].

Lemma digit_alnum_dash c : is_digit c = true -> alnum_dash c = true.
Proof. by_cases_on_ascii c. Qed.

Lemma digit_lower_digit_dash c : is_digit c = true -> lower_digit_dash c = true.
Proof. by_cases_on_ascii c. Qed.

Lemma underscore_step c :
  repo_char c && negb (Ascii.eqb c "/") = true ->
  (alnum_dash (if Ascii.eqb c "_" then "-"%char else c)
   || Ascii.eqb (if Ascii.eqb c "_" then "-"%char else c) ".") = true.
Proof. by_cases_on_ascii c. Qed.

Lemma dot_step c :
  alnum_dash c || Ascii.eqb c "." = true ->
  alnum_dash (if Ascii.eqb c "." then "-"%char else c) = true.
Proof. by_cases_on_ascii c. Qed.

Lemma underscore_step_lower c :
  repo_char_lower c && negb (Ascii.eqb c "/") = true ->
  (lower_digit_dash (if Ascii.eqb c "_" then "-"%char else c)
   || Ascii.eqb (if Ascii.eqb c "_" then "-"%char else c) ".") = true.
Proof. by_cases_on_ascii c. Qed.

Lemma dot_step_lower c :
  lower_digit_dash c || Ascii.eqb c "." = true ->
  lower_digit_dash (if Ascii.eqb c "." then "-"%char else c) = true.
Proof. by_cases_on_ascii c. Qed.

Lemma digit_plain_char c : is_digit c = true -> plain_char c = true.
Proof. by_cases_on_ascii c. Qed.

Lemma underscore_step_plain c :
  true && negb (Ascii.eqb c "/") = true ->
  (fun d => negb (Ascii.eqb d "/") && negb (Ascii.eqb d "_"))
    (if Ascii.eqb c "_" then "-"%char else c) = true.
Proof. by_cases_on_ascii c. Qed.

Lemma dot_step_plain c :
  negb (Ascii.eqb c "/") && negb (Ascii.eqb c "_") = true ->
  plain_char (if Ascii.eqb c "." then "-"%char else c) = true.
Proof. by_cases_on_ascii c. Qed.

Lemma all_chars_true s : all_chars (fun _ => true) s = true.
Proof. induction s as [| c s IH]; [reflexivity | exact IH]. Qed.

(** The alphabet of the derived name, from the alphabet [p] of the
    identifier: [q] holds after the underscores are replaced and [r]
    after the dots are. *)
Lemma get_instance_name_chars (p q r : ascii -> bool) pr repo :
  (forall c, is_digit c = true -> r c = true) ->
  all_chars r "pr-" = true ->
  (forall c, p c && negb (Ascii.eqb c "/") = true ->
             q (if Ascii.eqb c "_" then "-"%char else c) = true) ->
  (forall c, q c = true -> r (if Ascii.eqb c "." then "-"%char else c) = true) ->
  all_chars p repo = true ->
  all_chars r (Scripts.get_instance_name pr repo) = true.
Proof.
  intros Hdigit Hpr Hq Hr Hrepo. unfold Scripts.get_instance_name.
  apply all_chars_slice_to. rewrite !all_chars_append, Hpr.
  assert (r "-"%char = true) as Hdash.
  { cbn in Hpr. apply andb_prop in Hpr as [_ Hpr]. apply andb_prop in Hpr as [_ Hpr].
    apply andb_prop in Hpr as [Hpr _]. exact Hpr. }
  rewrite (all_chars_str_of_int r pr Hdigit Hdash). cbn [all_chars andb].
  rewrite Hdash. cbn [andb].
  apply all_chars_replace with (p := q); [exact Hr |].
  apply all_chars_replace with (p := fun c => p c && negb (Ascii.eqb c "/")); [exact Hq |].
  apply item_last_Forall; [reflexivity |].
  apply split_all_chars. exact Hrepo.
Qed.

End NameFacts.

(** ** Running a sequence step by step *)

Module RunFacts.
Import PyStr Py Provider Flow.

Lemma bind_unfold {P A B} (m : M P A) (k : A -> M P B) w :
  bind m k w =
  match m w with
  | mkRes (Return a) w' l => add_log l (k a w')
  | mkRes (Raise e) w' l => mkRes (Raise e) w' l
  | mkRes (Exit n) w' l => mkRes (Exit n) w' l
  end.
Proof. unfold bind. destruct (m w) as [[a | e | n] w' l]; reflexivity. Qed.

Ltac run_py :=
  cbv beta iota zeta delta
    [bind ret raise sys_exit try_except print time_time time_sleep os_getenv
     os_environ_item with_open_write provider_call item_publicIpAddress
     add_log out world log].

(** One step of a sequence: the first computation is evaluated where it
    is a primitive of the runtime. *)
Ltac step_py :=
  rewrite bind_unfold;
  cbv beta iota zeta delta
    [ret raise sys_exit print time_time time_sleep os_getenv os_environ_item
     with_open_write item_publicIpAddress at_cloud];
  cbn [now cloud environ].

Ltac done_py :=
  cbv beta iota zeta delta [add_log out world log at_cloud];
  cbn [app now cloud environ].

End RunFacts.


(** ** Properties of the restated methods *)

Module FlowFacts.
Import PyStr Py Provider Flow.

Lemma calls_app l1 l2 : calls (l1 ++ l2) = (calls l1 ++ calls l2)%list.
Proof.
  induction l1 as [| [line | req raised | path mode writes] l1 IH]; cbn;
    rewrite ?IH; reflexivity.
Qed.

Lemma creations_app l1 l2 : creations (l1 ++ l2) = (creations l1 + creations l2)%nat.
Proof.
  induction l1 as [| [line | [m | args | ports m | m] [e |] | path mode writes] l1 IH];
    cbn; rewrite ?IH; reflexivity.
Qed.

Lemma In_call_calls req raised l : In (Call req raised) l -> In req (calls l).
Proof.
  induction l as [| [line | req' raised' | path mode writes] l IH]; cbn;
    [contradiction | | |].
  - intros [H | H]; [discriminate | exact (IH H)].
  - intros [[= -> _] | H]; [left; reflexivity | right; exact (IH H)].
  - intros [H | H]; [discriminate | exact (IH H)].
Qed.

Lemma no_calls_no_call req raised l : calls l = [] -> ~ In (Call req raised) l.
Proof. intros H Hin. apply In_call_calls in Hin. rewrite H in Hin. exact Hin. Qed.

Lemma polling_creations n l : Forall (polling n) l -> creations l = O.
Proof.
  induction 1 as [| ev l H _ IH]; [reflexivity |].
  destruct ev as [line | [m | args | ports m | m] [e |] | path mode writes];
    cbn in *; solve [assumption | contradiction].
Qed.

Lemma polling_calls n l :
  Forall (polling n) l -> calls l = repeat (GetInstance n) (length (calls l)).
Proof.
  induction 1 as [| ev l H _ IH]; [reflexivity |].
  destruct ev as [line | [m | args | ports m | m] raised | path mode writes];
    cbn in *; try assumption; try contradiction.
  subst m. f_equal. exact IH.
Qed.

Lemma polling_In n l ev : Forall (polling n) l -> In ev l -> polling n ev.
Proof. intros H Hin. rewrite Forall_forall in H. exact (H ev Hin). Qed.

Lemma polling_poll_events n answer : Forall (polling n) (poll_events n answer).
Proof. destruct answer; repeat constructor. Qed.

Lemma polling_ready_events n ip : Forall (polling n) (ready_events n ip).
Proof. repeat constructor. Qed.

Lemma ready_address_addressed {P} (c : Lightsail P) n p ip :
  ready_address (fst (lightsail_get_instance c n p)) = Some ip ->
  addressed c n p = true.
Proof.
  unfold ready_address, addressed, has_publicIpAddress.
  destruct (fst (lightsail_get_instance c n p)) as [e | i]; [discriminate |].
  destruct (String.eqb (state_name i) "running"); [| discriminate].
  intros ->. reflexivity.
Qed.

Lemma addressed_present {P} (c : Lightsail P) n p :
  addressed c n p = true -> present c n p = true.
Proof.
  unfold addressed, present.
  destruct (fst (lightsail_get_instance c n p)) as [e | i]; [discriminate | reflexivity].
Qed.

(** *** The readiness poll: any solution of its unfolding equation *)

Section Poll.
Context {P : Type} (c : Lightsail P) (n : string) (start_time max_wait : Z).
Variable loop : World P -> Res P (option string).
Hypothesis loop_eq : forall w, loop w = poll_step c n start_time max_wait loop w.

Lemma poll_ind (Q : World P -> Res P (option string) -> Prop) :
  (forall w, (now w - start_time <? max_wait) = false -> Q w (timed_out max_wait w)) ->
  (forall w answer p' ip,
      (now w - start_time <? max_wait) = true ->
      lightsail_get_instance c n (cloud w) = (answer, p') ->
      ready_address answer = Some ip ->
      Q w (mkRes (Return (Some ip)) (at_cloud w p') (ready_events n ip))) ->
  (forall w answer p',
      (now w - start_time <? max_wait) = true ->
      lightsail_get_instance c n (cloud w) = (answer, p') ->
      ready_address answer = None ->
      Q (mkWorld (now w + 10) p' (environ w) (files w)) (loop (mkWorld (now w + 10) p' (environ w) (files w))) ->
      Q w (add_log (poll_events n answer) (loop (mkWorld (now w + 10) p' (environ w) (files w))))) ->
  forall w, Q w (loop w).
Proof.
  intros Hout Hready Hmore w.
  remember (Z.to_nat (start_time + max_wait - now w)) as k eqn:Hk.
  revert w Hk. induction k as [k IH] using lt_wf_ind. intros w Hk.
  rewrite loop_eq. unfold poll_step.
  destruct (now w - start_time <? max_wait) eqn:G; [| apply Hout; exact G].
  destruct (lightsail_get_instance c n (cloud w)) as [answer p'] eqn:E.
  destruct (ready_address answer) as [ip |] eqn:R.
  - apply (Hready w answer p' ip G E R).
  - apply (Hmore w answer p' G E R).
    apply (IH (Z.to_nat (start_time + max_wait - (now w + 10)))); [| reflexivity].
    subst k. apply Z.ltb_lt in G. lia.
Qed.

(** The poll ends in a returned value and emits nothing but its queries. *)
Lemma poll_returns w : exists o, out (loop w) = Return o.
Proof.
  apply poll_ind with (Q := fun _ r => exists o, out r = Return o); clear w.
  - intros w _. exists None. reflexivity.
  - intros w answer p' ip _ _ _. exists (Some ip). reflexivity.
  - intros w answer p' _ _ _ IH. exact IH.
Qed.

Lemma poll_polling w : Forall (polling n) (log (loop w)).
Proof.
  apply poll_ind with (Q := fun _ r => Forall (polling n) (log r)); clear w.
  - intros w _. repeat constructor.
  - intros w answer p' ip _ _ _. apply polling_ready_events.
  - intros w answer p' _ _ _ IH. cbn [add_log log].
    apply Forall_app. split; [apply polling_poll_events | exact IH].
Qed.

Lemma poll_present (Hc : persistent c) x w :
  present c x (cloud w) = true -> present c x (cloud (world (loop w))) = true.
Proof.
  apply poll_ind with
    (Q := fun w r => present c x (cloud w) = true -> present c x (cloud (world r)) = true);
    clear w.
  - intros w _ H. exact H.
  - intros w answer p' ip _ E _ H. cbn.
    replace p' with (snd (lightsail_get_instance c n (cloud w))) by (rewrite E; reflexivity).
    apply (get_present c Hc). exact H.
  - intros w answer p' _ E _ IH H. cbn [add_log world]. apply IH. cbn.
    replace p' with (snd (lightsail_get_instance c n (cloud w))) by (rewrite E; reflexivity).
    apply (get_present c Hc). exact H.
Qed.

Lemma poll_addressed (Hc : persistent c) w ip :
  out (loop w) = Return (Some ip) -> addressed c n (cloud (world (loop w))) = true.
Proof.
  apply poll_ind with
    (Q := fun _ r => out r = Return (Some ip) -> addressed c n (cloud (world r)) = true);
    clear w.
  - intros w _ H. discriminate H.
  - intros w answer p' ip' _ E R _. cbn.
    replace p' with (snd (lightsail_get_instance c n (cloud w))) by (rewrite E; reflexivity).
    apply (get_addressed c Hc).
    apply ready_address_addressed with (ip := ip'). rewrite E. exact R.
  - intros w answer p' _ _ _ IH H. exact (IH H).
Qed.

(** The poll leaves the environment and the file system alone. *)
Lemma poll_host w :
  environ (world (loop w)) = environ w /\ files (world (loop w)) = files w.
Proof.
  apply poll_ind with
    (Q := fun w r => environ (world r) = environ w /\ files (world r) = files w);
    clear w.
  - intros w _. split; reflexivity.
  - intros w answer p' ip _ _ _. split; reflexivity.
  - intros w answer p' _ _ _ IH. exact IH.
Qed.

(** Two solutions of the unfolding equation agree. *)
Lemma poll_unique (loop' : World P -> Res P (option string)) :
  (forall w, loop' w = poll_step c n start_time max_wait loop' w) ->
  forall w, loop w = loop' w.
Proof.
  intros loop'_eq w.
  apply poll_ind with (Q := fun w r => r = loop' w); clear w.
  - intros w G. rewrite loop'_eq. unfold poll_step. rewrite G. reflexivity.
  - intros w answer p' ip G E R. rewrite loop'_eq. unfold poll_step.
    rewrite G, E, R. reflexivity.
  - intros w answer p' G E R IH. rewrite (loop'_eq w). unfold poll_step.
    rewrite G, E, R, IH. reflexivity.
Qed.

End Poll.

(** *** The readiness poll against the stub *)

Section PollStub.
Context (K : nat) (early : nat -> exn + Instance) (address : string).
Context (n : string) (start_time max_wait : Z).
Variable loop : World nat -> Res nat (option string).
Hypothesis loop_eq :
  forall w, loop w = poll_step (poll_stub K early address) n start_time max_wait loop w.
Hypothesis early_not_ready : forall i, (S i < K)%nat -> ready_address (early i) = None.

Lemma poll_stub_run d w :
  (cloud w + d + 1 = K)%nat ->
  if now w - start_time + Z.of_nat d * 10 <? max_wait then
    out (loop w) = Return (Some address)
    /\ calls (log (loop w)) = repeat (GetInstance n) (S d)
    /\ now (world (loop w)) = now w + Z.of_nat d * 10
  else
    out (loop w) = Return None
    /\ (length (calls (log (loop w))) <= d)%nat.
Proof.
  revert w. induction d as [| d IH]; intros w Hq.
  - rewrite loop_eq. unfold poll_step. cbn [Z.of_nat]. rewrite Z.mul_0_l, Z.add_0_r.
    destruct (now w - start_time <? max_wait); [| split; [reflexivity | cbn; lia]].
    cbn [lightsail_get_instance poll_stub].
    replace (S (cloud w) <? K)%nat with false
      by (symmetry; apply Nat.ltb_ge; lia).
    cbn. repeat split. lia.
  - rewrite loop_eq. unfold poll_step.
    destruct (now w - start_time <? max_wait) eqn:G.
    + cbn [lightsail_get_instance poll_stub].
      replace (S (cloud w) <? K)%nat with true
        by (symmetry; apply Nat.ltb_lt; lia).
      rewrite early_not_ready by lia.
      specialize (IH (mkWorld (now w + 10) (S (cloud w)) (environ w) (files w))).
      cbn [now cloud] in IH.
      replace (now w + 10 - start_time + Z.of_nat d * 10)
        with (now w - start_time + Z.of_nat (S d) * 10) in IH by lia.
      destruct (now w - start_time + Z.of_nat (S d) * 10 <? max_wait).
      * destruct IH as (Ho & Hc & Hn); [lia |].
        cbn [add_log out log world]. rewrite calls_app, Hc, Hn.
        repeat split; [exact Ho | | lia].
        destruct (early (cloud w)); reflexivity.
      * destruct IH as (Ho & Hc); [lia |].
        cbn [add_log out log world]. rewrite calls_app, length_app.
        split; [exact Ho |].
        destruct (early (cloud w)); cbn; lia.
    + replace (now w - start_time + Z.of_nat (S d) * 10 <? max_wait) with false.
      * split; [reflexivity | cbn; lia].
      * symmetry. apply Z.ltb_ge. apply Z.ltb_ge in G. lia.
Qed.

End PollStub.

(** *** The block that binds [instance_ip] *)

Section Ensure.
Context {P : Type} (c : Lightsail P) (args : CreateInstances) (ports : list PortInfo).
Context (wait : World P -> Res P (option string)) (n : string).
Hypothesis wait_returns : forall w, exists o, out (wait w) = Return o.
Hypothesis wait_polling : forall w, Forall (polling n) (log (wait w)).

(** The seven ways through the block, with the answers that select them. *)
Ltac ensure_cases w :=
  unfold ensure_flow;
  destruct (lightsail_get_instance c n (cloud w)) as [[[m | m | m | m] | i1] p1] eqn:G1;
  [ destruct (lightsail_create_instances c args p1) as [[e | u] p2] eqn:C;
    [ | pose proof (wait_returns (at_cloud w p2)) as [o Ho];
        pose proof (wait_polling (at_cloud w p2)) as Hl;
        destruct (wait (at_cloud w p2)) as [o' w3 l3] eqn:W;
        cbn [out log] in Ho, Hl; subst o';
        destruct (truthy_opt o) eqn:T;
        [ destruct (lightsail_put_instance_public_ports c ports n (cloud w3))
            as [a3 p3] eqn:F | ] ]
  | | | | destruct (lightsail_get_instance c n p1) as [[e | i2] p2] eqn:G2 ].

Lemma creations_firewall a : creations (firewall_events ports n a) = O.
Proof. destruct a; reflexivity. Qed.

Lemma ensure_creations_le w :
  (creations (log (ensure_flow c args ports wait n w)) <= 1)%nat.
Proof.
  ensure_cases w; cbn [log]; rewrite ?creations_app, ?creations_firewall;
    try match goal with
        | H : Forall (polling n) ?l |- _ => rewrite (polling_creations n l H)
        end;
    try destruct (publicIpAddress i2); cbn; lia.
Qed.

Lemma ensure_present_creations w :
  present c n (cloud w) = true ->
  creations (log (ensure_flow c args ports wait n w)) = O.
Proof.
  unfold present. ensure_cases w; cbn [fst log]; intros H;
    solve [discriminate H | reflexivity].
Qed.

Lemma ensure_found_calls w i1 p1 :
  lightsail_get_instance c n (cloud w) = (inr i1, p1) ->
  calls (log (ensure_flow c args ports wait n w)) = [GetInstance n; GetInstance n].
Proof.
  intros G. unfold ensure_flow. rewrite G.
  destruct (lightsail_get_instance c n p1) as [[e | i2] p2]; reflexivity.
Qed.

Lemma ensure_pending w i1 p1 i2 p2 :
  lightsail_get_instance c n (cloud w) = (inr i1, p1) ->
  lightsail_get_instance c n p1 = (inr i2, p2) ->
  publicIpAddress i2 = None ->
  ensure_flow c args ports wait n w =
  mkRes (Raise (KeyError "publicIpAddress")) (at_cloud w p2)
    [Call (GetInstance n) None;
     Console "ℹ️  Instance already exists, will update deployment";
     Call (GetInstance n) None].
Proof.
  intros G1 G2 H. unfold ensure_flow. rewrite G1, G2, H. reflexivity.
Qed.

(** A run that reaches the firewall step ends in an address, whatever
    the provider answered to the port setting, and a refusal is on the
    console. *)
Lemma ensure_firewall w raised :
  In (Call (PutInstancePublicPorts ports n) raised) (log (ensure_flow c args ports wait n w)) ->
  (exists ip, out (ensure_flow c args ports wait n w) = Return ip)
  /\ (forall e, raised = Some e ->
        In (Console ("⚠️  Firewall configuration failed: " ++ exn_str e))
           (log (ensure_flow c args ports wait n w))).
Proof.
  ensure_cases w; cbn [out log].
  2: { intros Hin. split; [eexists; reflexivity |].
       intros e ->. apply in_or_app. right. apply in_or_app. right.
       apply in_app_or in Hin. destruct Hin as [Hin | Hin].
       { cbn in Hin. intuition discriminate. }
       apply in_app_or in Hin. destruct Hin as [Hin | Hin].
       { apply (polling_In n l3 _ Hl) in Hin. contradiction. }
       destruct a3 as [e' | u']; cbn in Hin |- *.
       - destruct Hin as [Hin | [Hin | [Hin | []]]]; try discriminate.
         injection Hin as ->. right. right. left. reflexivity.
       - destruct Hin as [Hin | [Hin | [Hin | []]]]; discriminate. }
  2: { intros Hin. apply in_app_or in Hin. destruct Hin as [Hin | Hin].
       - cbn in Hin. intuition discriminate.
       - apply (polling_In n l3 _ Hl) in Hin. contradiction. }
  all: try (destruct (publicIpAddress i2)).
  all: cbn; intros Hin; exfalso; intuition discriminate.
Qed.

(** An address, once obtained, makes the result a returned string. *)
Lemma ensure_trichotomy w :
  (exists ip, out (ensure_flow c args ports wait n w) = Return ip)
  \/ out (ensure_flow c args ports wait n w) = Exit 1
  \/ (exists e, out (ensure_flow c args ports wait n w) = Raise e).
Proof.
  ensure_cases w; cbn [out]; eauto.
  destruct (publicIpAddress i2); eauto.
Qed.

Section Persistent.
Hypothesis provider_persistent : persistent c.
Hypothesis name_requested : In n (instanceNames args).
Hypothesis wait_present : forall w,
  present c n (cloud w) = true -> present c n (cloud (world (wait w))) = true.
Hypothesis wait_addressed : forall w ip,
  out (wait w) = Return (Some ip) -> addressed c n (cloud (world (wait w))) = true.

Lemma ensure_created_present w :
  creations (log (ensure_flow c args ports wait n w)) <> O ->
  present c n (cloud (world (ensure_flow c args ports wait n w))) = true.
Proof.
  ensure_cases w; cbn [log world at_cloud cloud]; intros Hn;
    try (exfalso; apply Hn; reflexivity).
  all: try (destruct (publicIpAddress i2); exfalso; apply Hn; reflexivity).
  all: assert (present c n p2 = true) as Hp2
      by (replace p2 with (snd (lightsail_create_instances c args p1))
            by (rewrite C; reflexivity);
          apply (created_present c provider_persistent); [rewrite C; destruct u |];
          [reflexivity | exact name_requested]).
  all: pose proof (wait_present (at_cloud w p2) Hp2) as Hp3; rewrite W in Hp3;
    cbn [world] in Hp3.
  - replace p3 with (snd (lightsail_put_instance_public_ports c ports n (cloud w3)))
      by (rewrite F; reflexivity).
    apply (ports_present c provider_persistent). exact Hp3.
  - exact Hp3.
Qed.

Lemma ensure_returns_addressed w ip :
  out (ensure_flow c args ports wait n w) = Return ip ->
  addressed c n (cloud (world (ensure_flow c args ports wait n w))) = true.
Proof.
  ensure_cases w; cbn [out world at_cloud cloud]; try discriminate.
  - intros _. destruct o as [s |]; [| discriminate T].
    pose proof (wait_addressed (at_cloud w p2) s) as Ha. rewrite W in Ha.
    cbn [out world] in Ha. specialize (Ha eq_refl).
    replace p3 with (snd (lightsail_put_instance_public_ports c ports n (cloud w3)))
      by (rewrite F; reflexivity).
    apply (ports_addressed c provider_persistent). exact Ha.
  - destruct (publicIpAddress i2) as [s |] eqn:E; [| discriminate].
    intros _.
    replace p2 with (snd (lightsail_get_instance c n p1)) by (rewrite G2; reflexivity).
    apply (get_addressed c provider_persistent).
    unfold addressed, has_publicIpAddress. rewrite G2. cbn. rewrite E. reflexivity.
Qed.

Lemma ensure_addressed w :
  addressed c n (cloud w) = true ->
  (exists ip, out (ensure_flow c args ports wait n w) = Return ip)
  /\ calls (log (ensure_flow c args ports wait n w)) = [GetInstance n; GetInstance n].
Proof.
  intros Ha.
  pose proof (get_addressed c provider_persistent n n (cloud w) Ha) as Ha'.
  revert Ha Ha'. unfold addressed, has_publicIpAddress, ensure_flow.
  destruct (lightsail_get_instance c n (cloud w)) as [[e | i1] p1]; cbn [fst snd];
    [discriminate |].
  intros _.
  destruct (lightsail_get_instance c n p1) as [[e | i2] p2]; cbn [fst];
    [discriminate |].
  destruct (publicIpAddress i2) as [ip |]; [| discriminate].
  intros _. split; [exists ip |]; reflexivity.
Qed.

End Persistent.
End Ensure.

(** The block leaves the environment and the file system alone. *)

Section EnsureHost.
Context {P : Type} (c : Lightsail P) (args : CreateInstances) (ports : list PortInfo).
Context (wait : World P -> Res P (option string)) (n : string).
Hypothesis wait_host : forall w,
  environ (world (wait w)) = environ w /\ files (world (wait w)) = files w.

Lemma ensure_host w :
  environ (world (ensure_flow c args ports wait n w)) = environ w
  /\ files (world (ensure_flow c args ports wait n w)) = files w.
Proof.
  unfold ensure_flow.
  destruct (lightsail_get_instance c n (cloud w)) as [[[m | m | m | m] | i1] p1];
    try (split; reflexivity).
  - destruct (lightsail_create_instances c args p1) as [[e | u] p2];
      [split; reflexivity |].
    pose proof (wait_host (at_cloud w p2)) as H. cbn [at_cloud environ files] in H.
    destruct (wait (at_cloud w p2)) as [[o | e | k] w3 l3]; cbn [world] in H |- *;
      try exact H.
    destruct (truthy_opt o); [| exact H].
    destruct (lightsail_put_instance_public_ports c ports n (cloud w3)) as [a3 p3].
    exact H.
  - destruct (lightsail_get_instance c n p1) as [[e | i2] p2]; split; reflexivity.
Qed.

End EnsureHost.

(** *** [create_preview] around the block *)

Lemma header_events_quiet rule pr repo br sha n :
  calls (header_events rule pr repo br sha n) = []
  /\ creations (header_events rule pr repo br sha n) = O.
Proof. split; reflexivity. Qed.

Lemma report_events_quiet rule n ip o :
  calls (report_events rule n ip o) = [] /\ creations (report_events rule n ip o) = O.
Proof. unfold report_events. destruct (truthy_opt o); split; reflexivity. Qed.

Lemma report_lines_quiet rule n ip :
  calls (report_lines rule n ip) = [] /\ creations (report_lines rule n ip) = O.
Proof. split; reflexivity. Qed.


Section Create.
Context {P : Type} (ensured : Res P string) (header : list Event).
Context (deploy_error : World P -> option exn) (deploy_started : list Event).
Context (deploy : string -> list Event) (seconds : Z) (rule n : string).

Local Abbreviation flow :=
  (create_flow ensured header deploy_error deploy_started deploy seconds rule n).

Lemma create_flow_out :
  out flow =
  match out ensured with
  | Return _ =>
      create_outcome (deploy_error (world ensured)) (output_error (world ensured))
  | Raise e => Raise e
  | Exit k => Exit k
  end.
Proof.
  destruct ensured as [[ip | e | k] w1 l1]; cbn [create_flow out world];
    try reflexivity.
  destruct (deploy_error w1); [reflexivity |].
  destruct (output_error w1); reflexivity.
Qed.

Lemma create_flow_cloud : cloud (world flow) = cloud (world ensured).
Proof.
  destruct ensured as [[ip | e | k] w1 l1]; cbn [create_flow]; try reflexivity.
  destruct (deploy_error w1); [reflexivity |].
  destruct (output_error w1); reflexivity.
Qed.

(** The deployment step sleeps before anything of it can fail. *)
Lemma create_flow_now :
  now (world flow)
  = match out ensured with
    | Return _ => now (world ensured) + seconds
    | _ => now (world ensured)
    end.
Proof.
  destruct ensured as [[ip | e | k] w1 l1]; cbn [create_flow out world];
    try reflexivity.
  destruct (deploy_error w1); [reflexivity |].
  destruct (output_error w1); reflexivity.
Qed.

Lemma create_flow_host :
  environ (world flow) = environ (world ensured)
  /\ files (world flow) = files (world ensured).
Proof.
  destruct ensured as [[ip | e | k] w1 l1]; cbn [create_flow world];
    try (split; reflexivity).
  destruct (deploy_error w1); [split; reflexivity |].
  destruct (output_error w1); split; reflexivity.
Qed.

Lemma create_flow_In ev : In ev (log ensured) -> In ev (log flow).
Proof.
  destruct ensured as [[ip | e | k] w1 l1]; cbn [log create_flow]; intros H.
  - destruct (deploy_error w1); [| destruct (output_error w1)]; cbn [log];
      apply in_or_app; right; apply in_or_app; left; exact H.
  - apply in_or_app. right. exact H.
  - apply in_or_app. right. exact H.
Qed.

(** What a run that got past the deployment step has on its log. *)
Lemma create_flow_deployed ip :
  out ensured = Return ip ->
  deploy_error (world ensured) = None ->
  forall ev,
    In ev (deploy ip) \/ In ev (report_lines rule n ip) -> In ev (log flow).
Proof.
  destruct ensured as [[ip' | e | k] w1 l1]; cbn [out world log create_flow];
    try discriminate.
  intros [= ->] -> ev H.
  destruct (output_error w1); cbn [log]; apply in_or_app; right; apply in_or_app; right.
  - apply in_or_app. exact H.
  - apply in_or_app. destruct H as [H | H]; [left; exact H | right].
    unfold report_events. apply in_or_app. left. exact H.
Qed.

(** What a run that returned has on its log. *)
Lemma create_flow_reports ip :
  out ensured = Return ip ->
  out flow = Return true ->
  forall ev,
    In ev (deploy ip)
    \/ In ev (report_events rule n ip (environ (world ensured) "GITHUB_OUTPUT")) ->
    In ev (log flow).
Proof.
  destruct ensured as [[ip' | e | k] w1 l1]; cbn [out world log create_flow];
    try discriminate.
  intros [= ->].
  destruct (deploy_error w1); [discriminate |].
  destruct (output_error w1); [discriminate |].
  intros _ ev H. cbn [log]. apply in_or_app. right. apply in_or_app. right.
  apply in_or_app. exact H.
Qed.

(** Where an event of the run comes from. *)
Lemma create_flow_log_inv ev :
  In ev (log flow) ->
  In ev header \/ In ev (log ensured)
  \/ exists ip, out ensured = Return ip
       /\ ((deploy_error (world ensured) <> None /\ In ev deploy_started)
           \/ (deploy_error (world ensured) = None
               /\ (In ev (deploy ip) \/ In ev (report_lines rule n ip)))
           \/ (out flow = Return true
               /\ In ev (report_events rule n ip
                           (environ (world ensured) "GITHUB_OUTPUT")))).
Proof.
  destruct ensured as [[ip | e | k] w1 l1]; cbn [out world log create_flow].
  - destruct (deploy_error w1) as [e |] eqn:D; [| destruct (output_error w1) eqn:O];
      cbn [out log]; intros H;
      apply in_app_or in H; destruct H as [H | H]; [left; exact H | | left; exact H |
                                                    | left; exact H |];
      apply in_app_or in H; destruct H as [H | H];
        try (right; left; exact H); right; right; exists ip; (split; [reflexivity |]).
    + left. split; [discriminate | exact H].
    + right. left. split; [reflexivity |]. apply in_app_or in H. exact H.
    + apply in_app_or in H. destruct H as [H | H].
      * right. left. split; [reflexivity |]. left. exact H.
      * right. right. split; [reflexivity | exact H].
  - intros H. apply in_app_or in H. tauto.
  - intros H. apply in_app_or in H. tauto.
Qed.

Hypothesis header_quiet : calls header = [] /\ creations header = O.
Hypothesis started_quiet : calls deploy_started = [] /\ creations deploy_started = O.
Hypothesis deploy_quiet : forall ip, calls (deploy ip) = [] /\ creations (deploy ip) = O.

Lemma create_flow_calls : calls (log flow) = calls (log ensured).
Proof.
  destruct header_quiet as [Hh _]. destruct started_quiet as [Hs _].
  destruct ensured as [[ip | e | k] w1 l1]; cbn [log create_flow];
    [| rewrite !calls_app, Hh; reflexivity | rewrite !calls_app, Hh; reflexivity].
  destruct (deploy_error w1); [| destruct (output_error w1)]; cbn [log];
    rewrite !calls_app, Hh;
    try rewrite Hs; try rewrite (proj1 (deploy_quiet ip));
    try rewrite (proj1 (report_lines_quiet rule n ip));
    try rewrite (proj1 (report_events_quiet rule n ip _));
    cbn [app]; apply app_nil_r.
Qed.

Lemma create_flow_creations : creations (log flow) = creations (log ensured).
Proof.
  destruct header_quiet as [_ Hh]. destruct started_quiet as [_ Hs].
  destruct ensured as [[ip | e | k] w1 l1]; cbn [log create_flow];
    [| rewrite !creations_app, Hh; reflexivity | rewrite !creations_app, Hh; reflexivity].
  destruct (deploy_error w1); [| destruct (output_error w1)]; cbn [log];
    rewrite !creations_app, Hh;
    try rewrite Hs; try rewrite (proj2 (deploy_quiet ip));
    try rewrite (proj2 (report_lines_quiet rule n ip));
    try rewrite (proj2 (report_events_quiet rule n ip _)); lia.
Qed.

Lemma create_flow_call_inv req raised :
  In (Call req raised) (log flow) -> In (Call req raised) (log ensured).
Proof.
  intros H. apply create_flow_log_inv in H.
  destruct H as [H | [H | (ip & _ & [[_ H] | [[_ [H | H]] | [_ H]]])]].
  - exfalso. exact (no_calls_no_call _ _ _ (proj1 header_quiet) H).
  - exact H.
  - exfalso. exact (no_calls_no_call _ _ _ (proj1 started_quiet) H).
  - exfalso. exact (no_calls_no_call _ _ _ (proj1 (deploy_quiet ip)) H).
  - exfalso. exact (no_calls_no_call _ _ _ (proj1 (report_lines_quiet rule n ip)) H).
  - exfalso. exact (no_calls_no_call _ _ _ (proj1 (report_events_quiet rule n ip _)) H).
Qed.

End Create.

End FlowFacts.
(** ** [src/scripts/manage-preview.py]: the methods and their restatement *)

Module ScriptsFacts.
Import PyStr Py Provider Flow RunFacts FlowFacts.

Section Facts.
Context {P : Type}.
Implicit Type self : Scripts.PreviewManager P.

Lemma instance_exists_scripts self n w :
  Scripts.instance_exists self n w =
  let (a, p') := lightsail_get_instance (Scripts.lightsail self) n (cloud w) in
  match a with
  | inr _ => mkRes (Return true) (at_cloud w p') [Call (GetInstance n) None]
  | inl (NotFoundException m) =>
      mkRes (Return false) (at_cloud w p')
        [Call (GetInstance n) (Some (NotFoundException m))]
  | inl e => mkRes (Raise e) (at_cloud w p') [Call (GetInstance n) (Some e)]
  end.
Proof.
  unfold Scripts.instance_exists. run_py.
  destruct (lightsail_get_instance (Scripts.lightsail self) n (cloud w)) as [[[] | i] p'];
    reflexivity.
Qed.

Lemma create_instance_scripts self n pr repo br w :
  Scripts.create_instance self n pr repo br w =
  let args := Scripts.create_instances_args self n pr repo br in
  let (a, p') := lightsail_create_instances (Scripts.lightsail self) args (cloud w) in
  match a with
  | inr _ =>
      mkRes (Return true) (at_cloud w p')
        [Console ("Creating instance: " ++ n);
         Call (CreateInstancesReq args) None;
         Console "✅ Instance creation initiated"]
  | inl e =>
      mkRes (Return false) (at_cloud w p')
        [Console ("Creating instance: " ++ n);
         Call (CreateInstancesReq args) (Some e);
         Console ("❌ Failed to create instance: " ++ exn_str e)]
  end.
Proof.
  unfold Scripts.create_instance. run_py.
  destruct (lightsail_create_instances (Scripts.lightsail self) _ (cloud w)) as [[e | u] p'];
    reflexivity.
Qed.

Lemma configure_firewall_scripts self n w :
  Scripts.configure_firewall self n w =
  let (a, p') :=
    lightsail_put_instance_public_ports (Scripts.lightsail self) Scripts.port_infos n (cloud w) in
  mkRes (Return (match a with inr _ => true | inl _ => false end)) (at_cloud w p')
    (firewall_events Scripts.port_infos n a).
Proof.
  unfold Scripts.configure_firewall. run_py.
  destruct (lightsail_put_instance_public_ports (Scripts.lightsail self) _ n (cloud w))
    as [[e | u] p']; reflexivity.
Qed.

Lemma delete_instance_scripts self n w :
  Scripts.delete_instance self n w =
  let (a, p') := lightsail_delete_instance (Scripts.lightsail self) n (cloud w) in
  match a with
  | inr _ =>
      mkRes (Return true) (at_cloud w p')
        [Console ("🗑️  Deleting instance: " ++ n);
         Call (DeleteInstance n) None;
         Console "✅ Instance deletion initiated"]
  | inl (NotFoundException m) =>
      mkRes (Return true) (at_cloud w p')
        [Console ("🗑️  Deleting instance: " ++ n);
         Call (DeleteInstance n) (Some (NotFoundException m));
         Console "⚠️  Instance not found (may already be deleted)"]
  | inl e =>
      mkRes (Return false) (at_cloud w p')
        [Console ("🗑️  Deleting instance: " ++ n);
         Call (DeleteInstance n) (Some e);
         Console ("❌ Failed to delete instance: " ++ exn_str e)]
  end.
Proof.
  unfold Scripts.delete_instance. run_py.
  destruct (lightsail_delete_instance (Scripts.lightsail self) n (cloud w)) as [[[] | u] p'];
    reflexivity.
Qed.

Lemma wait_for_instance_body_scripts self n w :
  Scripts.wait_for_instance_body self n w =
  let (answer, p') := lightsail_get_instance (Scripts.lightsail self) n (cloud w) in
  match ready_address answer with
  | Some ip => mkRes (Return (Some ip)) (at_cloud w p') (ready_events n ip)
  | None =>
      mkRes (Return None) (mkWorld (now w + 10) p' (environ w) (files w)) (poll_events n answer)
  end.
Proof.
  unfold Scripts.wait_for_instance_body. run_py.
  destruct (lightsail_get_instance (Scripts.lightsail self) n (cloud w)) as [[e | i] p'];
    [reflexivity |].
  unfold ready_address, has_publicIpAddress, poll_events, ready_events.
  destruct (String.eqb (state_name i) "running") eqn:E; cbn [andb]; [| reflexivity].
  apply String.eqb_eq in E.
  destruct (publicIpAddress i) as [ip |]; cbn; rewrite ?E; reflexivity.
Qed.

Lemma wait_for_instance_loop_scripts self n st mw w :
  Scripts.wait_for_instance_loop self n st mw w =
  poll_step (Scripts.lightsail self) n st mw (Scripts.wait_for_instance_loop self n st mw) w.
Proof.
  rewrite Scripts.wait_for_instance_loop_unfold_eq.
  unfold Scripts.wait_for_instance_loop_unfold,
    Scripts.wait_for_instance_loop_unfold_clause_1,
    Scripts.wait_for_instance_loop_unfold_clause_1_clause_2, inspect, poll_step.
  destruct (now w - st <? mw); [| reflexivity].
  rewrite wait_for_instance_body_scripts.
  destruct (lightsail_get_instance (Scripts.lightsail self) n (cloud w)) as [answer p'].
  destruct (ready_address answer); reflexivity.
Qed.

Lemma wait_for_instance_scripts self n mw w :
  Scripts.wait_for_instance self n mw w =
  add_log [Console "⏳ Waiting for instance to be ready..."]
    (add_log [] (Scripts.wait_for_instance_loop self n (now w) mw w)).
Proof. reflexivity. Qed.

Lemma ensure_instance_scripts self n pr repo br w :
  Scripts.ensure_instance self n pr repo br w =
  ensure_flow (Scripts.lightsail self) (Scripts.create_instances_args self n pr repo br)
    Scripts.port_infos (Scripts.wait_for_instance self n 300) n w.
Proof.
  unfold Scripts.ensure_instance, ensure_flow, at_cloud.
  rewrite bind_unfold, instance_exists_scripts. unfold at_cloud.
  destruct (lightsail_get_instance (Scripts.lightsail self) n (cloud w)) as [[e | i] p1];
    cbv beta iota zeta.
  - destruct e; try reflexivity.
    step_py. rewrite create_instance_scripts. unfold at_cloud.
    cbv beta iota zeta. cbn [now cloud environ].
    destruct (lightsail_create_instances (Scripts.lightsail self) _ p1) as [[e | u] p2];
      cbv beta iota zeta; cbn [negb].
    + step_py. reflexivity.
    + step_py. step_py.
      destruct (Scripts.wait_for_instance self n 300 _) as [[o | e | k] w3 l3];
        try reflexivity.
      step_py.
      destruct (truthy_opt o); cbn [negb];
        [| done_py; rewrite app_nil_r; reflexivity ].
      step_py. rewrite configure_firewall_scripts.
      destruct (lightsail_put_instance_public_ports (Scripts.lightsail self) _ n (cloud w3))
        as [a3 p3].
      done_py. rewrite ?app_nil_r; reflexivity.
  - step_py. step_py. unfold provider_call. cbn [now cloud environ].
    destruct (lightsail_get_instance (Scripts.lightsail self) n p1) as [[e | i2] p2];
      [reflexivity |].
    cbv beta iota zeta delta [item_publicIpAddress ret raise].
    destruct (publicIpAddress i2); reflexivity.
Qed.

Lemma deploy_application_scripts self n ip repo br sha w :
  Scripts.deploy_application self n ip repo br sha w =
  match scripts_deploy_error w with
  | Some e =>
      mkRes (Raise e) (mkWorld (now w + 120) (cloud w) (environ w) (files w))
        []
  | None =>
      mkRes (Return true) (mkWorld (now w + 120) (cloud w) (environ w) (files w))
        (scripts_deploy_events ip)
  end.
Proof.
  unfold Scripts.deploy_application, scripts_deploy_error. run_py. cbn [files].
  try destruct (files w "/tmp/deploy.sh" "w"); reflexivity.
Qed.

Lemma create_preview_scripts self pr repo br sha w :
  let n := Scripts.get_instance_name pr repo in
  Scripts.create_preview self pr repo br sha w =
  create_flow (Scripts.ensure_instance self n pr repo br w)
    (header_events Scripts.rule pr repo br sha n)
    scripts_deploy_error [] scripts_deploy_events 120 Scripts.rule n.
Proof.
  intros n. unfold Scripts.create_preview, create_flow. fold n.
  do 9 step_py. rewrite bind_unfold.
  destruct (Scripts.ensure_instance self n pr repo br w) as [[ip | e | k] w1 l1];
    try reflexivity.
  step_py. rewrite deploy_application_scripts.
  destruct (scripts_deploy_error w1) as [e |];
    [done_py; rewrite ?app_nil_r; reflexivity |].
  do 6 step_py. unfold report_events, report_lines, output_error.
  destruct (environ w1 "GITHUB_OUTPUT") as [path |] eqn:E; cbn [truthy_opt str_value].
  - destruct (truthy path).
    + step_py. step_py. rewrite E. cbn [files].
      destruct (files w1 path "a") as [e |]; done_py; rewrite ?app_nil_r; reflexivity.
    + step_py. done_py; rewrite ?app_nil_r; reflexivity.
  - step_py. done_py; rewrite ?app_nil_r; reflexivity.
Qed.

Lemma delete_preview_scripts self pr repo w :
  let n := Scripts.get_instance_name pr repo in
  Scripts.delete_preview self pr repo w =
  add_log (cleanup_events Scripts.rule pr n) (Scripts.delete_instance self n w).
Proof. reflexivity. Qed.

(** The readiness poll of this file, through its unfolding equation. *)

Lemma wait_returns_scripts self n mw w :
  exists o, out (Scripts.wait_for_instance self n mw w) = Return o.
Proof.
  rewrite wait_for_instance_scripts. cbn [add_log out].
  apply (poll_returns (Scripts.lightsail self) n (now w) mw _
           (wait_for_instance_loop_scripts self n (now w) mw)).
Qed.

Lemma wait_polling_scripts self n mw w :
  Forall (polling n) (log (Scripts.wait_for_instance self n mw w)).
Proof.
  rewrite wait_for_instance_scripts. cbn [add_log log app].
  constructor; [exact I |].
  apply (poll_polling (Scripts.lightsail self) n (now w) mw _
           (wait_for_instance_loop_scripts self n (now w) mw)).
Qed.

Lemma wait_present_scripts self n mw w :
  persistent (Scripts.lightsail self) ->
  present (Scripts.lightsail self) n (cloud w) = true ->
  present (Scripts.lightsail self) n (cloud (world (Scripts.wait_for_instance self n mw w))) = true.
Proof.
  intros Hc. rewrite wait_for_instance_scripts. cbn [add_log world].
  apply (poll_present (Scripts.lightsail self) n (now w) mw _
           (wait_for_instance_loop_scripts self n (now w) mw) Hc).
Qed.

Lemma wait_addressed_scripts self n mw w ip :
  persistent (Scripts.lightsail self) ->
  out (Scripts.wait_for_instance self n mw w) = Return (Some ip) ->
  addressed (Scripts.lightsail self) n (cloud (world (Scripts.wait_for_instance self n mw w))) = true.
Proof.
  intros Hc. rewrite wait_for_instance_scripts. cbn [add_log world out].
  apply (poll_addressed (Scripts.lightsail self) n (now w) mw _
           (wait_for_instance_loop_scripts self n (now w) mw) Hc).
Qed.

(** The poll and the block that binds [instance_ip] leave the
    environment and the file system alone. *)

Lemma wait_host_scripts self n mw w :
  environ (world (Scripts.wait_for_instance self n mw w)) = environ w
  /\ files (world (Scripts.wait_for_instance self n mw w)) = files w.
Proof.
  rewrite wait_for_instance_scripts. cbn [add_log world].
  apply (poll_host (Scripts.lightsail self) n (now w) mw _
           (wait_for_instance_loop_scripts self n (now w) mw)).
Qed.

Lemma ensure_host_scripts self n pr repo br w :
  environ (world (Scripts.ensure_instance self n pr repo br w)) = environ w
  /\ files (world (Scripts.ensure_instance self n pr repo br w)) = files w.
Proof.
  rewrite ensure_instance_scripts. apply ensure_host.
  intros w'. apply wait_host_scripts.
Qed.

Lemma ensure_errors_scripts self n pr repo br w :
  scripts_deploy_error (world (Scripts.ensure_instance self n pr repo br w)) = scripts_deploy_error w
  /\ output_error (world (Scripts.ensure_instance self n pr repo br w)) = output_error w.
Proof.
  destruct (ensure_host_scripts self n pr repo br w) as [He Hf].
  unfold scripts_deploy_error, output_error. rewrite He, Hf. split; reflexivity.
Qed.

Lemma deploy_events_quiet_scripts  ip :
  calls (scripts_deploy_events ip) = [] /\ creations (scripts_deploy_events ip) = O.
Proof. split; reflexivity. Qed.

Lemma deploy_started_quiet_scripts :
  calls [] = [] /\ creations [] = O.
Proof. split; reflexivity. Qed.

(** How [create_preview] ends: as the block that binds [instance_ip]
    does, unless that returns; then on the file output alone. *)
Lemma create_preview_out_scripts self pr repo br sha w :
  out (Scripts.create_preview self pr repo br sha w) =
  match out (Scripts.ensure_instance self (Scripts.get_instance_name pr repo) pr repo br w) with
  | Return _ => create_outcome (scripts_deploy_error w) (output_error w)
  | Raise e => Raise e
  | Exit k => Exit k
  end.
Proof.
  rewrite create_preview_scripts, create_flow_out.
  destruct (ensure_errors_scripts self (Scripts.get_instance_name pr repo) pr repo br w)
    as [-> ->].
  reflexivity.
Qed.

Lemma create_preview_now_scripts self pr repo br sha w :
  now (world (Scripts.create_preview self pr repo br sha w)) =
  match out (Scripts.ensure_instance self (Scripts.get_instance_name pr repo) pr repo br w) with
  | Return _ =>
      now (world (Scripts.ensure_instance self (Scripts.get_instance_name pr repo) pr repo br w))
      + 120
  | _ => now (world (Scripts.ensure_instance self (Scripts.get_instance_name pr repo) pr repo br w))
  end.
Proof. rewrite create_preview_scripts. apply create_flow_now. Qed.

Lemma create_preview_cloud_scripts self pr repo br sha w :
  cloud (world (Scripts.create_preview self pr repo br sha w)) =
  cloud (world (Scripts.ensure_instance self (Scripts.get_instance_name pr repo) pr repo br w)).
Proof. rewrite create_preview_scripts. apply create_flow_cloud. Qed.

Lemma create_preview_calls_scripts self pr repo br sha w :
  calls (log (Scripts.create_preview self pr repo br sha w)) =
  calls (log (Scripts.ensure_instance self (Scripts.get_instance_name pr repo) pr repo br w)).
Proof.
  rewrite create_preview_scripts.
  apply create_flow_calls;
    [apply header_events_quiet
    | apply deploy_started_quiet_scripts
    | intros ip; apply deploy_events_quiet_scripts].
Qed.

Lemma create_preview_creations_scripts self pr repo br sha w :
  creations (log (Scripts.create_preview self pr repo br sha w)) =
  creations (log (Scripts.ensure_instance self (Scripts.get_instance_name pr repo) pr repo br w)).
Proof.
  rewrite create_preview_scripts.
  apply create_flow_creations;
    [apply header_events_quiet
    | apply deploy_started_quiet_scripts
    | intros ip; apply deploy_events_quiet_scripts].
Qed.

Lemma name_requested_scripts self n pr repo br :
  In n (instanceNames (Scripts.create_instances_args self n pr repo br)).
Proof. left. reflexivity. Qed.

End Facts.

Section Main.
Context {P : Type} (boto3_client : string -> exn + Lightsail P).
Context (parse_args : list string -> Z + Namespace).

Lemma main_rejected_scripts argv status w :
  parse_args argv = inl status ->
  Scripts.main boto3_client parse_args argv w = mkRes (Exit status) w [].
Proof. intros Hp. unfold Scripts.main. rewrite Hp. reflexivity. Qed.

Lemma main_no_client_scripts argv args e w :
  parse_args argv = inr args ->
  boto3_client (arg_region args) = inl e ->
  Scripts.main boto3_client parse_args argv w = mkRes (Raise e) w [].
Proof.
  intros Hp Hc. unfold Scripts.main, Scripts.init. rewrite Hp. step_py. rewrite Hc. reflexivity.
Qed.

Lemma main_create_scripts argv args client w :
  parse_args argv = inr args ->
  boto3_client (arg_region args) = inr client ->
  arg_action args = create ->
  truthy_opt (arg_branch args) = true ->
  truthy_opt (arg_commit_sha args) = true ->
  Scripts.main boto3_client parse_args argv w =
  match Scripts.create_preview (Scripts.mkPreviewManager client (arg_region args))
          (arg_pr_number args) (arg_repo_name args)
          (str_value (arg_branch args)) (str_value (arg_commit_sha args)) w with
  | mkRes (Return success) w' l => mkRes (Exit (if success then 0 else 1)) w' l
  | mkRes (Raise e) w' l => mkRes (Raise e) w' l
  | mkRes (Exit k) w' l => mkRes (Exit k) w' l
  end.
Proof.
  intros Hp Hcl Ha Hb Hc. unfold Scripts.main, Scripts.init. rewrite Hp. step_py.
  rewrite Hcl. step_py. rewrite Ha, Hb, Hc. cbn [negb orb].
  step_py. step_py.
  destruct (Scripts.create_preview _ _ _ _ _ w) as [[b | e | k] w' l];
    try (done_py; reflexivity).
  done_py; rewrite ?app_nil_r; reflexivity.
Qed.

Lemma main_usage_scripts argv args client w :
  parse_args argv = inr args ->
  boto3_client (arg_region args) = inr client ->
  arg_action args = create ->
  truthy_opt (arg_branch args) = false \/ truthy_opt (arg_commit_sha args) = false ->
  Scripts.main boto3_client parse_args argv w =
  mkRes (Exit 1) w
    [Console "❌ --branch and --commit-sha are required for create action"].
Proof.
  intros Hp Hcl Ha H. unfold Scripts.main, Scripts.init. rewrite Hp. step_py.
  rewrite Hcl. step_py. rewrite Ha.
  assert (negb (truthy_opt (arg_branch args)) || negb (truthy_opt (arg_commit_sha args))
          = true) as ->.
  { destruct H as [-> | ->]; [reflexivity | apply orb_true_r]. }
  destruct w. reflexivity.
Qed.

Lemma main_delete_scripts argv args client w :
  parse_args argv = inr args ->
  boto3_client (arg_region args) = inr client ->
  arg_action args = delete ->
  Scripts.main boto3_client parse_args argv w =
  match Scripts.delete_preview (Scripts.mkPreviewManager client (arg_region args))
          (arg_pr_number args) (arg_repo_name args) w with
  | mkRes (Return success) w' l => mkRes (Exit (if success then 0 else 1)) w' l
  | mkRes (Raise e) w' l => mkRes (Raise e) w' l
  | mkRes (Exit k) w' l => mkRes (Exit k) w' l
  end.
Proof.
  intros Hp Hcl Ha. unfold Scripts.main, Scripts.init. rewrite Hp. step_py.
  rewrite Hcl. step_py. rewrite Ha. step_py.
  destruct (Scripts.delete_preview _ _ _ w) as [[b | e | k] w' l];
    try (done_py; reflexivity).
  done_py; rewrite ?app_nil_r; reflexivity.
Qed.

End Main.
(** Consequences for the flows of this file. *)

Section Flows.
Context {P : Type}.
Implicit Type self : Scripts.PreviewManager P.

Lemma delete_instance_absent_scripts self n w msg :
  fst (lightsail_delete_instance (Scripts.lightsail self) n (cloud w))
    = inl (NotFoundException msg) ->
  out (Scripts.delete_instance self n w) = Return true.
Proof.
  intros H. rewrite delete_instance_scripts.
  destruct (lightsail_delete_instance (Scripts.lightsail self) n (cloud w)) as [a p'].
  cbn [fst] in H. subst a. reflexivity.
Qed.

Lemma main_delete_absent_scripts (boto3_client : string -> exn + Lightsail P)
    (parse_args : list string -> Z + Namespace) argv args client w msg :
  parse_args argv = inr args ->
  boto3_client (arg_region args) = inr client ->
  arg_action args = delete ->
  fst (lightsail_delete_instance client
         (Scripts.get_instance_name (arg_pr_number args) (arg_repo_name args)) (cloud w))
    = inl (NotFoundException msg) ->
  out (Scripts.delete_preview (Scripts.mkPreviewManager client (arg_region args))
         (arg_pr_number args) (arg_repo_name args) w) = Return true
  /\ out (Scripts.main boto3_client parse_args argv w) = Exit 0.
Proof.
  intros Hp Hcl Ha H.
  assert (out (Scripts.delete_preview (Scripts.mkPreviewManager client (arg_region args))
                 (arg_pr_number args) (arg_repo_name args) w) = Return true) as Hd.
  { rewrite delete_preview_scripts. cbn [add_log out].
    apply delete_instance_absent_scripts with (msg := msg). exact H. }
  split; [exact Hd |].
  rewrite (main_delete_scripts boto3_client parse_args argv args client w Hp Hcl Ha).
  destruct (Scripts.delete_preview _ _ _ w) as [o w' l]. cbn [out] in Hd. subst o.
  reflexivity.
Qed.

Lemma wait_for_instance_stub_scripts (K : nat) early address region n mw (w : World nat) :
  (1 <= K)%nat ->
  cloud w = O ->
  (forall i, (S i < K)%nat -> ready_address (early i) = None) ->
  let r := Scripts.wait_for_instance
             (Scripts.mkPreviewManager (poll_stub K early address) region) n mw w in
  ((Z.of_nat K - 1) * 10 < mw ->
     out r = Return (Some address)
     /\ calls (log r) = repeat (GetInstance n) K
     /\ now (world r) = now w + (Z.of_nat K - 1) * 10)
  /\ (mw <= (Z.of_nat K - 1) * 10 ->
        out r = Return None /\ (length (calls (log r)) < K)%nat).
Proof.
  intros HK Hw Hearly r. subst r. rewrite wait_for_instance_scripts.
  cbn [add_log out log world app calls].
  pose proof (poll_stub_run K early address n (now w) mw _
                (wait_for_instance_loop_scripts
                   (Scripts.mkPreviewManager (poll_stub K early address) region) n (now w) mw)
                Hearly (K - 1)%nat w) as H.
  rewrite Hw in H. specialize (H ltac:(lia)).
  replace (now w - now w + Z.of_nat (K - 1) * 10) with ((Z.of_nat K - 1) * 10) in H by lia.
  replace (S (K - 1)) with K in H by lia.
  destruct ((Z.of_nat K - 1) * 10 <? mw) eqn:G.
  - apply Z.ltb_lt in G. split; [| lia].
    intros _. destruct H as (Ho & Hc & Hn). repeat split; [exact Ho | exact Hc | lia].
  - apply Z.ltb_ge in G. split; [lia |].
    intros _. destruct H as (Ho & Hc). split; [exact Ho | lia].
Qed.

Lemma create_preview_pending_scripts self pr repo br sha w i1 p1 i2 p2 :
  let n := Scripts.get_instance_name pr repo in
  lightsail_get_instance (Scripts.lightsail self) n (cloud w) = (inr i1, p1) ->
  lightsail_get_instance (Scripts.lightsail self) n p1 = (inr i2, p2) ->
  publicIpAddress i2 = None ->
  out (Scripts.create_preview self pr repo br sha w) = Raise (KeyError "publicIpAddress")
  /\ calls (log (Scripts.create_preview self pr repo br sha w))
     = [GetInstance n; GetInstance n].
Proof.
  intros n G1 G2 Hip.
  rewrite create_preview_out_scripts, create_preview_calls_scripts, ensure_instance_scripts.
  fold n. rewrite (ensure_pending _ _ _ _ n w i1 p1 i2 p2 G1 G2 Hip).
  split; reflexivity.
Qed.

Lemma create_preview_never_false_scripts self pr repo br sha w b :
  out (Scripts.create_preview self pr repo br sha w) = Return b -> b = true.
Proof.
  rewrite create_preview_out_scripts.
  destruct (out (Scripts.ensure_instance self _ pr repo br w)) as [ip | e | k];
    try discriminate.
  unfold create_outcome.
  destruct (scripts_deploy_error w); [discriminate |].
  destruct (output_error w); [discriminate |].
  intros [= <-]. reflexivity.
Qed.

Lemma main_create_out_scripts (boto3_client : string -> exn + Lightsail P)
    (parse_args : list string -> Z + Namespace) argv args client w :
  parse_args argv = inr args ->
  boto3_client (arg_region args) = inr client ->
  arg_action args = create ->
  truthy_opt (arg_branch args) = true ->
  truthy_opt (arg_commit_sha args) = true ->
  out (Scripts.main boto3_client parse_args argv w) =
  match out (Scripts.create_preview (Scripts.mkPreviewManager client (arg_region args))
               (arg_pr_number args) (arg_repo_name args)
               (str_value (arg_branch args)) (str_value (arg_commit_sha args)) w) with
  | Return success => Exit (if success then 0 else 1)
  | Raise e => Raise e
  | Exit k => Exit k
  end.
Proof.
  intros Hp Hcl Ha Hb Hc.
  rewrite (main_create_scripts boto3_client parse_args argv args client w Hp Hcl Ha Hb Hc).
  destruct (Scripts.create_preview _ _ _ _ _ w) as [[b | e | k] w' l]; reflexivity.
Qed.

Lemma create_preview_call_inv_scripts self pr repo br sha w req raised :
  In (Call req raised) (log (Scripts.create_preview self pr repo br sha w)) ->
  In (Call req raised)
     (log (Scripts.ensure_instance self (Scripts.get_instance_name pr repo) pr repo br w)).
Proof.
  rewrite create_preview_scripts.
  apply create_flow_call_inv;
    [apply header_events_quiet
    | apply deploy_started_quiet_scripts
    | intros ip; apply deploy_events_quiet_scripts].
Qed.

End Flows.

End ScriptsFacts.
(** ** [src/pr-preview-system/scripts/manage-preview.py]: the methods and their restatement *)

Module UploadFacts.
Import PyStr Py Provider Flow RunFacts FlowFacts.

Section Facts.
Context {P : Type}.
Implicit Type self : PrPreviewSystem.PreviewManager P.

Lemma instance_exists_upload self n w :
  PrPreviewSystem.instance_exists self n w =
  let (a, p') := lightsail_get_instance (PrPreviewSystem.lightsail self) n (cloud w) in
  match a with
  | inr _ => mkRes (Return true) (at_cloud w p') [Call (GetInstance n) None]
  | inl (NotFoundException m) =>
      mkRes (Return false) (at_cloud w p')
        [Call (GetInstance n) (Some (NotFoundException m))]
  | inl e => mkRes (Raise e) (at_cloud w p') [Call (GetInstance n) (Some e)]
  end.
Proof.
  unfold PrPreviewSystem.instance_exists. run_py.
  destruct (lightsail_get_instance (PrPreviewSystem.lightsail self) n (cloud w)) as [[[] | i] p'];
    reflexivity.
Qed.

Lemma create_instance_upload self n pr repo br w :
  PrPreviewSystem.create_instance self n pr repo br w =
  let args := PrPreviewSystem.create_instances_args self n pr repo br in
  let (a, p') := lightsail_create_instances (PrPreviewSystem.lightsail self) args (cloud w) in
  match a with
  | inr _ =>
      mkRes (Return true) (at_cloud w p')
        [Console ("Creating instance: " ++ n);
         Call (CreateInstancesReq args) None;
         Console "✅ Instance creation initiated"]
  | inl e =>
      mkRes (Return false) (at_cloud w p')
        [Console ("Creating instance: " ++ n);
         Call (CreateInstancesReq args) (Some e);
         Console ("❌ Failed to create instance: " ++ exn_str e)]
  end.
Proof.
  unfold PrPreviewSystem.create_instance. run_py.
  destruct (lightsail_create_instances (PrPreviewSystem.lightsail self) _ (cloud w)) as [[e | u] p'];
    reflexivity.
Qed.

Lemma configure_firewall_upload self n w :
  PrPreviewSystem.configure_firewall self n w =
  let (a, p') :=
    lightsail_put_instance_public_ports (PrPreviewSystem.lightsail self) PrPreviewSystem.port_infos n (cloud w) in
  mkRes (Return (match a with inr _ => true | inl _ => false end)) (at_cloud w p')
    (firewall_events PrPreviewSystem.port_infos n a).
Proof.
  unfold PrPreviewSystem.configure_firewall. run_py.
  destruct (lightsail_put_instance_public_ports (PrPreviewSystem.lightsail self) _ n (cloud w))
    as [[e | u] p']; reflexivity.
Qed.

Lemma delete_instance_upload self n w :
  PrPreviewSystem.delete_instance self n w =
  let (a, p') := lightsail_delete_instance (PrPreviewSystem.lightsail self) n (cloud w) in
  match a with
  | inr _ =>
      mkRes (Return true) (at_cloud w p')
        [Console ("🗑️  Deleting instance: " ++ n);
         Call (DeleteInstance n) None;
         Console "✅ Instance deletion initiated"]
  | inl (NotFoundException m) =>
      mkRes (Return true) (at_cloud w p')
        [Console ("🗑️  Deleting instance: " ++ n);
         Call (DeleteInstance n) (Some (NotFoundException m));
         Console "⚠️  Instance not found (may already be deleted)"]
  | inl e =>
      mkRes (Return false) (at_cloud w p')
        [Console ("🗑️  Deleting instance: " ++ n);
         Call (DeleteInstance n) (Some e);
         Console ("❌ Failed to delete instance: " ++ exn_str e)]
  end.
Proof.
  unfold PrPreviewSystem.delete_instance. run_py.
  destruct (lightsail_delete_instance (PrPreviewSystem.lightsail self) n (cloud w)) as [[[] | u] p'];
    reflexivity.
Qed.

Lemma wait_for_instance_body_upload self n w :
  PrPreviewSystem.wait_for_instance_body self n w =
  let (answer, p') := lightsail_get_instance (PrPreviewSystem.lightsail self) n (cloud w) in
  match ready_address answer with
  | Some ip => mkRes (Return (Some ip)) (at_cloud w p') (ready_events n ip)
  | None =>
      mkRes (Return None) (mkWorld (now w + 10) p' (environ w) (files w)) (poll_events n answer)
  end.
Proof.
  unfold PrPreviewSystem.wait_for_instance_body. run_py.
  destruct (lightsail_get_instance (PrPreviewSystem.lightsail self) n (cloud w)) as [[e | i] p'];
    [reflexivity |].
  unfold ready_address, has_publicIpAddress, poll_events, ready_events.
  destruct (String.eqb (state_name i) "running") eqn:E; cbn [andb]; [| reflexivity].
  apply String.eqb_eq in E.
  destruct (publicIpAddress i) as [ip |]; cbn; rewrite ?E; reflexivity.
Qed.

Lemma wait_for_instance_loop_upload self n st mw w :
  PrPreviewSystem.wait_for_instance_loop self n st mw w =
  poll_step (PrPreviewSystem.lightsail self) n st mw (PrPreviewSystem.wait_for_instance_loop self n st mw) w.
Proof.
  rewrite PrPreviewSystem.wait_for_instance_loop_unfold_eq.
  unfold PrPreviewSystem.wait_for_instance_loop_unfold,
    PrPreviewSystem.wait_for_instance_loop_unfold_clause_1,
    PrPreviewSystem.wait_for_instance_loop_unfold_clause_1_clause_2, inspect, poll_step.
  destruct (now w - st <? mw); [| reflexivity].
  rewrite wait_for_instance_body_upload.
  destruct (lightsail_get_instance (PrPreviewSystem.lightsail self) n (cloud w)) as [answer p'].
  destruct (ready_address answer); reflexivity.
Qed.

Lemma wait_for_instance_upload self n mw w :
  PrPreviewSystem.wait_for_instance self n mw w =
  add_log [Console "⏳ Waiting for instance to be ready..."]
    (add_log [] (PrPreviewSystem.wait_for_instance_loop self n (now w) mw w)).
Proof. reflexivity. Qed.

Lemma ensure_instance_upload self n pr repo br w :
  PrPreviewSystem.ensure_instance self n pr repo br w =
  ensure_flow (PrPreviewSystem.lightsail self) (PrPreviewSystem.create_instances_args self n pr repo br)
    PrPreviewSystem.port_infos (PrPreviewSystem.wait_for_instance self n 300) n w.
Proof.
  unfold PrPreviewSystem.ensure_instance, ensure_flow, at_cloud.
  rewrite bind_unfold, instance_exists_upload. unfold at_cloud.
  destruct (lightsail_get_instance (PrPreviewSystem.lightsail self) n (cloud w)) as [[e | i] p1];
    cbv beta iota zeta.
  - destruct e; try reflexivity.
    step_py. rewrite create_instance_upload. unfold at_cloud.
    cbv beta iota zeta. cbn [now cloud environ].
    destruct (lightsail_create_instances (PrPreviewSystem.lightsail self) _ p1) as [[e | u] p2];
      cbv beta iota zeta; cbn [negb].
    + step_py. reflexivity.
    + step_py. step_py.
      destruct (PrPreviewSystem.wait_for_instance self n 300 _) as [[o | e | k] w3 l3];
        try reflexivity.
      step_py.
      destruct (truthy_opt o); cbn [negb];
        [| done_py; rewrite app_nil_r; reflexivity ].
      step_py. rewrite configure_firewall_upload.
      destruct (lightsail_put_instance_public_ports (PrPreviewSystem.lightsail self) _ n (cloud w3))
        as [a3 p3].
      done_py. rewrite ?app_nil_r; reflexivity.
  - step_py. step_py. unfold provider_call. cbn [now cloud environ].
    destruct (lightsail_get_instance (PrPreviewSystem.lightsail self) n p1) as [[e | i2] p2];
      [reflexivity |].
    cbv beta iota zeta delta [item_publicIpAddress ret raise].
    destruct (publicIpAddress i2); reflexivity.
Qed.

Lemma deploy_application_upload self n ip repo br sha w :
  PrPreviewSystem.deploy_application self n ip repo br sha w =
  match upload_deploy_error w with
  | Some e =>
      mkRes (Raise e) (mkWorld (now w + 60) (cloud w) (environ w) (files w))
        upload_deploy_started
  | None =>
      mkRes (Return true) (mkWorld (now w + 60) (cloud w) (environ w) (files w))
        (upload_deploy_events repo br ip)
  end.
Proof.
  unfold PrPreviewSystem.deploy_application, upload_deploy_error. run_py. cbn [files].
  try destruct (files w "/tmp/deploy.sh" "w"); reflexivity.
Qed.

Lemma create_preview_upload self pr repo br sha w :
  let n := PrPreviewSystem.get_instance_name pr repo in
  PrPreviewSystem.create_preview self pr repo br sha w =
  create_flow (PrPreviewSystem.ensure_instance self n pr repo br w)
    (header_events PrPreviewSystem.rule pr repo br sha n)
    upload_deploy_error upload_deploy_started (upload_deploy_events repo br) 60 PrPreviewSystem.rule n.
Proof.
  intros n. unfold PrPreviewSystem.create_preview, create_flow. fold n.
  do 9 step_py. rewrite bind_unfold.
  destruct (PrPreviewSystem.ensure_instance self n pr repo br w) as [[ip | e | k] w1 l1];
    try reflexivity.
  step_py. rewrite deploy_application_upload.
  destruct (upload_deploy_error w1) as [e |];
    [done_py; rewrite ?app_nil_r; reflexivity |].
  do 6 step_py. unfold report_events, report_lines, output_error.
  destruct (environ w1 "GITHUB_OUTPUT") as [path |] eqn:E; cbn [truthy_opt str_value].
  - destruct (truthy path).
    + step_py. step_py. rewrite E. cbn [files].
      destruct (files w1 path "a") as [e |]; done_py; rewrite ?app_nil_r; reflexivity.
    + step_py. done_py; rewrite ?app_nil_r; reflexivity.
  - step_py. done_py; rewrite ?app_nil_r; reflexivity.
Qed.

Lemma delete_preview_upload self pr repo w :
  let n := PrPreviewSystem.get_instance_name pr repo in
  PrPreviewSystem.delete_preview self pr repo w =
  add_log (cleanup_events PrPreviewSystem.rule pr n) (PrPreviewSystem.delete_instance self n w).
Proof. reflexivity. Qed.

(** The readiness poll of this file, through its unfolding equation. *)

Lemma wait_returns_upload self n mw w :
  exists o, out (PrPreviewSystem.wait_for_instance self n mw w) = Return o.
Proof.
  rewrite wait_for_instance_upload. cbn [add_log out].
  apply (poll_returns (PrPreviewSystem.lightsail self) n (now w) mw _
           (wait_for_instance_loop_upload self n (now w) mw)).
Qed.

Lemma wait_polling_upload self n mw w :
  Forall (polling n) (log (PrPreviewSystem.wait_for_instance self n mw w)).
Proof.
  rewrite wait_for_instance_upload. cbn [add_log log app].
  constructor; [exact I |].
  apply (poll_polling (PrPreviewSystem.lightsail self) n (now w) mw _
           (wait_for_instance_loop_upload self n (now w) mw)).
Qed.

Lemma wait_present_upload self n mw w :
  persistent (PrPreviewSystem.lightsail self) ->
  present (PrPreviewSystem.lightsail self) n (cloud w) = true ->
  present (PrPreviewSystem.lightsail self) n (cloud (world (PrPreviewSystem.wait_for_instance self n mw w))) = true.
Proof.
  intros Hc. rewrite wait_for_instance_upload. cbn [add_log world].
  apply (poll_present (PrPreviewSystem.lightsail self) n (now w) mw _
           (wait_for_instance_loop_upload self n (now w) mw) Hc).
Qed.

Lemma wait_addressed_upload self n mw w ip :
  persistent (PrPreviewSystem.lightsail self) ->
  out (PrPreviewSystem.wait_for_instance self n mw w) = Return (Some ip) ->
  addressed (PrPreviewSystem.lightsail self) n (cloud (world (PrPreviewSystem.wait_for_instance self n mw w))) = true.
Proof.
  intros Hc. rewrite wait_for_instance_upload. cbn [add_log world out].
  apply (poll_addressed (PrPreviewSystem.lightsail self) n (now w) mw _
           (wait_for_instance_loop_upload self n (now w) mw) Hc).
Qed.

(** The poll and the block that binds [instance_ip] leave the
    environment and the file system alone. *)

Lemma wait_host_upload self n mw w :
  environ (world (PrPreviewSystem.wait_for_instance self n mw w)) = environ w
  /\ files (world (PrPreviewSystem.wait_for_instance self n mw w)) = files w.
Proof.
  rewrite wait_for_instance_upload. cbn [add_log world].
  apply (poll_host (PrPreviewSystem.lightsail self) n (now w) mw _
           (wait_for_instance_loop_upload self n (now w) mw)).
Qed.

Lemma ensure_host_upload self n pr repo br w :
  environ (world (PrPreviewSystem.ensure_instance self n pr repo br w)) = environ w
  /\ files (world (PrPreviewSystem.ensure_instance self n pr repo br w)) = files w.
Proof.
  rewrite ensure_instance_upload. apply ensure_host.
  intros w'. apply wait_host_upload.
Qed.

Lemma ensure_errors_upload self n pr repo br w :
  upload_deploy_error (world (PrPreviewSystem.ensure_instance self n pr repo br w)) = upload_deploy_error w
  /\ output_error (world (PrPreviewSystem.ensure_instance self n pr repo br w)) = output_error w.
Proof.
  destruct (ensure_host_upload self n pr repo br w) as [He Hf].
  unfold upload_deploy_error, output_error. rewrite He, Hf. split; reflexivity.
Qed.

Lemma deploy_events_quiet_upload repo br ip :
  calls (upload_deploy_events repo br ip) = [] /\ creations (upload_deploy_events repo br ip) = O.
Proof. split; reflexivity. Qed.

Lemma deploy_started_quiet_upload :
  calls upload_deploy_started = [] /\ creations upload_deploy_started = O.
Proof. split; reflexivity. Qed.

(** How [create_preview] ends: as the block that binds [instance_ip]
    does, unless that returns; then on the file output alone. *)
Lemma create_preview_out_upload self pr repo br sha w :
  out (PrPreviewSystem.create_preview self pr repo br sha w) =
  match out (PrPreviewSystem.ensure_instance self (PrPreviewSystem.get_instance_name pr repo) pr repo br w) with
  | Return _ => create_outcome (upload_deploy_error w) (output_error w)
  | Raise e => Raise e
  | Exit k => Exit k
  end.
Proof.
  rewrite create_preview_upload, create_flow_out.
  destruct (ensure_errors_upload self (PrPreviewSystem.get_instance_name pr repo) pr repo br w)
    as [-> ->].
  reflexivity.
Qed.

Lemma create_preview_now_upload self pr repo br sha w :
  now (world (PrPreviewSystem.create_preview self pr repo br sha w)) =
  match out (PrPreviewSystem.ensure_instance self (PrPreviewSystem.get_instance_name pr repo) pr repo br w) with
  | Return _ =>
      now (world (PrPreviewSystem.ensure_instance self (PrPreviewSystem.get_instance_name pr repo) pr repo br w))
      + 60
  | _ => now (world (PrPreviewSystem.ensure_instance self (PrPreviewSystem.get_instance_name pr repo) pr repo br w))
  end.
Proof. rewrite create_preview_upload. apply create_flow_now. Qed.

Lemma create_preview_cloud_upload self pr repo br sha w :
  cloud (world (PrPreviewSystem.create_preview self pr repo br sha w)) =
  cloud (world (PrPreviewSystem.ensure_instance self (PrPreviewSystem.get_instance_name pr repo) pr repo br w)).
Proof. rewrite create_preview_upload. apply create_flow_cloud. Qed.

Lemma create_preview_calls_upload self pr repo br sha w :
  calls (log (PrPreviewSystem.create_preview self pr repo br sha w)) =
  calls (log (PrPreviewSystem.ensure_instance self (PrPreviewSystem.get_instance_name pr repo) pr repo br w)).
Proof.
  rewrite create_preview_upload.
  apply create_flow_calls;
    [apply header_events_quiet
    | apply deploy_started_quiet_upload
    | intros ip; apply deploy_events_quiet_upload].
Qed.

Lemma create_preview_creations_upload self pr repo br sha w :
  creations (log (PrPreviewSystem.create_preview self pr repo br sha w)) =
  creations (log (PrPreviewSystem.ensure_instance self (PrPreviewSystem.get_instance_name pr repo) pr repo br w)).
Proof.
  rewrite create_preview_upload.
  apply create_flow_creations;
    [apply header_events_quiet
    | apply deploy_started_quiet_upload
    | intros ip; apply deploy_events_quiet_upload].
Qed.

Lemma name_requested_upload self n pr repo br :
  In n (instanceNames (PrPreviewSystem.create_instances_args self n pr repo br)).
Proof. left. reflexivity. Qed.

End Facts.

Section Main.
Context {P : Type} (boto3_client : string -> exn + Lightsail P).
Context (parse_args : list string -> Z + Namespace).

Lemma main_rejected_upload argv status w :
  parse_args argv = inl status ->
  PrPreviewSystem.main boto3_client parse_args argv w = mkRes (Exit status) w [].
Proof. intros Hp. unfold PrPreviewSystem.main. rewrite Hp. reflexivity. Qed.

Lemma main_no_client_upload argv args e w :
  parse_args argv = inr args ->
  boto3_client (arg_region args) = inl e ->
  PrPreviewSystem.main boto3_client parse_args argv w = mkRes (Raise e) w [].
Proof.
  intros Hp Hc. unfold PrPreviewSystem.main, PrPreviewSystem.init. rewrite Hp. step_py. rewrite Hc. reflexivity.
Qed.

Lemma main_create_upload argv args client w :
  parse_args argv = inr args ->
  boto3_client (arg_region args) = inr client ->
  arg_action args = create ->
  truthy_opt (arg_branch args) = true ->
  truthy_opt (arg_commit_sha args) = true ->
  PrPreviewSystem.main boto3_client parse_args argv w =
  match PrPreviewSystem.create_preview (PrPreviewSystem.mkPreviewManager client (arg_region args))
          (arg_pr_number args) (arg_repo_name args)
          (str_value (arg_branch args)) (str_value (arg_commit_sha args)) w with
  | mkRes (Return success) w' l => mkRes (Exit (if success then 0 else 1)) w' l
  | mkRes (Raise e) w' l => mkRes (Raise e) w' l
  | mkRes (Exit k) w' l => mkRes (Exit k) w' l
  end.
Proof.
  intros Hp Hcl Ha Hb Hc. unfold PrPreviewSystem.main, PrPreviewSystem.init. rewrite Hp. step_py.
  rewrite Hcl. step_py. rewrite Ha, Hb, Hc. cbn [negb orb].
  step_py. step_py.
  destruct (PrPreviewSystem.create_preview _ _ _ _ _ w) as [[b | e | k] w' l];
    try (done_py; reflexivity).
  done_py; rewrite ?app_nil_r; reflexivity.
Qed.

Lemma main_usage_upload argv args client w :
  parse_args argv = inr args ->
  boto3_client (arg_region args) = inr client ->
  arg_action args = create ->
  truthy_opt (arg_branch args) = false \/ truthy_opt (arg_commit_sha args) = false ->
  PrPreviewSystem.main boto3_client parse_args argv w =
  mkRes (Exit 1) w
    [Console "❌ --branch and --commit-sha are required for create action"].
Proof.
  intros Hp Hcl Ha H. unfold PrPreviewSystem.main, PrPreviewSystem.init. rewrite Hp. step_py.
  rewrite Hcl. step_py. rewrite Ha.
  assert (negb (truthy_opt (arg_branch args)) || negb (truthy_opt (arg_commit_sha args))
          = true) as ->.
  { destruct H as [-> | ->]; [reflexivity | apply orb_true_r]. }
  destruct w. reflexivity.
Qed.

Lemma main_delete_upload argv args client w :
  parse_args argv = inr args ->
  boto3_client (arg_region args) = inr client ->
  arg_action args = delete ->
  PrPreviewSystem.main boto3_client parse_args argv w =
  match PrPreviewSystem.delete_preview (PrPreviewSystem.mkPreviewManager client (arg_region args))
          (arg_pr_number args) (arg_repo_name args) w with
  | mkRes (Return success) w' l => mkRes (Exit (if success then 0 else 1)) w' l
  | mkRes (Raise e) w' l => mkRes (Raise e) w' l
  | mkRes (Exit k) w' l => mkRes (Exit k) w' l
  end.
Proof.
  intros Hp Hcl Ha. unfold PrPreviewSystem.main, PrPreviewSystem.init. rewrite Hp. step_py.
  rewrite Hcl. step_py. rewrite Ha. step_py.
  destruct (PrPreviewSystem.delete_preview _ _ _ w) as [[b | e | k] w' l];
    try (done_py; reflexivity).
  done_py; rewrite ?app_nil_r; reflexivity.
Qed.

End Main.
(** Consequences for the flows of this file. *)

Section Flows.
Context {P : Type}.
Implicit Type self : PrPreviewSystem.PreviewManager P.

Lemma delete_instance_absent_upload self n w msg :
  fst (lightsail_delete_instance (PrPreviewSystem.lightsail self) n (cloud w))
    = inl (NotFoundException msg) ->
  out (PrPreviewSystem.delete_instance self n w) = Return true.
Proof.
  intros H. rewrite delete_instance_upload.
  destruct (lightsail_delete_instance (PrPreviewSystem.lightsail self) n (cloud w)) as [a p'].
  cbn [fst] in H. subst a. reflexivity.
Qed.

Lemma main_delete_absent_upload (boto3_client : string -> exn + Lightsail P)
    (parse_args : list string -> Z + Namespace) argv args client w msg :
  parse_args argv = inr args ->
  boto3_client (arg_region args) = inr client ->
  arg_action args = delete ->
  fst (lightsail_delete_instance client
         (PrPreviewSystem.get_instance_name (arg_pr_number args) (arg_repo_name args)) (cloud w))
    = inl (NotFoundException msg) ->
  out (PrPreviewSystem.delete_preview (PrPreviewSystem.mkPreviewManager client (arg_region args))
         (arg_pr_number args) (arg_repo_name args) w) = Return true
  /\ out (PrPreviewSystem.main boto3_client parse_args argv w) = Exit 0.
Proof.
  intros Hp Hcl Ha H.
  assert (out (PrPreviewSystem.delete_preview (PrPreviewSystem.mkPreviewManager client (arg_region args))
                 (arg_pr_number args) (arg_repo_name args) w) = Return true) as Hd.
  { rewrite delete_preview_upload. cbn [add_log out].
    apply delete_instance_absent_upload with (msg := msg). exact H. }
  split; [exact Hd |].
  rewrite (main_delete_upload boto3_client parse_args argv args client w Hp Hcl Ha).
  destruct (PrPreviewSystem.delete_preview _ _ _ w) as [o w' l]. cbn [out] in Hd. subst o.
  reflexivity.
Qed.

Lemma wait_for_instance_stub_upload (K : nat) early address region n mw (w : World nat) :
  (1 <= K)%nat ->
  cloud w = O ->
  (forall i, (S i < K)%nat -> ready_address (early i) = None) ->
  let r := PrPreviewSystem.wait_for_instance
             (PrPreviewSystem.mkPreviewManager (poll_stub K early address) region) n mw w in
  ((Z.of_nat K - 1) * 10 < mw ->
     out r = Return (Some address)
     /\ calls (log r) = repeat (GetInstance n) K
     /\ now (world r) = now w + (Z.of_nat K - 1) * 10)
  /\ (mw <= (Z.of_nat K - 1) * 10 ->
        out r = Return None /\ (length (calls (log r)) < K)%nat).
Proof.
  intros HK Hw Hearly r. subst r. rewrite wait_for_instance_upload.
  cbn [add_log out log world app calls].
  pose proof (poll_stub_run K early address n (now w) mw _
                (wait_for_instance_loop_upload
                   (PrPreviewSystem.mkPreviewManager (poll_stub K early address) region) n (now w) mw)
                Hearly (K - 1)%nat w) as H.
  rewrite Hw in H. specialize (H ltac:(lia)).
  replace (now w - now w + Z.of_nat (K - 1) * 10) with ((Z.of_nat K - 1) * 10) in H by lia.
  replace (S (K - 1)) with K in H by lia.
  destruct ((Z.of_nat K - 1) * 10 <? mw) eqn:G.
  - apply Z.ltb_lt in G. split; [| lia].
    intros _. destruct H as (Ho & Hc & Hn). repeat split; [exact Ho | exact Hc | lia].
  - apply Z.ltb_ge in G. split; [lia |].
    intros _. destruct H as (Ho & Hc). split; [exact Ho | lia].
Qed.

Lemma create_preview_pending_upload self pr repo br sha w i1 p1 i2 p2 :
  let n := PrPreviewSystem.get_instance_name pr repo in
  lightsail_get_instance (PrPreviewSystem.lightsail self) n (cloud w) = (inr i1, p1) ->
  lightsail_get_instance (PrPreviewSystem.lightsail self) n p1 = (inr i2, p2) ->
  publicIpAddress i2 = None ->
  out (PrPreviewSystem.create_preview self pr repo br sha w) = Raise (KeyError "publicIpAddress")
  /\ calls (log (PrPreviewSystem.create_preview self pr repo br sha w))
     = [GetInstance n; GetInstance n].
Proof.
  intros n G1 G2 Hip.
  rewrite create_preview_out_upload, create_preview_calls_upload, ensure_instance_upload.
  fold n. rewrite (ensure_pending _ _ _ _ n w i1 p1 i2 p2 G1 G2 Hip).
  split; reflexivity.
Qed.

Lemma create_preview_never_false_upload self pr repo br sha w b :
  out (PrPreviewSystem.create_preview self pr repo br sha w) = Return b -> b = true.
Proof.
  rewrite create_preview_out_upload.
  destruct (out (PrPreviewSystem.ensure_instance self _ pr repo br w)) as [ip | e | k];
    try discriminate.
  unfold create_outcome.
  destruct (upload_deploy_error w); [discriminate |].
  destruct (output_error w); [discriminate |].
  intros [= <-]. reflexivity.
Qed.

Lemma main_create_out_upload (boto3_client : string -> exn + Lightsail P)
    (parse_args : list string -> Z + Namespace) argv args client w :
  parse_args argv = inr args ->
  boto3_client (arg_region args) = inr client ->
  arg_action args = create ->
  truthy_opt (arg_branch args) = true ->
  truthy_opt (arg_commit_sha args) = true ->
  out (PrPreviewSystem.main boto3_client parse_args argv w) =
  match out (PrPreviewSystem.create_preview (PrPreviewSystem.mkPreviewManager client (arg_region args))
               (arg_pr_number args) (arg_repo_name args)
               (str_value (arg_branch args)) (str_value (arg_commit_sha args)) w) with
  | Return success => Exit (if success then 0 else 1)
  | Raise e => Raise e
  | Exit k => Exit k
  end.
Proof.
  intros Hp Hcl Ha Hb Hc.
  rewrite (main_create_upload boto3_client parse_args argv args client w Hp Hcl Ha Hb Hc).
  destruct (PrPreviewSystem.create_preview _ _ _ _ _ w) as [[b | e | k] w' l]; reflexivity.
Qed.

Lemma create_preview_call_inv_upload self pr repo br sha w req raised :
  In (Call req raised) (log (PrPreviewSystem.create_preview self pr repo br sha w)) ->
  In (Call req raised)
     (log (PrPreviewSystem.ensure_instance self (PrPreviewSystem.get_instance_name pr repo) pr repo br w)).
Proof.
  rewrite create_preview_upload.
  apply create_flow_call_inv;
    [apply header_events_quiet
    | apply deploy_started_quiet_upload
    | intros ip; apply deploy_events_quiet_upload].
Qed.

End Flows.

End UploadFacts.

(** ** The fake provider obeys the contract *)

Module ProviderFacts.
Import PyStr Py Provider.

Lemma fake_present boot address n p :
  present (fake boot address) n p = match p n with Some _ => true | None => false end.
Proof. unfold present. cbn. destruct (p n) as [[| k] |]; reflexivity. Qed.

Lemma fake_addressed boot address n p :
  addressed (fake boot address) n p = match p n with Some O => true | _ => false end.
Proof. unfold addressed. cbn. destruct (p n) as [[| k] |]; reflexivity. Qed.

Lemma fake_get_state boot address m p n :
  snd (lightsail_get_instance (fake boot address) m p) n =
  match p m with
  | Some (S k) => if String.eqb n m then Some k else p n
  | _ => p n
  end.
Proof. cbn. destruct (p m) as [[| k] |]; reflexivity. Qed.

Lemma fake_ports_state boot address ports m p :
  snd (lightsail_put_instance_public_ports (fake boot address) ports m p) = p.
Proof. cbn. destruct (p m); reflexivity. Qed.

Lemma fake_persistent boot address : persistent (fake boot address).
Proof.
  constructor.
  - intros args p n Hok Hin. rewrite fake_present. revert Hok. cbn.
    destruct (existsb _ (instanceNames args)); [discriminate |].
    intros _. cbn.
    assert (existsb (String.eqb n) (instanceNames args) = true) as ->; [| reflexivity].
    apply existsb_exists. exists n. split; [exact Hin | apply String.eqb_refl].
  - intros n m p. rewrite !fake_present, fake_get_state.
    destruct (p m) as [[| k] |]; try (intros H; exact H).
    destruct (String.eqb n m); [reflexivity | intros H; exact H].
  - intros n m ports p. rewrite fake_ports_state. intros H; exact H.
  - intros n m p. rewrite !fake_addressed, fake_get_state.
    destruct (p m) as [[| k] |] eqn:E; try (intros H; exact H).
    destruct (String.eqb n m) eqn:N; [| intros H; exact H].
    apply String.eqb_eq in N. subst m. rewrite E. discriminate.
  - intros n m ports p. rewrite fake_ports_state. intros H; exact H.
Qed.

End ProviderFacts.

(** ** The flows on the fake provider

    PR 7 of [acme/widgets] against a provider whose new instance answers
    [pending] twice and then runs at [10.0.0.5]. *)

Module Runs.
Import PyStr Py Provider.

Example create_end_to_end_scripts :
  let w := setenv "GITHUB_OUTPUT" "/tmp/output" fresh_world in
  let r := Scripts.main (boto3_stub (fake 2 "10.0.0.5")) plain_parse_args create_argv w in
  out r = Exit 0
  /\ calls (log r)
     = [GetInstance "pr-7-widgets";
        CreateInstancesReq
          (Scripts.create_instances_args
             (Scripts.mkPreviewManager (fake 2 "10.0.0.5") "us-east-1")
             "pr-7-widgets" 7 "acme/widgets" "feature-x");
        GetInstance "pr-7-widgets"; GetInstance "pr-7-widgets"; GetInstance "pr-7-widgets";
        PutInstancePublicPorts Scripts.port_infos "pr-7-widgets"]
  /\ In (FileOut "/tmp/output" "a"
           ["preview_url=http://10.0.0.5/" ++ nl;
            "instance_ip=10.0.0.5" ++ nl;
            "instance_name=pr-7-widgets" ++ nl]) (log r)
  /\ now (world r) = 140.
Proof.
  vm_compute. repeat split. repeat (first [left; reflexivity | right]).
Qed.

Example create_end_to_end_upload :
  let w := setenv "GITHUB_OUTPUT" "/tmp/output" fresh_world in
  let r := PrPreviewSystem.main (boto3_stub (fake 2 "10.0.0.5")) plain_parse_args
             create_argv w in
  out r = Exit 0
  /\ In (FileOut "/tmp/output" "a"
           ["preview_url=http://10.0.0.5/" ++ nl;
            "instance_ip=10.0.0.5" ++ nl;
            "instance_name=pr-7-widgets" ++ nl]) (log r)
  /\ now (world r) = 80.
Proof.
  vm_compute. repeat split. repeat (first [left; reflexivity | right]).
Qed.

Example delete_end_to_end :
  let r := Scripts.main (boto3_stub (fake 2 "10.0.0.5")) plain_parse_args delete_argv
             fresh_world in
  out r = Exit 0 /\ calls (log r) = [DeleteInstance "pr-7-widgets"].
Proof. vm_compute. split; reflexivity. Qed.

Example create_times_out :
  let r := Scripts.main (boto3_stub (fake 31 "10.0.0.5")) plain_parse_args create_argv
             fresh_world in
  out r = Exit 1 /\ length (calls (log r)) = 32%nat /\ now (world r) = 300.
Proof. vm_compute. repeat split. Qed.

(** The output file cannot be opened: the instance is up, the report is
    printed, and the run ends in the exception. *)
Example create_with_unwritable_output :
  let denied := OSError "[Errno 13] Permission denied: '/tmp/output'" in
  let w := unwritable "/tmp/output" "a" denied
             (setenv "GITHUB_OUTPUT" "/tmp/output" fresh_world) in
  let r := Scripts.main (boto3_stub (fake 2 "10.0.0.5")) plain_parse_args create_argv w in
  out r = Raise denied
  /\ exit_status (out r) = 1
  /\ last (log r) (Console EmptyString) = Console "Instance: pr-7-widgets"
  /\ now (world r) = 140.
Proof. vm_compute. repeat split. Qed.

(** A command line that argparse rejects, and a region that the
    constructor of the client rejects. *)
Example rejected_command_lines :
  out (Scripts.main (boto3_stub (fake 2 "10.0.0.5")) plain_parse_args
         ["create"; "--pr-number"; "seven"; "--repo-name"; "acme/widgets"] fresh_world)
  = Exit 2
  /\ (exists e,
        out (Scripts.main (boto3_stub (fake 2 "10.0.0.5")) plain_parse_args
               (create_argv ++ ["--region"; "us east 1"]) fresh_world) = Raise e).
Proof. split; [vm_compute; reflexivity | eexists; vm_compute; reflexivity]. Qed.

End Runs.

(** ** The claims *)

Import PyStr Py Provider Flow RunFacts FlowFacts NameFacts ProviderFacts.
Import ScriptsFacts UploadFacts.

(** C1.  The derived name is a function of the PR number and the
    repository identifier alone: two calls with the same arguments yield
    the same string.  It is at most 63 characters long, it is
    ["pr-42-My-Repo-App"] for PR 42 of ["my-org/My_Repo.App"], and the two
    files derive the same name. *)
Theorem get_instance_name_deterministic_bounded (pr_number : Z) (repo_name : string) :
  (forall first second : string,
      first = Scripts.get_instance_name pr_number repo_name ->
      second = Scripts.get_instance_name pr_number repo_name ->
      first = second)
  /\ (String.length (Scripts.get_instance_name pr_number repo_name) <= 63)%nat
  /\ Scripts.get_instance_name 42 "my-org/My_Repo.App" = "pr-42-My-Repo-App"
  /\ PrPreviewSystem.get_instance_name pr_number repo_name
     = Scripts.get_instance_name pr_number repo_name.
Proof.
  split; [| split; [| split]].
  - intros first second -> ->. reflexivity.
  - apply length_slice_to.
  - reflexivity.
  - reflexivity.
Qed.

Lemma get_instance_name_deterministic_bounded_witness :
  "pr-7-widgets" = Scripts.get_instance_name 7 "acme/widgets"
  /\ (String.length (Scripts.get_instance_name 7 "acme/widgets") <= 63)%nat.
Proof.
  destruct (get_instance_name_deterministic_bounded 7 "acme/widgets") as (Hsame & Hlen & _).
  split; [| exact Hlen].
  apply Hsame; reflexivity.
Defined.

(** C2, as stated, fails: the upper-case letters of the repository name
    reach the derived name. *)
Lemma get_instance_name_keeps_upper_case :
  all_chars lower_digit_dash (Scripts.get_instance_name 42 "my-org/My_Repo.App") = false.
Proof. reflexivity. Qed.

(** C2, amended.  For a repository identifier made of the characters
    GitHub allows (letters, digits, dash, underscore, dot, and the slash
    after the owner) the derived name holds nothing outside
    [[A-Za-z0-9-]]: underscores and dots become dashes and the case of
    letters is kept.  When the identifier has no upper-case letter the
    name holds nothing outside [[a-z0-9-]].  Whatever the identifier, the
    name holds no slash, underscore or dot. *)
Theorem get_instance_name_alphabet (pr_number : Z) (repo_name : string) :
  (all_chars repo_char repo_name = true ->
   all_chars alnum_dash (Scripts.get_instance_name pr_number repo_name) = true)
  /\ (all_chars repo_char_lower repo_name = true ->
      all_chars lower_digit_dash (Scripts.get_instance_name pr_number repo_name) = true)
  /\ all_chars plain_char (Scripts.get_instance_name pr_number repo_name) = true.
Proof.
  split; [| split]; [intros H | intros H |].
  - apply get_instance_name_chars
      with (p := repo_char) (q := fun c => alnum_dash c || Ascii.eqb c ".").
    + exact digit_alnum_dash.
    + reflexivity.
    + exact underscore_step.
    + exact dot_step.
    + exact H.
  - apply get_instance_name_chars
      with (p := repo_char_lower) (q := fun c => lower_digit_dash c || Ascii.eqb c ".").
    + exact digit_lower_digit_dash.
    + reflexivity.
    + exact underscore_step_lower.
    + exact dot_step_lower.
    + exact H.
  - apply get_instance_name_chars
      with (p := fun _ => true)
           (q := fun c => negb (Ascii.eqb c "/") && negb (Ascii.eqb c "_")).
    + exact digit_plain_char.
    + reflexivity.
    + exact underscore_step_plain.
    + exact dot_step_plain.
    + apply all_chars_true.
Qed.

Lemma get_instance_name_alphabet_witness :
  all_chars alnum_dash (Scripts.get_instance_name 42 "my-org/My_Repo.App") = true
  /\ all_chars lower_digit_dash (Scripts.get_instance_name 7 "acme/widgets") = true.
Proof.
  split.
  - apply (proj1 (get_instance_name_alphabet 42 "my-org/My_Repo.App")). reflexivity.
  - apply (proj1 (proj2 (get_instance_name_alphabet 7 "acme/widgets"))). reflexivity.
Defined.

(** C3.  When the provider answers the deletion with
    [NotFoundException], [delete_instance] returns [True] for every
    instance name, and so does [delete_preview]; [main] with the action
    [delete], once the command line is parsed and the client built, then
    ends the process with exit status 0.  This holds in both files. *)
Theorem delete_absent_instance_succeeds {P : Type} :
  (forall (self : Scripts.PreviewManager P) instance_name w msg,
      fst (lightsail_delete_instance (Scripts.lightsail self) instance_name (cloud w))
        = inl (NotFoundException msg) ->
      out (Scripts.delete_instance self instance_name w) = Return true)
  /\ (forall (boto3_client : string -> exn + Lightsail P)
             (parse_args : list string -> Z + Namespace) argv args client w msg,
        parse_args argv = inr args ->
        boto3_client (arg_region args) = inr client ->
        arg_action args = delete ->
        fst (lightsail_delete_instance client
               (Scripts.get_instance_name (arg_pr_number args) (arg_repo_name args))
               (cloud w))
          = inl (NotFoundException msg) ->
        out (Scripts.delete_preview (Scripts.mkPreviewManager client (arg_region args))
               (arg_pr_number args) (arg_repo_name args) w) = Return true
        /\ out (Scripts.main boto3_client parse_args argv w) = Exit 0
        /\ exit_status (out (Scripts.main boto3_client parse_args argv w)) = 0)
  /\ (forall (self : PrPreviewSystem.PreviewManager P) instance_name w msg,
        fst (lightsail_delete_instance (PrPreviewSystem.lightsail self) instance_name
               (cloud w))
          = inl (NotFoundException msg) ->
        out (PrPreviewSystem.delete_instance self instance_name w) = Return true)
  /\ (forall (boto3_client : string -> exn + Lightsail P)
             (parse_args : list string -> Z + Namespace) argv args client w msg,
        parse_args argv = inr args ->
        boto3_client (arg_region args) = inr client ->
        arg_action args = delete ->
        fst (lightsail_delete_instance client
               (PrPreviewSystem.get_instance_name (arg_pr_number args) (arg_repo_name args))
               (cloud w))
          = inl (NotFoundException msg) ->
        out (PrPreviewSystem.delete_preview
               (PrPreviewSystem.mkPreviewManager client (arg_region args))
               (arg_pr_number args) (arg_repo_name args) w) = Return true
        /\ out (PrPreviewSystem.main boto3_client parse_args argv w) = Exit 0
        /\ exit_status (out (PrPreviewSystem.main boto3_client parse_args argv w)) = 0).
Proof.
  split; [| split; [| split]].
  - intros self n w msg H. exact (delete_instance_absent_scripts self n w msg H).
  - intros boto3_client parse_args argv args client w msg Hp Hcl Ha H.
    destruct (main_delete_absent_scripts boto3_client parse_args argv args client w msg
                Hp Hcl Ha H) as [Hd Hm].
    rewrite Hm. repeat split. exact Hd.
  - intros self n w msg H. exact (delete_instance_absent_upload self n w msg H).
  - intros boto3_client parse_args argv args client w msg Hp Hcl Ha H.
    destruct (main_delete_absent_upload boto3_client parse_args argv args client w msg
                Hp Hcl Ha H) as [Hd Hm].
    rewrite Hm. repeat split. exact Hd.
Qed.

Lemma delete_absent_instance_succeeds_witness :
  let boto3_client := boto3_stub (fake 2 "10.0.0.5") in
  out (Scripts.delete_instance (Scripts.mkPreviewManager (fake 2 "10.0.0.5") "us-east-1")
         "pr-7-widgets" fresh_world) = Return true
  /\ exit_status (out (Scripts.main boto3_client plain_parse_args delete_argv fresh_world))
     = 0
  /\ out (PrPreviewSystem.delete_instance
            (PrPreviewSystem.mkPreviewManager (fake 2 "10.0.0.5") "us-east-1")
            "pr-7-widgets" fresh_world) = Return true
  /\ exit_status (out (PrPreviewSystem.main boto3_client plain_parse_args delete_argv
                         fresh_world)) = 0.
Proof.
  intros boto3_client.
  destruct (@delete_absent_instance_succeeds fake_state) as (Hs & Hsm & Hu & Hum).
  split; [| split; [| split]].
  - apply Hs with (msg := "NotFoundException"). reflexivity.
  - eapply (Hsm boto3_client plain_parse_args delete_argv _ _ fresh_world
              "NotFoundException"); reflexivity.
  - apply Hu with (msg := "NotFoundException"). reflexivity.
  - eapply (Hum boto3_client plain_parse_args delete_argv _ _ fresh_world
              "NotFoundException"); reflexivity.
Defined.

(** C7, as stated, fails: [main] parses the command line and builds the
    client before it tests the two options.  A [create] without
    [--branch] that also lacks [--repo-name] is rejected by argparse
    with status 2, not 1; and with a region the constructor of the
    client rejects, the run ends in that exception and the usage error
    is never printed. *)
Lemma create_without_branch_can_end_before_the_guard :
  let boto3_client := boto3_stub (fake 2 "10.0.0.5") in
  out (Scripts.main boto3_client plain_parse_args
         ["create"; "--pr-number"; "7"; "--commit-sha"; "abcdef1"] fresh_world)
  = Exit 2
  /\ Scripts.main boto3_client plain_parse_args
       ["create"; "--pr-number"; "7"; "--repo-name"; "acme/widgets";
        "--commit-sha"; "abcdef1"; "--region"; "us east 1"] fresh_world
     = mkRes (Raise (ProviderError
                       "Provided region_name 'us east 1' doesn't match a supported format."))
         fresh_world [].
Proof. split; vm_compute; reflexivity. Qed.

(** C7, amended.  Whatever the command line, [main] makes no request to
    the provider before the guard.  A command line argparse rejects ends
    the process with the status of argparse.  For a [create] that
    argparse accepts and that lacks [--branch] or [--commit-sha] ([None],
    as argparse leaves an absent option; an empty string counts as missing
    too): when the constructor of the client raises, the run ends in that
    exception, having printed nothing; when the client is built, [main]
    prints the usage error and ends the process with exit status 1, no
    provider call is among the events and the world is untouched. *)
Theorem create_without_branch_or_commit_is_usage_error {P : Type}
    (boto3_client : string -> exn + Lightsail P)
    (parse_args : list string -> Z + Namespace) (argv : list string) (w : World P) :
  (forall status,
      parse_args argv = inl status ->
      Scripts.main boto3_client parse_args argv w = mkRes (Exit status) w [])
  /\ (forall args,
        parse_args argv = inr args ->
        arg_action args = create ->
        truthy_opt (arg_branch args) = false \/ truthy_opt (arg_commit_sha args) = false ->
        (forall e,
            boto3_client (arg_region args) = inl e ->
            Scripts.main boto3_client parse_args argv w = mkRes (Raise e) w [])
        /\ (forall client,
              boto3_client (arg_region args) = inr client ->
              out (Scripts.main boto3_client parse_args argv w) = Exit 1
              /\ exit_status (out (Scripts.main boto3_client parse_args argv w)) = 1
              /\ log (Scripts.main boto3_client parse_args argv w)
                 = [Console "❌ --branch and --commit-sha are required for create action"]
              /\ calls (log (Scripts.main boto3_client parse_args argv w)) = []
              /\ world (Scripts.main boto3_client parse_args argv w) = w)).
Proof.
  split.
  - intros status Hp. exact (main_rejected_scripts boto3_client parse_args argv status w Hp).
  - intros args Hp Ha Hmissing. split.
    + intros e Hcl.
      exact (main_no_client_scripts boto3_client parse_args argv args e w Hp Hcl).
    + intros client Hcl.
      rewrite (main_usage_scripts boto3_client parse_args argv args client w
                 Hp Hcl Ha Hmissing).
      repeat split.
Qed.

Lemma create_without_branch_or_commit_is_usage_error_witness :
  let boto3_client := boto3_stub (fake 2 "10.0.0.5") in
  let argv := ["create"; "--pr-number"; "7"; "--repo-name"; "acme/widgets";
               "--commit-sha"; "abcdef1"] in
  out (Scripts.main boto3_client plain_parse_args argv fresh_world) = Exit 1
  /\ calls (log (Scripts.main boto3_client plain_parse_args argv fresh_world)) = [].
Proof.
  intros boto3_client argv.
  destruct (create_without_branch_or_commit_is_usage_error boto3_client plain_parse_args
              argv fresh_world) as [_ H].
  edestruct H as [_ Hclient];
    [reflexivity | reflexivity | left; reflexivity |].
  destruct (Hclient (fake 2 "10.0.0.5") eq_refl) as (Hout & _ & _ & Hcalls & _).
  split; [exact Hout | exact Hcalls].
Defined.

(** The readiness polls of the two files are the same function. *)
Lemma wait_for_instance_agree {P : Type} (c : Lightsail P) region n max_wait w :
  Scripts.wait_for_instance (Scripts.mkPreviewManager c region) n max_wait w
  = PrPreviewSystem.wait_for_instance (PrPreviewSystem.mkPreviewManager c region)
      n max_wait w.
Proof.
  rewrite wait_for_instance_scripts, wait_for_instance_upload.
  do 2 f_equal.
  apply (poll_unique c n (now w) max_wait _
           (wait_for_instance_loop_scripts (Scripts.mkPreviewManager c region)
              n (now w) max_wait)
           _
           (wait_for_instance_loop_upload (PrPreviewSystem.mkPreviewManager c region)
              n (now w) max_wait)).
Qed.

(** C9.  Over the same client and region the two files agree on
    everything but provisioning and deployment: [get_instance_name],
    [instance_exists], [wait_for_instance], [configure_firewall] and
    [delete_instance] end the same way, in the same world, after the same
    events, provider calls and their answers included. *)
Theorem variants_agree_outside_deployment {P : Type} (c : Lightsail P) (region : string) :
  let scripts := Scripts.mkPreviewManager c region in
  let upload := PrPreviewSystem.mkPreviewManager c region in
  (forall pr_number repo_name,
      Scripts.get_instance_name pr_number repo_name
      = PrPreviewSystem.get_instance_name pr_number repo_name)
  /\ (forall instance_name w,
        Scripts.instance_exists scripts instance_name w
        = PrPreviewSystem.instance_exists upload instance_name w)
  /\ (forall instance_name max_wait w,
        Scripts.wait_for_instance scripts instance_name max_wait w
        = PrPreviewSystem.wait_for_instance upload instance_name max_wait w)
  /\ (forall instance_name w,
        Scripts.configure_firewall scripts instance_name w
        = PrPreviewSystem.configure_firewall upload instance_name w)
  /\ (forall instance_name w,
        Scripts.delete_instance scripts instance_name w
        = PrPreviewSystem.delete_instance upload instance_name w).
Proof.
  intros scripts upload. split; [| split; [| split; [| split]]].
  - reflexivity.
  - reflexivity.
  - intros n max_wait w. apply wait_for_instance_agree.
  - reflexivity.
  - reflexivity.
Qed.

Import ProviderMore.

(** C4, as stated, fails.  When the provider refuses the creation
    request, nothing exists for the second run to find, and it sends the
    creation request again.  So it does against a provider that accepts
    the creation and then answers every query with [NotFoundException].
    When the first run created the instance and the wait ran out of
    time, the second run finds the instance and does not create, yet it
    does not go on to deployment: it ends in [KeyError], as described
    under C6. *)
Lemma second_create_after_a_failed_first :
  let run := fun self : Scripts.PreviewManager fake_state =>
    Scripts.create_preview self 7 "acme/widgets" "feature-x" "abcdef1" in
  let refusing := Scripts.mkPreviewManager
                    (refusing_creation (fake 2 "10.0.0.5")
                       (ProviderError "ServiceException")) "us-east-1" in
  let forgetful := Scripts.mkPreviewManager
                     (failing_queries (fake 2 "10.0.0.5")
                        (NotFoundException "NotFoundException")) "us-east-1" in
  let slow := Scripts.mkPreviewManager (fake 40 "10.0.0.5") "us-east-1" in
  (out (run refusing fresh_world) = Exit 1
   /\ calls (log (run refusing (world (run refusing fresh_world))))
      = [GetInstance "pr-7-widgets";
         CreateInstancesReq
           (Scripts.create_instances_args refusing "pr-7-widgets" 7 "acme/widgets"
              "feature-x")])
  /\ (creations (log (run forgetful fresh_world)) = 1%nat
      /\ calls (log (run forgetful (world (run forgetful fresh_world))))
         = [GetInstance "pr-7-widgets";
            CreateInstancesReq
              (Scripts.create_instances_args forgetful "pr-7-widgets" 7 "acme/widgets"
                 "feature-x")])
  /\ (out (run slow fresh_world) = Exit 1
      /\ creations (log (run slow fresh_world)) = 1%nat
      /\ out (run slow (world (run slow fresh_world))) = Raise (KeyError "publicIpAddress")
      /\ calls (log (run slow (world (run slow fresh_world))))
         = [GetInstance "pr-7-widgets"; GetInstance "pr-7-widgets"]
      /\ ~ In (Console "📦 Application deployment initiated via user data...")
              (log (run slow (world (run slow fresh_world))))).
Proof.
  intros run refusing forgetful slow.
  split; [split; vm_compute; reflexivity |].
  split; [split; vm_compute; reflexivity |].
  split; [vm_compute; reflexivity |].
  split; [vm_compute; reflexivity |].
  split; [vm_compute; reflexivity |].
  split; [vm_compute; reflexivity |].
  intros Hin. vm_compute in Hin.
  repeat (destruct Hin as [Hin | Hin]; [discriminate Hin |]). exact Hin.
Qed.

(** C4, amended.  Against a provider that keeps its instances, two
    successive [create] runs for the same request have at most one
    creation request accepted between them, wherever the first run ended.
    When the first run obtained an address, as every run that returned
    [True] did, the second finds the instance: its only provider calls
    are the existence check and the query of the address, it issues no
    [create_instances], and it goes on to deployment; it then returns
    [True] unless the output block raises. *)
Theorem second_create_finds_the_instance {P : Type} (self : Scripts.PreviewManager P)
    (pr_number : Z) (repo_name branch commit_sha : string) (w w2 : World P) :
  let instance_name := Scripts.get_instance_name pr_number repo_name in
  let first := Scripts.create_preview self pr_number repo_name branch commit_sha w in
  let second := Scripts.create_preview self pr_number repo_name branch commit_sha w2 in
  persistent (Scripts.lightsail self) ->
  cloud w2 = cloud (world first) ->
  (creations (log first) + creations (log second) <= 1)%nat
  /\ (out first = Return true ->
      exists ip,
        out (Scripts.ensure_instance self instance_name pr_number repo_name branch w)
        = Return ip)
  /\ (forall ip,
        out (Scripts.ensure_instance self instance_name pr_number repo_name branch w)
        = Return ip ->
        calls (log second) = [GetInstance instance_name; GetInstance instance_name]
        /\ creations (log second) = O
        /\ exists ip2,
             out (Scripts.ensure_instance self instance_name pr_number repo_name branch w2)
             = Return ip2
             /\ (forall ev, In ev (scripts_deploy_events ip2) -> In ev (log second))
             /\ out second = match output_error w2 with
                             | Some e => Raise e
                             | None => Return true
                             end).
Proof.
  intros n first second Hc Hw2. subst first second.
  rewrite !create_preview_creations_scripts, !create_preview_out_scripts,
    create_preview_calls_scripts.
  rewrite create_preview_cloud_scripts in Hw2.
  fold n.
  pose proof (create_preview_scripts self pr_number repo_name branch commit_sha w2) as Ecp.
  cbv zeta in Ecp. fold n in Ecp.
  pose proof (ensure_errors_scripts self n pr_number repo_name branch w2) as [_ Herr].
  set (ensured2 := Scripts.ensure_instance self n pr_number repo_name branch w2) in *.
  assert (ensured2 = ensure_flow (Scripts.lightsail self)
                       (Scripts.create_instances_args self n pr_number repo_name branch)
                       Scripts.port_infos (Scripts.wait_for_instance self n 300) n w2)
    as E2 by apply ensure_instance_scripts.
  rewrite ensure_instance_scripts in Hw2 |- *.
  set (args := Scripts.create_instances_args self n pr_number repo_name branch) in *.
  set (wait := Scripts.wait_for_instance self n 300) in *.
  set (c := Scripts.lightsail self) in *.
  assert (forall w, exists o, out (wait w) = Return o) as Hret
    by (intros w'; apply wait_returns_scripts).
  assert (forall w, Forall (polling n) (log (wait w))) as Hpoll
    by (intros w'; apply wait_polling_scripts).
  assert (forall w, present c n (cloud w) = true ->
                    present c n (cloud (world (wait w))) = true)
    as Hpres by (intros w'; apply (wait_present_scripts self n 300 w' Hc)).
  assert (forall w ip, out (wait w) = Return (Some ip) ->
                       addressed c n (cloud (world (wait w))) = true)
    as Haddr by (intros w' ip; apply (wait_addressed_scripts self n 300 w' ip Hc)).
  assert (In n (instanceNames args)) as Hin by (left; reflexivity).
  pose proof (ensure_creations_le c args Scripts.port_infos wait n Hret Hpoll w) as Hle1.
  pose proof (ensure_creations_le c args Scripts.port_infos wait n Hret Hpoll w2) as Hle2.
  rewrite <- E2 in Hle2.
  split; [| split].
  - destruct (creations (log (ensure_flow c args Scripts.port_infos wait n w))) as [| k] eqn:E.
    + lia.
    + assert (present c n (cloud w2) = true) as Hp.
      { rewrite Hw2.
        apply (ensure_created_present c args Scripts.port_infos wait n Hret Hpoll
                 Hc Hin Hpres w).
        rewrite E. discriminate. }
      rewrite E2.
      rewrite (ensure_present_creations c args Scripts.port_infos wait n Hret Hpoll w2 Hp).
      lia.
  - destruct (out (ensure_flow c args Scripts.port_infos wait n w)) as [ip | e | k];
      try discriminate.
    intros _. exists ip. reflexivity.
  - intros ip E.
    assert (addressed c n (cloud w2) = true) as Ha.
    { rewrite Hw2.
      apply (ensure_returns_addressed c args Scripts.port_infos wait n Hret Hpoll
               Hc Haddr w ip E). }
    destruct (ensure_addressed c args Scripts.port_infos wait n Hc w2 Ha)
      as [[ip2 Hout] Hcalls].
    rewrite <- E2 in Hout, Hcalls.
    split; [exact Hcalls | split].
    + rewrite E2.
      apply (ensure_present_creations c args Scripts.port_infos wait n Hret Hpoll w2
               (addressed_present c n _ Ha)).
    + exists ip2. split; [exact Hout | split].
      * intros ev Hev. rewrite Ecp.
        apply (create_flow_deployed _ _ _ _ _ _ _ _ ip2 Hout eq_refl). left. exact Hev.
      * rewrite Hout. reflexivity.
Qed.

Lemma second_create_finds_the_instance_witness :
  let self := Scripts.mkPreviewManager (fake 2 "10.0.0.5") "us-east-1" in
  let first := Scripts.create_preview self 7 "acme/widgets" "feature-x" "abcdef1"
                 fresh_world in
  let second := Scripts.create_preview self 7 "acme/widgets" "feature-x" "abcdef1"
                  (world first) in
  creations (log first) = 1%nat
  /\ out second = Return true
  /\ calls (log second) = [GetInstance "pr-7-widgets"; GetInstance "pr-7-widgets"]
  /\ creations (log second) = O.
Proof.
  intros self first second.
  destruct (second_create_finds_the_instance self 7 "acme/widgets"
              "feature-x" "abcdef1" fresh_world (world first)
              (fake_persistent 2 "10.0.0.5") eq_refl) as (_ & Hfirst & Hsecond).
  destruct Hfirst as [ip Hip]; [vm_compute; reflexivity |].
  destruct (Hsecond ip Hip) as (Hcalls & Hnone & ip2 & _ & _ & Hout).
  split; [vm_compute; reflexivity |].
  split; [exact Hout | split; [exact Hcalls | exact Hnone]].
Defined.

(** C5, as stated, fails at the budget's edge: with the poll interval of
    10 seconds and the budget of 300, a stub that is ready from query 30
    on has 30 * 10 = 300, which is not below 300, and yet query 30 is
    made, 290 seconds in, and its address is returned. *)
Lemma wait_for_instance_ready_at_thirtieth_query :
  (30 * 10 <? 300) = false
  /\ out (Scripts.wait_for_instance
            (Scripts.mkPreviewManager
               (poll_stub 30 (fun _ => inr (mkInstance "pending" None)) "10.0.0.5")
               "us-east-1")
            "pr-7-widgets" 300 (mkWorld 0 O (fun _ => None) (fun _ _ => None)))
     = Return (Some "10.0.0.5").
Proof. split; vm_compute; reflexivity. Qed.

(** C5, amended.  Against a stub that answers [running] with an address
    from query [K] on, and before that raises or answers an instance that
    is not ready, [wait_for_instance] returns that address after exactly
    [K] queries, [(K - 1) * 10] seconds in, if [(K - 1) * 10] is below
    [max_wait]; otherwise it returns [None] after fewer than [K] queries.
    The exceptions of the earlier queries are caught, never raised.  This
    holds in both files. *)
Theorem wait_for_instance_against_stub (K : nat) (early : nat -> exn + Instance)
    (address region instance_name : string) (max_wait : Z) (w : World nat) :
  let stub := poll_stub K early address in
  let scripts := Scripts.wait_for_instance (Scripts.mkPreviewManager stub region)
                   instance_name max_wait w in
  let upload := PrPreviewSystem.wait_for_instance
                  (PrPreviewSystem.mkPreviewManager stub region)
                  instance_name max_wait w in
  (1 <= K)%nat ->
  cloud w = O ->
  (forall i, (S i < K)%nat -> ready_address (early i) = None) ->
  ((Z.of_nat K - 1) * 10 < max_wait ->
     out scripts = Return (Some address)
     /\ calls (log scripts) = repeat (GetInstance instance_name) K
     /\ now (world scripts) = now w + (Z.of_nat K - 1) * 10)
  /\ (max_wait <= (Z.of_nat K - 1) * 10 ->
        out scripts = Return None /\ (length (calls (log scripts)) < K)%nat)
  /\ upload = scripts.
Proof.
  intros stub scripts upload HK Hw Hearly.
  destruct (wait_for_instance_stub_scripts K early address region instance_name
              max_wait w HK Hw Hearly) as [Hin Hover].
  split; [exact Hin | split; [exact Hover |]].
  symmetry. apply wait_for_instance_agree.
Qed.

Lemma wait_for_instance_against_stub_witness :
  let stub := poll_stub 3 (fun _ => inl (ProviderError "ServiceException")) "10.0.0.5" in
  let r := Scripts.wait_for_instance (Scripts.mkPreviewManager stub "us-east-1")
             "pr-7-widgets" 300 (mkWorld 0 O (fun _ => None) (fun _ _ => None)) in
  out r = Return (Some "10.0.0.5")
  /\ calls (log r) = repeat (GetInstance "pr-7-widgets") 3
  /\ now (world r) = 20.
Proof.
  intros stub r.
  destruct (wait_for_instance_against_stub 3
              (fun _ => inl (ProviderError "ServiceException")) "10.0.0.5" "us-east-1"
              "pr-7-widgets" 300 (mkWorld 0 O (fun _ => None) (fun _ _ => None)))
    as [Hin _].
  - lia.
  - reflexivity.
  - intros i _. reflexivity.
  - apply Hin. lia.
Defined.

(** C6: what the code does when the instance found has no address yet.
    The existence check succeeds, the instance is queried once more, and
    the subscript [['publicIpAddress']] raises [KeyError]: [create_preview]
    ends in that uncaught exception after exactly these two provider
    calls, without polling, and [main], run on a command line that parses
    to these arguments with the client built, ends the process with
    status 1.  This holds in both files. *)
Theorem create_on_pending_instance_raises {P : Type}
    (boto3_client : string -> exn + Lightsail P)
    (parse_args : list string -> Z + Namespace) (argv : list string)
    (args : Namespace) (lightsail : Lightsail P) (w : World P)
    (found : Instance) (p1 : P) (pending : Instance) (p2 : P) :
  let instance_name :=
    Scripts.get_instance_name (arg_pr_number args) (arg_repo_name args) in
  let scripts :=
    Scripts.create_preview (Scripts.mkPreviewManager lightsail (arg_region args))
      (arg_pr_number args) (arg_repo_name args)
      (str_value (arg_branch args)) (str_value (arg_commit_sha args)) w in
  let upload :=
    PrPreviewSystem.create_preview
      (PrPreviewSystem.mkPreviewManager lightsail (arg_region args))
      (arg_pr_number args) (arg_repo_name args)
      (str_value (arg_branch args)) (str_value (arg_commit_sha args)) w in
  parse_args argv = inr args ->
  boto3_client (arg_region args) = inr lightsail ->
  arg_action args = create ->
  truthy_opt (arg_branch args) = true ->
  truthy_opt (arg_commit_sha args) = true ->
  lightsail_get_instance lightsail instance_name (cloud w) = (inr found, p1) ->
  lightsail_get_instance lightsail instance_name p1 = (inr pending, p2) ->
  publicIpAddress pending = None ->
  (out scripts = Raise (KeyError "publicIpAddress")
   /\ calls (log scripts) = [GetInstance instance_name; GetInstance instance_name]
   /\ exit_status (out (Scripts.main boto3_client parse_args argv w)) = 1)
  /\ (out upload = Raise (KeyError "publicIpAddress")
      /\ calls (log upload) = [GetInstance instance_name; GetInstance instance_name]
      /\ exit_status (out (PrPreviewSystem.main boto3_client parse_args argv w)) = 1).
Proof.
  intros n scripts upload Hp Hcl Ha Hb Hs G1 G2 Hip. split.
  - destruct (create_preview_pending_scripts
                (Scripts.mkPreviewManager lightsail (arg_region args))
                (arg_pr_number args) (arg_repo_name args)
                (str_value (arg_branch args)) (str_value (arg_commit_sha args))
                w found p1 pending p2 G1 G2 Hip) as [Hout Hcalls].
    split; [exact Hout | split; [exact Hcalls |]].
    rewrite (main_create_out_scripts boto3_client parse_args argv args lightsail w
               Hp Hcl Ha Hb Hs), Hout.
    reflexivity.
  - destruct (create_preview_pending_upload
                (PrPreviewSystem.mkPreviewManager lightsail (arg_region args))
                (arg_pr_number args) (arg_repo_name args)
                (str_value (arg_branch args)) (str_value (arg_commit_sha args))
                w found p1 pending p2 G1 G2 Hip) as [Hout Hcalls].
    split; [exact Hout | split; [exact Hcalls |]].
    rewrite (main_create_out_upload boto3_client parse_args argv args lightsail w
               Hp Hcl Ha Hb Hs), Hout.
    reflexivity.
Qed.

Lemma create_on_pending_instance_raises_witness :
  let boto3_client := boto3_stub (fake 5 "10.0.0.5") in
  let w := mkWorld 0 (fake_set "pr-7-widgets" (Some 5%nat) fake_empty) (fun _ => None)
             (fun _ _ => None) in
  out (Scripts.main boto3_client plain_parse_args create_argv w)
  = Raise (KeyError "publicIpAddress")
  /\ exit_status (out (Scripts.main boto3_client plain_parse_args create_argv w)) = 1.
Proof.
  intros boto3_client w.
  destruct (create_on_pending_instance_raises boto3_client plain_parse_args create_argv
               (mkNamespace create 7 "acme/widgets" (Some "feature-x") (Some "abcdef1")
                  "us-east-1")
               (fake 5 "10.0.0.5") w
               (mkInstance "pending" None)
               (fake_set "pr-7-widgets" (Some 4%nat) (cloud w))
               (mkInstance "pending" None)
               (fake_set "pr-7-widgets" (Some 3%nat)
                  (fake_set "pr-7-widgets" (Some 4%nat) (cloud w))))
    as [(_ & _ & Hexit) _]; try reflexivity.
  split; [vm_compute; reflexivity | exact Hexit].
Defined.

(** C8.  [configure_firewall] never raises: it returns [True] or
    [False].  A [create] run that reaches the firewall step goes on
    whatever the provider answers to the port setting: the deployment
    step runs, the report with the URL is printed, a refusal of the port
    setting is on the console, and the run returns [True], unless the
    block that writes the output file raises; the answer to the port
    setting has no part in the result. *)
Theorem firewall_failure_does_not_abort_create {P : Type}
    (self : Scripts.PreviewManager P)
    (pr_number : Z) (repo_name branch commit_sha : string) (w : World P)
    (raised : option exn) :
  let instance_name := Scripts.get_instance_name pr_number repo_name in
  let r := Scripts.create_preview self pr_number repo_name branch commit_sha w in
  (forall w', exists success : bool,
      out (Scripts.configure_firewall self instance_name w') = Return success)
  /\ (In (Call (PutInstancePublicPorts Scripts.port_infos instance_name) raised) (log r) ->
      out r = match output_error w with
              | Some e => Raise e
              | None => Return true
              end
      /\ (exists instance_ip,
            (forall ev, In ev (scripts_deploy_events instance_ip) -> In ev (log r))
            /\ In (Console ("URL: http://" ++ instance_ip ++ "/")) (log r))
      /\ In (Console "✅ Preview Environment Ready!") (log r)
      /\ (forall e, raised = Some e ->
            In (Console ("⚠️  Firewall configuration failed: " ++ exn_str e)) (log r))).
Proof.
  intros n r. split.
  - intros w'. rewrite configure_firewall_scripts.
    destruct (lightsail_put_instance_public_ports _ _ n (cloud w')) as [a p'].
    eexists. reflexivity.
  - intros Hin. subst r.
    apply create_preview_call_inv_scripts in Hin. fold n in Hin.
    pose proof Hin as Hin'. rewrite ensure_instance_scripts in Hin'.
    apply ensure_firewall in Hin';
      [| intros w'; apply wait_returns_scripts | intros w'; apply wait_polling_scripts].
    rewrite <- ensure_instance_scripts in Hin'.
    destruct Hin' as [[ip Hip] Hlogged].
    rewrite create_preview_out_scripts. fold n. rewrite Hip.
    rewrite create_preview_scripts. fold n.
    split; [reflexivity | split; [| split]].
    + exists ip. split.
      * intros ev Hev.
        apply (create_flow_deployed _ _ _ _ _ _ _ _ ip Hip eq_refl). left. exact Hev.
      * apply (create_flow_deployed _ _ _ _ _ _ _ _ ip Hip eq_refl). right.
        cbn. tauto.
    + apply (create_flow_deployed _ _ _ _ _ _ _ _ ip Hip eq_refl). right.
      cbn. tauto.
    + intros e He. apply create_flow_In. exact (Hlogged e He).
Qed.

Lemma firewall_failure_does_not_abort_create_witness :
  let refused := ProviderError "AccessDeniedException" in
  let self := Scripts.mkPreviewManager (refusing_ports (fake 2 "10.0.0.5") refused)
                "us-east-1" in
  let r := Scripts.create_preview self 7 "acme/widgets" "feature-x" "abcdef1"
             fresh_world in
  out r = Return true
  /\ In (Console "⚠️  Firewall configuration failed: AccessDeniedException") (log r).
Proof.
  intros refused self r.
  destruct (firewall_failure_does_not_abort_create self 7 "acme/widgets" "feature-x"
              "abcdef1" fresh_world (Some refused)) as [_ H].
  destruct H as (Hout & _ & _ & Hlogged).
  - vm_compute. repeat (first [left; reflexivity | right]).
  - split; [exact Hout | exact (Hlogged refused eq_refl)].
Defined.

(** C10, as stated, fails: the file output of the run can raise.  In
    [src/pr-preview-system], [deploy_application] ends in the exception of
    the block that writes [/tmp/deploy.sh] when that cannot be opened.  In
    [src/scripts], with the address obtained and the ports set, a file
    named by [GITHUB_OUTPUT] that cannot be opened makes [create_preview]
    end in the exception, and the process with status 1. *)
Lemma file_output_can_fail_the_create :
  let denied := OSError "[Errno 13] Permission denied" in
  let upload := PrPreviewSystem.mkPreviewManager (fake 2 "10.0.0.5") "us-east-1" in
  let scripts := Scripts.mkPreviewManager (fake 2 "10.0.0.5") "us-east-1" in
  let w := unwritable "/nonexistent/output" "a" denied
             (setenv "GITHUB_OUTPUT" "/nonexistent/output" fresh_world) in
  out (PrPreviewSystem.deploy_application upload "pr-7-widgets" "10.0.0.5"
         "acme/widgets" "feature-x" "abcdef1"
         (unwritable "/tmp/deploy.sh" "w" denied fresh_world))
  = Raise denied
  /\ out (Scripts.ensure_instance scripts "pr-7-widgets" 7 "acme/widgets" "feature-x" w)
     = Return "10.0.0.5"
  /\ out (Scripts.create_preview scripts 7 "acme/widgets" "feature-x" "abcdef1" w)
     = Raise denied
  /\ exit_status
       (out (Scripts.main (boto3_stub (fake 2 "10.0.0.5")) plain_parse_args create_argv w))
     = 1.
Proof. repeat split; vm_compute; reflexivity. Qed.

(** C10, amended.  [deploy_application] never returns [False]: in
    [src/scripts] it returns [True] whatever its arguments, and in
    [src/pr-preview-system] it returns [True] unless the block that writes
    [/tmp/deploy.sh] raises.  [create_preview] never returns [False]
    either.  Once the block that binds [instance_ip] has produced an
    address, the way [create_preview] and [main] end depends on the file
    output alone: [True] and exit status 0, unless the deployment script or
    the output file cannot be written, in which case the exception
    reaches the top.  Nothing the firewall step does, and nothing that
    happens to the application, reaches the result. *)
Theorem reported_success_ignores_deployment {P : Type}
    (boto3_client : string -> exn + Lightsail P)
    (parse_args : list string -> Z + Namespace) (argv : list string)
    (args : Namespace) (lightsail : Lightsail P) (w : World P) :
  let pr_number := arg_pr_number args in
  let repo_name := arg_repo_name args in
  let branch := str_value (arg_branch args) in
  let commit_sha := str_value (arg_commit_sha args) in
  let scripts := Scripts.mkPreviewManager lightsail (arg_region args) in
  let upload := PrPreviewSystem.mkPreviewManager lightsail (arg_region args) in
  (forall instance_name instance_ip w',
      out (Scripts.deploy_application scripts instance_name instance_ip
             repo_name branch commit_sha w') = Return true
      /\ out (PrPreviewSystem.deploy_application upload instance_name instance_ip
                repo_name branch commit_sha w')
         = match files w' "/tmp/deploy.sh" "w" with
           | Some e => Raise e
           | None => Return true
           end)
  /\ (forall success,
        out (Scripts.create_preview scripts pr_number repo_name branch commit_sha w)
          = Return success
        \/ out (PrPreviewSystem.create_preview upload pr_number repo_name branch
                  commit_sha w) = Return success ->
        success = true)
  /\ (parse_args argv = inr args ->
      boto3_client (arg_region args) = inr lightsail ->
      arg_action args = create ->
      truthy_opt (arg_branch args) = true ->
      truthy_opt (arg_commit_sha args) = true ->
      (forall instance_ip,
          out (Scripts.ensure_instance scripts
                 (Scripts.get_instance_name pr_number repo_name)
                 pr_number repo_name branch w) = Return instance_ip ->
          out (Scripts.create_preview scripts pr_number repo_name branch commit_sha w)
            = create_outcome None (output_error w)
          /\ out (Scripts.main boto3_client parse_args argv w)
             = match output_error w with
               | Some e => Raise e
               | None => Exit 0
               end)
      /\ (forall instance_ip,
            out (PrPreviewSystem.ensure_instance upload
                   (PrPreviewSystem.get_instance_name pr_number repo_name)
                   pr_number repo_name branch w) = Return instance_ip ->
            out (PrPreviewSystem.create_preview upload pr_number repo_name branch
                   commit_sha w)
              = create_outcome (files w "/tmp/deploy.sh" "w") (output_error w)
            /\ out (PrPreviewSystem.main boto3_client parse_args argv w)
               = match create_outcome (files w "/tmp/deploy.sh" "w") (output_error w) with
                 | Return _ => Exit 0
                 | Raise e => Raise e
                 | Exit k => Exit k
                 end)).
Proof.
  intros pr repo br sha scripts upload.
  split; [| split].
  - intros n ip w'. split; [reflexivity |].
    rewrite deploy_application_upload. unfold upload_deploy_error.
    destruct (files w' "/tmp/deploy.sh" "w"); reflexivity.
  - intros success [H | H].
    + exact (create_preview_never_false_scripts scripts pr repo br sha w success H).
    + exact (create_preview_never_false_upload upload pr repo br sha w success H).
  - intros Hp Hcl Ha Hb Hs. split; intros ip Hip.
    + rewrite (main_create_out_scripts boto3_client parse_args argv args lightsail w
                 Hp Hcl Ha Hb Hs).
      fold pr repo br sha scripts.
      rewrite create_preview_out_scripts, Hip.
      unfold scripts_deploy_error. cbn [create_outcome].
      split; [reflexivity |]. destruct (output_error w); reflexivity.
    + rewrite (main_create_out_upload boto3_client parse_args argv args lightsail w
                 Hp Hcl Ha Hb Hs).
      fold pr repo br sha upload.
      rewrite create_preview_out_upload, Hip.
      unfold upload_deploy_error.
      split; [reflexivity |].
      destruct (files w "/tmp/deploy.sh" "w"); [reflexivity |].
      destruct (output_error w); reflexivity.
Qed.

Lemma reported_success_ignores_deployment_witness :
  let refused := ProviderError "AccessDeniedException" in
  let boto3_client := boto3_stub (refusing_ports (fake 2 "10.0.0.5") refused) in
  out (Scripts.main boto3_client plain_parse_args create_argv fresh_world) = Exit 0
  /\ out (PrPreviewSystem.main boto3_client plain_parse_args create_argv fresh_world)
     = Exit 0.
Proof.
  intros refused boto3_client.
  destruct (reported_success_ignores_deployment boto3_client plain_parse_args create_argv
              (mkNamespace create 7 "acme/widgets" (Some "feature-x") (Some "abcdef1")
                 "us-east-1")
              (refusing_ports (fake 2 "10.0.0.5") refused) fresh_world)
    as (_ & _ & H).
  destruct H as [Hscripts Hupload]; try reflexivity.
  split.
  - apply (Hscripts "10.0.0.5"). vm_compute. reflexivity.
  - apply (Hupload "10.0.0.5"). vm_compute. reflexivity.
Defined.

(** ** Further properties of the code *)

(** *** The derived name *)

Module NameMore.
Import PyStr NameFacts.
Local Open Scope string_scope.

Lemma split_not_nil sep s : split sep s <> [].
Proof.
  destruct s as [| c s]; cbn; [discriminate |].
  destruct (Ascii.eqb c sep); [discriminate |].
  destruct (split sep s); discriminate.
Qed.

Lemma item_last_cons x l : l <> [] -> item_last (x :: l) = item_last l.
Proof. destruct l; [contradiction | reflexivity]. Qed.

(** What precedes a separator does not reach the last component. *)
Lemma split_after sep head rest :
  exists x l, split sep (head ++ String sep rest) = x :: l
              /\ l <> [] /\ item_last l = item_last (split sep rest).
Proof.
  induction head as [| c head (x & l & E & Hl & Hlast)]; cbn [append split].
  - rewrite Ascii.eqb_refl. exists EmptyString, (split sep rest).
    split; [reflexivity | split; [apply split_not_nil | reflexivity]].
  - rewrite E. destruct (Ascii.eqb c sep).
    + exists EmptyString, (x :: l).
      split; [reflexivity | split; [discriminate |]].
      rewrite item_last_cons by exact Hl. exact Hlast.
    + exists (String c x), l. split; [reflexivity | split; assumption].
Qed.

Lemma item_last_split_after sep head rest :
  item_last (split sep (head ++ String sep rest)) = item_last (split sep rest).
Proof.
  destruct (split_after sep head rest) as (x & l & E & Hl & Hlast).
  rewrite E, item_last_cons by exact Hl. exact Hlast.
Qed.

Lemma split_replace sep old new s :
  Ascii.eqb old sep = false -> Ascii.eqb new sep = false ->
  split sep (replace old new s) = map (replace old new) (split sep s).
Proof.
  intros Hold Hnew. induction s as [| c s IH]; cbn [replace split map]; [reflexivity |].
  destruct (Ascii.eqb c old) eqn:E.
  - apply Ascii.eqb_eq in E. subst c. rewrite Hold, Hnew, IH.
    destruct (split sep s); cbn; rewrite ?Ascii.eqb_refl; reflexivity.
  - destruct (Ascii.eqb c sep); rewrite IH; [reflexivity |].
    destruct (split sep s); cbn; rewrite ?E; reflexivity.
Qed.

Lemma item_last_map f l :
  l <> [] -> item_last (map f l) = f (item_last l).
Proof.
  unfold item_last. induction l as [| x l IH]; [contradiction |].
  intros _. destruct l as [| y l]; [reflexivity |].
  change (last (f x :: map f (y :: l)) EmptyString) with (last (map f (y :: l)) EmptyString).
  change (last (x :: y :: l) EmptyString) with (last (y :: l) EmptyString).
  apply IH. discriminate.
Qed.

Ltac same_char c := destruct c as [[] [] [] [] [] [] [] []]; reflexivity.

(** Replacing a separator beforehand does not change the cleaned name. *)
Lemma clean_after_replace old new s :
  (old = "_" /\ new = "-" \/ old = "." /\ new = "-" \/ old = "_" /\ new = ".")%char ->
  replace "." "-" (replace "_" "-" (replace old new s))
  = replace "." "-" (replace "_" "-" s).
Proof.
  intros H. induction s as [| c s IH]; cbn [replace]; [reflexivity |].
  rewrite IH. f_equal.
  destruct H as [[-> ->] | [[-> ->] | [-> ->]]]; same_char c.
Qed.

Lemma length_replace old new s : String.length (replace old new s) = String.length s.
Proof. induction s as [| c s IH]; cbn; [| rewrite IH]; reflexivity. Qed.

Lemma length_append s t : String.length (s ++ t) = (String.length s + String.length t)%nat.
Proof. induction s as [| c s IH]; cbn; [| rewrite IH]; reflexivity. Qed.

Lemma length_slice_to_min n s : String.length (slice_to n s) = Nat.min n (String.length s).
Proof.
  unfold slice_to. revert s.
  induction n as [| n IH]; intros [| c s]; cbn; try reflexivity.
  rewrite IH. reflexivity.
Qed.

Lemma all_chars_zero_uint p d :
  (forall c, is_digit c = true -> p c = true) ->
  all_chars p (NilZero.string_of_uint d) = true.
Proof.
  intros Hp. destruct d; try (apply (all_chars_uint p _ Hp)).
  cbn. rewrite Hp; reflexivity.
Qed.

Lemma zero_uint_not_empty d : NilZero.string_of_uint d <> EmptyString.
Proof. destruct d; discriminate. Qed.

Lemma digit_not_dash c : is_digit c = true -> negb (Ascii.eqb c "-") = true.
Proof. by_cases_on_ascii c. Qed.

(** Two dash-free strings that agree, each followed by a dash, on the
    first [k] characters, beyond both their ends, are equal. *)
Lemma dash_terminated k s1 s2 t1 t2 :
  slice_to k (s1 ++ String "-" t1) = slice_to k (s2 ++ String "-" t2) ->
  (String.length s1 < k)%nat -> (String.length s2 < k)%nat ->
  all_chars (fun c => negb (Ascii.eqb c "-")) s1 = true ->
  all_chars (fun c => negb (Ascii.eqb c "-")) s2 = true ->
  s1 = s2.
Proof.
  unfold slice_to. revert s1 s2.
  induction k as [| k IH]; intros s1 s2 E L1 L2 D1 D2; [lia |].
  destruct s1 as [| a s1], s2 as [| b s2]; cbn in *.
  - reflexivity.
  - injection E as E _. subst b. discriminate D2.
  - injection E as E _. subst a. discriminate D1.
  - injection E as -> E.
    apply andb_prop in D1 as [_ D1]. apply andb_prop in D2 as [_ D2].
    f_equal. apply (IH s1 s2 E); [lia | lia | assumption | assumption].
Qed.

Lemma to_int_not_nil z : Z.to_int z <> Decimal.Pos Decimal.Nil /\ Z.to_int z <> Decimal.Neg Decimal.Nil.
Proof.
  destruct z as [| p | p]; cbn; split; try discriminate;
    intros [= H]; exact (DecimalPos.Unsigned.to_uint_nonnil p H).
Qed.

Lemma str_of_int_inj z1 z2 : str_of_int z1 = str_of_int z2 -> z1 = z2.
Proof.
  unfold str_of_int. intros E.
  destruct (to_int_not_nil z1) as [P1 N1]. destruct (to_int_not_nil z2) as [P2 N2].
  pose proof (NilZero.isi (Z.to_int z1) P1 N1) as H1.
  pose proof (NilZero.isi (Z.to_int z2) P2 N2) as H2.
  rewrite E, H2 in H1. injection H1 as H1.
  rewrite <- (DecimalZ.of_to z1), <- (DecimalZ.of_to z2), H1. reflexivity.
Qed.

End NameMore.

Import NameMore.

(** X1.  The owner is dropped: whatever precedes a slash of the
    repository identifier has no part in the derived name, so the same
    repository name under two owners yields one instance name. *)
Theorem get_instance_name_ignores_owner (pr_number : Z) (owner name : string) :
  Scripts.get_instance_name pr_number (owner ++ "/" ++ name)
  = Scripts.get_instance_name pr_number name
  /\ PrPreviewSystem.get_instance_name pr_number (owner ++ "/" ++ name)
     = PrPreviewSystem.get_instance_name pr_number name.
Proof.
  unfold Scripts.get_instance_name, PrPreviewSystem.get_instance_name.
  change ("/" ++ name) with (String "/" name).
  rewrite item_last_split_after. split; reflexivity.
Qed.

(** X2.  Underscores, dots and dashes are not told apart: replacing, in
    the repository identifier, every underscore by a dash, every dot by a
    dash, or every underscore by a dot leaves the derived name
    unchanged. *)
Theorem get_instance_name_merges_separators (pr_number : Z) (repo_name : string) :
  Scripts.get_instance_name pr_number (replace "_" "-" repo_name)
  = Scripts.get_instance_name pr_number repo_name
  /\ Scripts.get_instance_name pr_number (replace "." "-" repo_name)
     = Scripts.get_instance_name pr_number repo_name
  /\ Scripts.get_instance_name pr_number (replace "_" "." repo_name)
     = Scripts.get_instance_name pr_number repo_name.
Proof.
  unfold Scripts.get_instance_name.
  rewrite !split_replace by reflexivity.
  rewrite !item_last_map by apply split_not_nil.
  rewrite !clean_after_replace by tauto.
  repeat split.
Qed.

(** X3.  The derived name starts with ["pr-"], and its length is that of
    ["pr-"], the decimal PR number, a dash and the last component of the
    identifier, cut at 63: the name is truncated exactly when these
    exceed 63 characters. *)
Theorem get_instance_name_length (pr_number : Z) (repo_name : string) :
  String.length (Scripts.get_instance_name pr_number repo_name)
  = Nat.min 63 (4 + String.length (str_of_int pr_number)
                + String.length (item_last (split "/" repo_name)))
  /\ String.prefix "pr-" (Scripts.get_instance_name pr_number repo_name) = true.
Proof.
  unfold Scripts.get_instance_name.
  split;
    [| unfold slice_to; cbn;
       match goal with |- String.prefix EmptyString ?x = true => destruct x; reflexivity end].
  rewrite length_slice_to_min, !length_append, !length_replace. cbn [String.length].
  f_equal. lia.
Qed.

(** X4.  Two pull requests of one repository never share a name: for PR
    numbers whose decimal form has at most 59 characters, equal derived
    names for the same repository identifier force equal PR numbers. *)
Theorem get_instance_name_separates_pull_requests (pr1 pr2 : Z) (repo_name : string) :
  (String.length (str_of_int pr1) <= 59)%nat ->
  (String.length (str_of_int pr2) <= 59)%nat ->
  Scripts.get_instance_name pr1 repo_name = Scripts.get_instance_name pr2 repo_name ->
  pr1 = pr2.
Proof.
  intros L1 L2 E. apply str_of_int_inj.
  unfold Scripts.get_instance_name, slice_to in E. cbn in E.
  injection E as E. fold (slice_to 60) in E.
  revert L1 L2 E. unfold str_of_int.
  destruct (Z.to_int pr1) as [d1 | d1], (Z.to_int pr2) as [d2 | d2];
    cbn [NilZero.string_of_int]; intros L1 L2 E.
  - apply (dash_terminated 60 _ _ _ _ E); try lia;
      apply all_chars_zero_uint, digit_not_dash.
  - exfalso. pose proof (all_chars_zero_uint is_digit d1 (fun c H => H)) as D.
    pose proof (zero_uint_not_empty d1) as N.
    destruct (NilZero.string_of_uint d1) as [| a s]; [contradiction |].
    cbn in E, D. injection E as -> _. discriminate D.
  - exfalso. pose proof (all_chars_zero_uint is_digit d2 (fun c H => H)) as D.
    pose proof (zero_uint_not_empty d2) as N.
    destruct (NilZero.string_of_uint d2) as [| a s]; [contradiction |].
    cbn in E, D. injection E as <- _. discriminate D.
  - cbn in E, L1, L2. injection E as E. f_equal.
    apply (dash_terminated 59 _ _ _ _ E); try lia;
      apply all_chars_zero_uint, digit_not_dash.
Qed.

Lemma get_instance_name_separates_pull_requests_witness :
  7 = 7
  /\ Scripts.get_instance_name 7 "acme/widgets" <> Scripts.get_instance_name 8 "acme/widgets".
Proof.
  split.
  - apply (get_instance_name_separates_pull_requests 7 7 "acme/widgets");
      [cbn; lia | cbn; lia | reflexivity].
  - intros E.
    apply (get_instance_name_separates_pull_requests 7 8 "acme/widgets") in E;
      [discriminate E | cbn; lia | cbn; lia].
Defined.

(** *** The readiness poll against any provider *)

Module PollMore.
Import PyStr Py Provider Flow FlowFacts.

Section Poll.
Context {P : Type} (c : Lightsail P) (n : string) (start_time max_wait : Z).
Variable loop : World P -> Res P (option string).
Hypothesis loop_eq : forall w, loop w = poll_step c n start_time max_wait loop w.

Lemma poll_environ w : environ (world (loop w)) = environ w.
Proof.
  apply (poll_ind c n start_time max_wait loop loop_eq)
    with (Q := fun w r => environ (world r) = environ w); clear w.
  - reflexivity.
  - reflexivity.
  - intros w answer p' _ _ _ IH. exact IH.
Qed.

Lemma poll_no_file w path mode writes : ~ In (FileOut path mode writes) (log (loop w)).
Proof.
  apply (poll_ind c n start_time max_wait loop loop_eq)
    with (Q := fun _ r => ~ In (FileOut path mode writes) (log r)); clear w.
  - intros w _ [H | []]. discriminate H.
  - intros w answer p' ip _ _ _ H. cbn in H. intuition discriminate.
  - intros w answer p' _ _ _ IH H. cbn [add_log log] in H.
    apply in_app_or in H. destruct H as [H | H]; [| exact (IH H)].
    destruct answer; cbn in H; intuition discriminate.
Qed.

Lemma poll_events_one_call answer : length (calls (poll_events n answer)) = 1%nat.
Proof. destruct answer; reflexivity. Qed.

(** Ten seconds pass after each query but a ready one, and queries stop
    with the budget. *)
Lemma poll_timing w :
  let q := Z.of_nat (length (calls (log (loop w)))) in
  q <= Z.max 0 ((max_wait - (now w - start_time) + 9) / 10)
  /\ (out (loop w) = Return None ->
      now (world (loop w)) = now w + 10 * q
      /\ max_wait <= now w - start_time + 10 * q)
  /\ (forall ip, out (loop w) = Return (Some ip) ->
        now (world (loop w)) = now w + 10 * (q - 1) /\ 1 <= q).
Proof.
  apply (poll_ind c n start_time max_wait loop loop_eq)
    with (Q := fun w r =>
      let q := Z.of_nat (length (calls (log r))) in
      q <= Z.max 0 ((max_wait - (now w - start_time) + 9) / 10)
      /\ (out r = Return None ->
          now (world r) = now w + 10 * q /\ max_wait <= now w - start_time + 10 * q)
      /\ (forall ip, out r = Return (Some ip) ->
            now (world r) = now w + 10 * (q - 1) /\ 1 <= q)); clear w.
  - intros w G. apply Z.ltb_ge in G. cbn. repeat split; first [lia | discriminate].
  - intros w answer p' ip G _ _. apply Z.ltb_lt in G. cbn.
    assert (1 <= (max_wait - (now w - start_time) + 9) / 10)
      by (apply Z.div_le_lower_bound; lia).
    repeat split; first [lia | discriminate].
  - intros w answer p' G _ _ IH. apply Z.ltb_lt in G.
    cbn [add_log out world log]. cbn zeta in IH |- *.
    rewrite calls_app, length_app, poll_events_one_call.
    cbn [now] in IH.
    set (q' := Z.of_nat (length (calls (log (loop (mkWorld (now w + 10) p' (environ w) (files w))))))) in *.
    replace (Z.of_nat (1 + length (calls (log (loop (mkWorld (now w + 10) p' (environ w) (files w)))))))
      with (1 + q') by (subst q'; lia).
    destruct IH as (Hq & Hnone & Hsome).
    assert ((max_wait - (now w - start_time) + 9) / 10
            = (max_wait - (now w + 10 - start_time) + 9) / 10 + 1) as Hdiv.
    { replace (max_wait - (now w - start_time) + 9)
        with ((max_wait - (now w + 10 - start_time) + 9) + 1 * 10) by lia.
      apply Z.div_add. lia. }
    assert (0 <= (max_wait - (now w + 10 - start_time) + 9) / 10)
      by (apply Z.div_pos; lia).
    repeat split.
    + lia.
    + apply Hnone in H0. lia.
    + apply Hnone in H0. lia.
    + apply Hsome in H0. lia.
    + apply Hsome in H0. lia.
Qed.

(** An address returned is the one of a ready answer, the last thing
    the provider did. *)
Lemma poll_sound w ip :
  out (loop w) = Return (Some ip) ->
  exists p answer,
    lightsail_get_instance c n p = (answer, cloud (world (loop w)))
    /\ ready_address answer = Some ip
    /\ exists l, log (loop w) = (l ++ ready_events n ip)%list.
Proof.
  apply (poll_ind c n start_time max_wait loop loop_eq)
    with (Q := fun _ r =>
      out r = Return (Some ip) ->
      exists p answer,
        lightsail_get_instance c n p = (answer, cloud (world r))
        /\ ready_address answer = Some ip
        /\ exists l, log r = (l ++ ready_events n ip)%list); clear w.
  - intros w _ H. discriminate H.
  - intros w answer p' ip' _ E R [= ->]. exists (cloud w), answer.
    split; [exact E | split; [exact R |]]. exists []. reflexivity.
  - intros w answer p' _ _ _ IH H. destruct (IH H) as (p & a & E & R & l & Hl).
    exists p, a. split; [exact E | split; [exact R |]].
    exists (poll_events n answer ++ l)%list. cbn [add_log log].
    rewrite Hl. apply app_assoc.
Qed.

End Poll.
End PollMore.

Import PollMore.

(** X5.  [wait_for_instance] catches whatever a query raises: against
    any provider it ends by returning, an address or [None], never in an
    exception or [sys.exit].  Its only provider calls are queries of the
    instance it waits for, it writes no file and the two files agree. *)
Theorem wait_for_instance_never_raises {P : Type} (c : Lightsail P)
    (region instance_name : string) (max_wait : Z) (w : World P) :
  let scripts := Scripts.wait_for_instance (Scripts.mkPreviewManager c region)
                   instance_name max_wait w in
  let upload := PrPreviewSystem.wait_for_instance
                  (PrPreviewSystem.mkPreviewManager c region) instance_name max_wait w in
  (exists result, out scripts = Return result)
  /\ (forall req raised, In (Call req raised) (log scripts) ->
        req = GetInstance instance_name)
  /\ (forall path mode writes, ~ In (FileOut path mode writes) (log scripts))
  /\ environ (world scripts) = environ w
  /\ upload = scripts.
Proof.
  intros scripts upload.
  set (self := Scripts.mkPreviewManager c region).
  pose proof (wait_for_instance_loop_scripts self instance_name (now w) max_wait) as Heq.
  split; [apply wait_returns_scripts |].
  split.
  { intros req raised Hin.
    pose proof (polling_In instance_name _ _
                  (wait_polling_scripts self instance_name max_wait w) Hin) as Hp.
    destruct req; cbn in Hp; try contradiction. subst. reflexivity. }
  split.
  { intros path mode writes Hin. subst scripts.
    rewrite wait_for_instance_scripts in Hin. cbn [add_log log app] in Hin.
    destruct Hin as [Hin | Hin]; [discriminate |].
    exact (poll_no_file _ _ _ _ _ Heq w path mode writes Hin). }
  split.
  { subst scripts. rewrite wait_for_instance_scripts. cbn [add_log world].
    exact (poll_environ _ _ _ _ _ Heq w). }
  symmetry. apply wait_for_instance_agree.
Qed.

Lemma wait_for_instance_never_raises_witness :
  let c := failing_queries (fake 2 "10.0.0.5") (KeyError "instance") in
  let r := Scripts.wait_for_instance (Scripts.mkPreviewManager c "us-east-1")
             "pr-7-widgets" 30 fresh_world in
  (exists result, out r = Return result)
  /\ ~ In (Call (DeleteInstance "pr-7-widgets") None) (log r).
Proof.
  intros c r.
  destruct (wait_for_instance_never_raises c "us-east-1" "pr-7-widgets" 30 fresh_world)
    as (Hout & Honly & _).
  split; [exact Hout |].
  intros Hin. apply Honly in Hin. discriminate Hin.
Defined.

(** X6.  The budget bounds the queries: [wait_for_instance] makes at
    most [max_wait / 10], rounded up, queries, and none when [max_wait]
    is not positive.  It sleeps ten seconds after every query but a
    ready one: when it returns [None] it has slept ten times the number
    of queries, and when it returns an address, ten times the number of
    queries before the last. *)
Theorem wait_for_instance_query_budget {P : Type} (c : Lightsail P)
    (region instance_name : string) (max_wait : Z) (w : World P) :
  let r := Scripts.wait_for_instance (Scripts.mkPreviewManager c region)
             instance_name max_wait w in
  let queries := Z.of_nat (length (calls (log r))) in
  queries <= Z.max 0 ((max_wait + 9) / 10)
  /\ (out r = Return None -> now (world r) = now w + 10 * queries)
  /\ (forall ip, out r = Return (Some ip) ->
        now (world r) = now w + 10 * (queries - 1) /\ 1 <= queries).
Proof.
  intros r queries. subst queries r.
  set (self := Scripts.mkPreviewManager c region).
  rewrite wait_for_instance_scripts. cbn [add_log out world log app calls].
  pose proof (poll_timing _ _ _ _ _
                (wait_for_instance_loop_scripts self instance_name (now w) max_wait) w)
    as H.
  cbn zeta in H.
  replace (max_wait - (now w - now w) + 9) with (max_wait + 9) in H by lia.
  destruct H as (Hq & Hnone & Hsome).
  split; [exact Hq | split].
  - intros Ho. destruct (Hnone Ho). lia.
  - intros ip Ho. exact (Hsome ip Ho).
Qed.

Lemma wait_for_instance_query_budget_witness :
  let pending := fun _ : nat => inr (mkInstance "pending" None) in
  let slow := Scripts.wait_for_instance
                (Scripts.mkPreviewManager (poll_stub 100 pending "10.0.0.5") "us-east-1")
                "pr-7-widgets" 45 (mkWorld 0 O (fun _ => None) (fun _ _ => None)) in
  let quick := Scripts.wait_for_instance
                 (Scripts.mkPreviewManager (poll_stub 3 pending "10.0.0.5") "us-east-1")
                 "pr-7-widgets" 45 (mkWorld 0 O (fun _ => None) (fun _ _ => None)) in
  (length (calls (log slow)) = 5%nat /\ now (world slow) = 50)
  /\ (length (calls (log quick)) = 3%nat /\ now (world quick) = 20).
Proof.
  intros pending slow quick. split.
  - destruct (wait_for_instance_query_budget (poll_stub 100 pending "10.0.0.5")
                "us-east-1" "pr-7-widgets" 45 (mkWorld 0 O (fun _ => None) (fun _ _ => None)))
      as (_ & Hnone & _).
    pose proof (Hnone ltac:(vm_compute; reflexivity)) as Hnow.
    split; [vm_compute; reflexivity | exact Hnow].
  - destruct (wait_for_instance_query_budget (poll_stub 3 pending "10.0.0.5")
                "us-east-1" "pr-7-widgets" 45 (mkWorld 0 O (fun _ => None) (fun _ _ => None)))
      as (_ & _ & Hsome).
    destruct (Hsome "10.0.0.5") as [Hnow _]; [vm_compute; reflexivity |].
    split; [vm_compute; reflexivity | exact Hnow].
Defined.

(** X7.  The address [wait_for_instance] returns is the provider's: it is
    the address of an answer in state [running], that answer is the last
    thing the provider did, and the run ends with the line announcing
    it.  When the budget is positive and the first answer is ready, the
    method returns after that one query without sleeping. *)
Theorem wait_for_instance_returns_a_ready_address {P : Type} (c : Lightsail P)
    (region instance_name : string) (max_wait : Z) (w : World P) :
  let r := Scripts.wait_for_instance (Scripts.mkPreviewManager c region)
             instance_name max_wait w in
  (forall ip, out r = Return (Some ip) ->
     (exists p instance,
        lightsail_get_instance c instance_name p = (inr instance, cloud (world r))
        /\ state_name instance = "running"
        /\ publicIpAddress instance = Some ip)
     /\ exists l, log r = (l ++ [Console ("✅ Instance ready with IP: " ++ ip)])%list)
  /\ (forall instance p' ip,
        0 < max_wait ->
        lightsail_get_instance c instance_name (cloud w) = (inr instance, p') ->
        state_name instance = "running" ->
        publicIpAddress instance = Some ip ->
        out r = Return (Some ip)
        /\ calls (log r) = [GetInstance instance_name]
        /\ now (world r) = now w
        /\ cloud (world r) = p').
Proof.
  intros r. subst r.
  set (self := Scripts.mkPreviewManager c region).
  pose proof (wait_for_instance_loop_scripts self instance_name (now w) max_wait) as Heq.
  rewrite wait_for_instance_scripts. cbn [add_log out world log app].
  split.
  - intros ip Ho.
    destruct (poll_sound _ _ _ _ _ Heq w ip Ho) as (p & answer & E & R & l & Hl).
    split.
    + exists p. destruct answer as [e | instance]; [discriminate R |].
      exists instance. split; [exact E |].
      unfold ready_address in R.
      destruct (String.eqb (state_name instance) "running") eqn:S; [| discriminate R].
      apply String.eqb_eq in S. split; assumption.
    + rewrite Hl.
      exists (Console "⏳ Waiting for instance to be ready..." :: l
              ++ [Call (GetInstance instance_name) None;
                  Console "   Status: running"])%list.
      cbn [app]. f_equal. rewrite <- app_assoc. reflexivity.
  - intros instance p' ip Hpos E S Hip. rewrite Heq. unfold poll_step.
    replace (now w - now w <? max_wait) with true
      by (symmetry; apply Z.ltb_lt; lia).
    cbn [Scripts.lightsail self]. rewrite E. unfold ready_address.
    rewrite S, Hip. cbn. repeat split.
Qed.

Lemma wait_for_instance_returns_a_ready_address_witness :
  let c := poll_stub 1 (fun _ => inl (ProviderError "ServiceException")) "10.0.0.5" in
  let r := Scripts.wait_for_instance (Scripts.mkPreviewManager c "us-east-1")
             "pr-7-widgets" 300 (mkWorld 0 O (fun _ => None) (fun _ _ => None)) in
  out r = Return (Some "10.0.0.5")
  /\ exists l, log r = (l ++ [Console "✅ Instance ready with IP: 10.0.0.5"])%list.
Proof.
  intros c r.
  destruct (wait_for_instance_returns_a_ready_address c "us-east-1" "pr-7-widgets" 300
              (mkWorld 0 O (fun _ => None) (fun _ _ => None))) as [Hsound Hfirst].
  destruct (Hfirst (mkInstance "running" (Some "10.0.0.5")) 1%nat "10.0.0.5")
    as (Ho & _); try reflexivity.
  split; [exact Ho |].
  exact (proj2 (Hsound "10.0.0.5" Ho)).
Defined.

(** *** The create and delete flows against any provider *)

Module FlowMore.
Import PyStr Py Provider Flow FlowFacts ProviderMore.

Section Ensure.
Context {P : Type} (c : Lightsail P) (args : CreateInstances) (ports : list PortInfo).
Context (wait : World P -> Res P (option string)) (n : string).
Hypothesis wait_returns : forall w, exists o, out (wait w) = Return o.
Hypothesis wait_polling : forall w, Forall (polling n) (log (wait w)).
Hypothesis wait_no_file :
  forall w path mode writes, ~ In (FileOut path mode writes) (log (wait w)).

Ltac cases w :=
  unfold ensure_flow;
  destruct (lightsail_get_instance c n (cloud w)) as [[[m | m | m | m] | i1] p1] eqn:G1;
  [ destruct (lightsail_create_instances c args p1) as [[e | u] p2] eqn:C;
    [ | pose proof (wait_returns (at_cloud w p2)) as [o Ho];
        pose proof (wait_polling (at_cloud w p2)) as Hl;
        pose proof (wait_no_file (at_cloud w p2)) as Hf;
        destruct (wait (at_cloud w p2)) as [o' w3 l3] eqn:W;
        cbn [out log world] in Ho, Hl, Hf; subst o';
        destruct (truthy_opt o) eqn:T;
        [ destruct (lightsail_put_instance_public_ports c ports n (cloud w3))
            as [a3 p3] eqn:F | ] ]
  | | | | destruct (lightsail_get_instance c n p1) as [[e | i2] p2] eqn:G2 ].

Lemma ensure_calls_named w req raised :
  In (Call req raised) (log (ensure_flow c args ports wait n w)) ->
  req = GetInstance n \/ req = CreateInstancesReq args
  \/ req = PutInstancePublicPorts ports n.
Proof.
  cases w; cbn [log]; intros Hin.
  2: { apply in_app_or in Hin. destruct Hin as [Hin | Hin].
       { cbn in Hin. intuition congruence. }
       apply in_app_or in Hin. destruct Hin as [Hin | Hin].
       { pose proof (polling_In n l3 _ Hl Hin) as Hp.
         destruct req; cbn in Hp; try contradiction. left. congruence. }
       destruct a3; cbn in Hin; intuition congruence. }
  2: { apply in_app_or in Hin. destruct Hin as [Hin | Hin].
       { cbn in Hin. intuition congruence. }
       pose proof (polling_In n l3 _ Hl Hin) as Hp.
       destruct req; cbn in Hp; try contradiction. left. congruence. }
  all: cbn in Hin; intuition congruence.
Qed.

Lemma ensure_no_file w path mode writes :
  ~ In (FileOut path mode writes) (log (ensure_flow c args ports wait n w)).
Proof.
  cases w; cbn [log]; intros Hin.
  2: { apply in_app_or in Hin. destruct Hin as [Hin | Hin].
       { cbn in Hin. intuition discriminate. }
       apply in_app_or in Hin. destruct Hin as [Hin | Hin].
       { exact (Hf _ _ _ Hin). }
       destruct a3; cbn in Hin; intuition discriminate. }
  2: { apply in_app_or in Hin. destruct Hin as [Hin | Hin].
       { cbn in Hin. intuition discriminate. }
       exact (Hf _ _ _ Hin). }
  all: cbn in Hin; intuition discriminate.
Qed.

Lemma ensure_exit_one w k :
  out (ensure_flow c args ports wait n w) = Exit k -> k = 1.
Proof.
  cases w; cbn [out]; try discriminate; try (intros [= <-]; reflexivity).
  destruct (publicIpAddress i2); discriminate.
Qed.

End Ensure.

Section EnsurePaths.
Context {P : Type} (c : Lightsail P) (args : CreateInstances) (ports : list PortInfo).
Context (wait : World P -> Res P (option string)) (n : string).

Lemma ensure_check_raises w e p1 :
  lightsail_get_instance c n (cloud w) = (inl e, p1) ->
  (forall m, e <> NotFoundException m) ->
  ensure_flow c args ports wait n w
  = mkRes (Raise e) (at_cloud w p1) [Call (GetInstance n) (Some e)].
Proof.
  intros G Hne. unfold ensure_flow. rewrite G.
  destruct e; try reflexivity. exfalso. exact (Hne _ eq_refl).
Qed.

Lemma ensure_second_query_raises w i1 p1 e p2 :
  lightsail_get_instance c n (cloud w) = (inr i1, p1) ->
  lightsail_get_instance c n p1 = (inl e, p2) ->
  out (ensure_flow c args ports wait n w) = Raise e
  /\ calls (log (ensure_flow c args ports wait n w)) = [GetInstance n; GetInstance n]
  /\ cloud (world (ensure_flow c args ports wait n w)) = p2.
Proof. intros G1 G2. unfold ensure_flow. rewrite G1, G2. repeat split. Qed.

Lemma ensure_refused w m p1 e p2 :
  lightsail_get_instance c n (cloud w) = (inl (NotFoundException m), p1) ->
  lightsail_create_instances c args p1 = (inl e, p2) ->
  ensure_flow c args ports wait n w
  = mkRes (Exit 1) (at_cloud w p2)
      [Call (GetInstance n) (Some (NotFoundException m));
       Console ("Creating instance: " ++ n);
       Call (CreateInstancesReq args) (Some e);
       Console ("❌ Failed to create instance: " ++ exn_str e)].
Proof. intros G C. unfold ensure_flow. rewrite G, C. reflexivity. Qed.

Lemma ensure_no_address w m p1 u p2 o :
  lightsail_get_instance c n (cloud w) = (inl (NotFoundException m), p1) ->
  lightsail_create_instances c args p1 = (inr u, p2) ->
  out (wait (at_cloud w p2)) = Return o ->
  truthy_opt o = false ->
  out (ensure_flow c args ports wait n w) = Exit 1
  /\ calls (log (ensure_flow c args ports wait n w))
     = GetInstance n :: CreateInstancesReq args :: calls (log (wait (at_cloud w p2)))
  /\ world (ensure_flow c args ports wait n w) = world (wait (at_cloud w p2)).
Proof.
  intros G C W T. unfold ensure_flow. rewrite G, C.
  destruct (wait (at_cloud w p2)) as [o' w3 l3]. cbn [out] in W. subst o'.
  rewrite T. cbn [out log world]. rewrite calls_app. repeat split.
Qed.

Lemma ensure_found w i1 p1 i2 p2 ip :
  lightsail_get_instance c n (cloud w) = (inr i1, p1) ->
  lightsail_get_instance c n p1 = (inr i2, p2) ->
  publicIpAddress i2 = Some ip ->
  ensure_flow c args ports wait n w
  = mkRes (Return ip) (at_cloud w p2)
      [Call (GetInstance n) None;
       Console "ℹ️  Instance already exists, will update deployment";
       Call (GetInstance n) None].
Proof. intros G1 G2 H. unfold ensure_flow. rewrite G1, G2, H. reflexivity. Qed.

End EnsurePaths.

Lemma header_no_file rule pr repo br sha n path mode writes :
  ~ In (FileOut path mode writes) (header_events rule pr repo br sha n).
Proof. cbn. intuition discriminate. Qed.

Lemma report_lines_no_file rule n ip path mode writes :
  ~ In (FileOut path mode writes) (report_lines rule n ip).
Proof. cbn. intuition discriminate. Qed.

Lemma report_file_inv rule n ip o path mode writes :
  In (FileOut path mode writes) (report_events rule n ip o) ->
  truthy_opt o = true /\ o = Some path /\ mode = "a" /\ writes = output_lines n ip.
Proof.
  unfold report_events. intros H. apply in_app_or in H. destruct H as [H | H].
  - cbn in H. intuition discriminate.
  - destruct o as [s |]; cbn in H; [| contradiction].
    destruct (truthy s) eqn:T; cbn in H; [| contradiction].
    destruct H as [[= <- <- <-] | []]. cbn. rewrite T. repeat split.
Qed.

Lemma report_file rule n ip path :
  truthy path = true ->
  In (FileOut path "a" (output_lines n ip)) (report_events rule n ip (Some path)).
Proof.
  intros T. unfold report_events. apply in_or_app. right. cbn. rewrite T.
  left. reflexivity.
Qed.

Lemma report_url rule n ip :
  In (Console ("URL: http://" ++ ip ++ "/")) (report_lines rule n ip).
Proof. cbn. tauto. Qed.

(** The output block raises only for a file [GITHUB_OUTPUT] names. *)
Lemma output_error_inv {P : Type} (w : World P) e :
  output_error w = Some e ->
  exists path,
    environ w "GITHUB_OUTPUT" = Some path /\ truthy path = true
    /\ files w path "a" = Some e.
Proof.
  unfold output_error. destruct (environ w "GITHUB_OUTPUT") as [path |]; [| discriminate].
  destruct (truthy path) eqn:T; [| discriminate].
  intros H. exists path. repeat split; [exact T | exact H].
Qed.

Lemma output_error_path {P : Type} (w : World P) path :
  environ w "GITHUB_OUTPUT" = Some path -> truthy path = true ->
  output_error w = files w path "a".
Proof. intros E T. unfold output_error. rewrite E, T. reflexivity. Qed.

End FlowMore.

Module VariantsMore.
Import PyStr Py Provider Flow FlowFacts ProviderMore PollMore FlowMore.
Import ScriptsFacts UploadFacts.

Section Both.
Context {P : Type}.

Lemma wait_no_file_scripts (self : Scripts.PreviewManager P) n mw w path mode writes :
  ~ In (FileOut path mode writes) (log (Scripts.wait_for_instance self n mw w)).
Proof.
  rewrite wait_for_instance_scripts. cbn [add_log log app]. intros [H | H];
    [discriminate |].
  exact (poll_no_file _ _ _ _ _ (wait_for_instance_loop_scripts self n (now w) mw)
           w path mode writes H).
Qed.

Lemma wait_no_file_upload (self : PrPreviewSystem.PreviewManager P) n mw w path mode writes :
  ~ In (FileOut path mode writes) (log (PrPreviewSystem.wait_for_instance self n mw w)).
Proof.
  rewrite wait_for_instance_upload. cbn [add_log log app]. intros [H | H];
    [discriminate |].
  exact (poll_no_file _ _ _ _ _ (wait_for_instance_loop_upload self n (now w) mw)
           w path mode writes H).
Qed.

Ltac wait_facts_scripts :=
  intros;
  first [apply wait_returns_scripts | apply wait_polling_scripts
        | apply wait_no_file_scripts].

Ltac wait_facts_upload :=
  intros;
  first [apply wait_returns_upload | apply wait_polling_upload
        | apply wait_no_file_upload].

(** Where an event of a [create_preview] run comes from. *)
Lemma create_preview_event_scripts (self : Scripts.PreviewManager P) pr repo br sha w ev :
  let n := Scripts.get_instance_name pr repo in
  let ensured := Scripts.ensure_instance self n pr repo br w in
  let r := Scripts.create_preview self pr repo br sha w in
  In ev (log r) ->
  In ev (header_events Scripts.rule pr repo br sha n)
  \/ In ev (log ensured)
  \/ exists ip, out ensured = Return ip
       /\ (In ev (scripts_deploy_events ip) \/ In ev (report_lines Scripts.rule n ip)
           \/ (out r = Return true
               /\ In ev (report_events Scripts.rule n ip (environ w "GITHUB_OUTPUT")))).
Proof.
  intros n ensured r H. subst r. rewrite create_preview_scripts in H |- *.
  fold n ensured in H |- *.
  apply create_flow_log_inv in H.
  destruct (ensure_host_scripts self n pr repo br w) as [He _]. fold ensured in He.
  rewrite He in H.
  destruct H as [H | [H | (ip & Hip & [[Hd _] | [[_ H] | H]])]]; auto.
  - exfalso. apply Hd. reflexivity.
  - right. right. exists ip. split; [exact Hip | tauto].
  - right. right. exists ip. split; [exact Hip | tauto].
Qed.

Lemma create_preview_event_upload (self : PrPreviewSystem.PreviewManager P)
    pr repo br sha w ev :
  let n := PrPreviewSystem.get_instance_name pr repo in
  let ensured := PrPreviewSystem.ensure_instance self n pr repo br w in
  let r := PrPreviewSystem.create_preview self pr repo br sha w in
  In ev (log r) ->
  In ev (header_events PrPreviewSystem.rule pr repo br sha n)
  \/ In ev (log ensured)
  \/ exists ip, out ensured = Return ip
       /\ ((files w "/tmp/deploy.sh" "w" <> None /\ In ev upload_deploy_started)
           \/ (files w "/tmp/deploy.sh" "w" = None
               /\ (In ev (upload_deploy_events repo br ip)
                   \/ In ev (report_lines PrPreviewSystem.rule n ip)))
           \/ (out r = Return true
               /\ In ev (report_events PrPreviewSystem.rule n ip
                           (environ w "GITHUB_OUTPUT")))).
Proof.
  intros n ensured r H. subst r. rewrite create_preview_upload in H |- *.
  fold n ensured in H |- *.
  apply create_flow_log_inv in H.
  destruct (ensure_host_upload self n pr repo br w) as [He Hf]. fold ensured in He, Hf.
  unfold upload_deploy_error in H. rewrite He, Hf in H.
  exact H.
Qed.

Lemma ensure_no_file_scripts (self : Scripts.PreviewManager P) n pr repo br w
    path mode writes :
  ~ In (FileOut path mode writes) (log (Scripts.ensure_instance self n pr repo br w)).
Proof.
  rewrite ensure_instance_scripts. apply ensure_no_file; wait_facts_scripts.
Qed.

Lemma ensure_no_file_upload (self : PrPreviewSystem.PreviewManager P) n pr repo br w
    path mode writes :
  ~ In (FileOut path mode writes) (log (PrPreviewSystem.ensure_instance self n pr repo br w)).
Proof.
  rewrite ensure_instance_upload. apply ensure_no_file; wait_facts_upload.
Qed.

Lemma ensure_exit_one_scripts (self : Scripts.PreviewManager P) n pr repo br w k :
  out (Scripts.ensure_instance self n pr repo br w) = Exit k -> k = 1.
Proof.
  rewrite ensure_instance_scripts. apply ensure_exit_one; wait_facts_scripts.
Qed.

Lemma ensure_exit_one_upload (self : PrPreviewSystem.PreviewManager P) n pr repo br w k :
  out (PrPreviewSystem.ensure_instance self n pr repo br w) = Exit k -> k = 1.
Proof.
  rewrite ensure_instance_upload. apply ensure_exit_one; wait_facts_upload.
Qed.

Lemma ensure_calls_named_scripts (self : Scripts.PreviewManager P) n pr repo br w
    req raised :
  In (Call req raised) (log (Scripts.ensure_instance self n pr repo br w)) ->
  req = GetInstance n
  \/ req = CreateInstancesReq (Scripts.create_instances_args self n pr repo br)
  \/ req = PutInstancePublicPorts Scripts.port_infos n.
Proof.
  rewrite ensure_instance_scripts. apply ensure_calls_named; wait_facts_scripts.
Qed.

(** How a [create_preview] run ends when [main] called it. *)
Lemma create_preview_exit_scripts (self : Scripts.PreviewManager P) pr repo br sha w :
  (exists e, out (Scripts.create_preview self pr repo br sha w) = Raise e)
  \/ out (Scripts.create_preview self pr repo br sha w) = Return true
  \/ out (Scripts.create_preview self pr repo br sha w) = Exit 1.
Proof.
  rewrite create_preview_out_scripts.
  pose proof (ensure_exit_one_scripts self (Scripts.get_instance_name pr repo)
                pr repo br w) as Hk.
  destruct (out (Scripts.ensure_instance self _ pr repo br w)) as [ip | e | k].
  - unfold create_outcome, scripts_deploy_error.
    destruct (output_error w) as [e |]; [left; exists e |]; auto.
  - left. exists e. reflexivity.
  - right. right. rewrite (Hk k eq_refl). reflexivity.
Qed.

Lemma create_preview_exit_upload (self : PrPreviewSystem.PreviewManager P)
    pr repo br sha w :
  (exists e, out (PrPreviewSystem.create_preview self pr repo br sha w) = Raise e)
  \/ out (PrPreviewSystem.create_preview self pr repo br sha w) = Return true
  \/ out (PrPreviewSystem.create_preview self pr repo br sha w) = Exit 1.
Proof.
  rewrite create_preview_out_upload.
  pose proof (ensure_exit_one_upload self (PrPreviewSystem.get_instance_name pr repo)
                pr repo br w) as Hk.
  destruct (out (PrPreviewSystem.ensure_instance self _ pr repo br w)) as [ip | e | k].
  - unfold create_outcome.
    destruct (upload_deploy_error w) as [e |]; [left; exists e; reflexivity |].
    destruct (output_error w) as [e |]; [left; exists e |]; auto.
  - left. exists e. reflexivity.
  - right. right. rewrite (Hk k eq_refl). reflexivity.
Qed.

End Both.
End VariantsMore.

(** *** Time and calls of a creation *)

Module TimingMore.
Import PyStr Py Provider Flow RunFacts FlowFacts PollMore FlowMore.
Import ScriptsFacts UploadFacts.

Section EnsureTiming.
Context {P : Type} (c : Lightsail P) (args : CreateInstances) (ports : list PortInfo).
Context (wait : World P -> Res P (option string)) (n : string).
Hypothesis wait_time : forall w,
  (length (calls (log (wait w))) <= 30)%nat
  /\ now w <= now (world (wait w)) <= now w + 300
  /\ (forall ip, out (wait w) = Return (Some ip) -> now (world (wait w)) <= now w + 290).

Lemma ensure_timing w :
  (length (calls (log (ensure_flow c args ports wait n w))) <= 33)%nat
  /\ now w <= now (world (ensure_flow c args ports wait n w)) <= now w + 300
  /\ (forall ip, out (ensure_flow c args ports wait n w) = Return ip ->
        now (world (ensure_flow c args ports wait n w)) <= now w + 290).
Proof.
  unfold ensure_flow.
  destruct (lightsail_get_instance c n (cloud w)) as [[e | i1] p1].
  - destruct e as [m | m | m | m];
      try (cbn [log calls length world at_cloud now out];
           repeat split; first [lia | discriminate]).
    destruct (lightsail_create_instances c args p1) as [[e | u] p2].
    + cbn [log calls length world at_cloud now out].
      repeat split; first [lia | discriminate].
    + pose proof (wait_time (at_cloud w p2)) as (Hq & Hnow & Hsome).
      cbn [at_cloud now] in Hnow, Hsome.
      destruct (wait (at_cloud w p2)) as [[o | e | k] w3 l3];
        cbn [out world log] in Hq, Hnow, Hsome.
      * destruct o as [ip |]; cbn [truthy_opt].
        -- destruct (truthy ip).
           ++ destruct (lightsail_put_instance_public_ports c ports n (cloud w3))
                as [opened p3].
              cbn [log world at_cloud now out].
              rewrite !calls_app, !length_app.
              assert (length (calls (firewall_events ports n opened)) = 1%nat) as ->
                by (destruct opened; reflexivity).
              cbn [created_events calls length].
              pose proof (Hsome ip eq_refl).
              repeat split; first [lia | intros; lia].
           ++ cbn [log world now out]. rewrite !calls_app, !length_app.
              cbn [created_events calls length].
              repeat split; first [lia | discriminate].
        -- cbn [log world now out]. rewrite !calls_app, !length_app.
           cbn [created_events calls length].
           repeat split; first [lia | discriminate].
      * cbn [log world now out]. rewrite !calls_app, !length_app.
        cbn [created_events calls length].
        repeat split; first [lia | discriminate].
      * cbn [log world now out]. rewrite !calls_app, !length_app.
        cbn [created_events calls length].
        repeat split; first [lia | discriminate].
  - destruct (lightsail_get_instance c n p1) as [[e | i2] p2];
      cbn [log calls length world at_cloud now out];
      repeat split; first [lia | intros _ _; lia].
Qed.

End EnsureTiming.

Section WaitTiming.
Context {P : Type} (c : Lightsail P) (n : string).
Variable loop : Z -> World P -> Res P (option string).
Hypothesis loop_eq : forall st w, loop st w = poll_step c n st 300 (loop st) w.

Lemma wait_timing w :
  let r := add_log [Console "⏳ Waiting for instance to be ready..."]
             (add_log [] (loop (now w) w)) in
  (length (calls (log r)) <= 30)%nat
  /\ now w <= now (world r) <= now w + 300
  /\ (forall ip, out r = Return (Some ip) -> now (world r) <= now w + 290).
Proof.
  cbn zeta. cbn [add_log out world log app calls].
  pose proof (poll_timing c n (now w) 300 (loop (now w)) (loop_eq (now w)) w) as H.
  cbn zeta in H.
  replace (300 - (now w - now w) + 9) with 309 in H by lia.
  change (Z.max 0 (309 / 10)) with 30 in H.
  destruct H as (Hq & Hnone & Hsome).
  destruct (poll_returns c n (now w) 300 (loop (now w)) (loop_eq (now w)) w) as [o Ho].
  split; [lia |]. destruct o as [ip |].
  - destruct (Hsome ip Ho) as [Hnow Hone]. split; [lia |]. intros; lia.
  - destruct (Hnone Ho) as [Hnow Hmax]. split; [lia |].
    intros ip Hip. rewrite Hip in Ho. discriminate Ho.
Qed.

End WaitTiming.

Lemma ensure_timing_scripts {P : Type} (self : Scripts.PreviewManager P) n pr repo br w :
  let r := Scripts.ensure_instance self n pr repo br w in
  (length (calls (log r)) <= 33)%nat
  /\ now w <= now (world r) <= now w + 300
  /\ (forall ip, out r = Return ip -> now (world r) <= now w + 290).
Proof.
  cbn zeta. rewrite ensure_instance_scripts. apply ensure_timing.
  intros w0. rewrite wait_for_instance_scripts.
  apply (wait_timing (Scripts.lightsail self) n
           (fun st => Scripts.wait_for_instance_loop self n st 300)).
  intros st w1. apply wait_for_instance_loop_scripts.
Qed.

Lemma ensure_timing_upload {P : Type} (self : PrPreviewSystem.PreviewManager P)
    n pr repo br w :
  let r := PrPreviewSystem.ensure_instance self n pr repo br w in
  (length (calls (log r)) <= 33)%nat
  /\ now w <= now (world r) <= now w + 300
  /\ (forall ip, out r = Return ip -> now (world r) <= now w + 290).
Proof.
  cbn zeta. rewrite ensure_instance_upload. apply ensure_timing.
  intros w0. rewrite wait_for_instance_upload.
  apply (wait_timing (PrPreviewSystem.lightsail self) n
           (fun st => PrPreviewSystem.wait_for_instance_loop self n st 300)).
  intros st w1. apply wait_for_instance_loop_upload.
Qed.

End TimingMore.

Import FlowMore VariantsMore TimingMore.

(** X8.  A [create] run and a [delete] run address one instance and
    nothing else.  Every provider call of [create_preview] is a query of
    the derived name, the creation request, whose only instance name is
    the derived name, or the port setting for the derived name: a failed
    run deletes nothing.  [delete_preview] makes exactly one provider
    call, the deletion of the derived name. *)
Theorem create_and_delete_address_the_derived_name {P : Type}
    (self : Scripts.PreviewManager P)
    (pr_number : Z) (repo_name branch commit_sha : string) (w w' : World P) :
  let instance_name := Scripts.get_instance_name pr_number repo_name in
  let args := Scripts.create_instances_args self instance_name pr_number repo_name branch in
  (forall req raised,
      In (Call req raised)
         (log (Scripts.create_preview self pr_number repo_name branch commit_sha w)) ->
      req = GetInstance instance_name
      \/ req = CreateInstancesReq args
      \/ req = PutInstancePublicPorts Scripts.port_infos instance_name)
  /\ instanceNames args = [instance_name]
  /\ calls (log (Scripts.delete_preview self pr_number repo_name w'))
     = [DeleteInstance instance_name].
Proof.
  intros n args. split; [| split; [reflexivity |]].
  - intros req raised Hin. apply create_preview_call_inv_scripts in Hin. fold n in Hin.
    exact (ensure_calls_named_scripts self n pr_number repo_name branch w req raised Hin).
  - rewrite delete_preview_scripts. fold n. cbn [add_log log].
    rewrite calls_app, delete_instance_scripts.
    destruct (lightsail_delete_instance (Scripts.lightsail self) n (cloud w'))
      as [[[] | u] p']; reflexivity.
Qed.

Lemma create_and_delete_address_the_derived_name_witness :
  let self := Scripts.mkPreviewManager (fake 2 "10.0.0.5") "us-east-1" in
  let created := Scripts.create_preview self 7 "acme/widgets" "feature-x" "abcdef1"
                   fresh_world in
  ~ In (DeleteInstance "pr-7-widgets") (calls (log created))
  /\ calls (log (Scripts.delete_preview self 7 "acme/widgets" (world created)))
     = [DeleteInstance "pr-7-widgets"].
Proof.
  intros self created.
  destruct (create_and_delete_address_the_derived_name self 7 "acme/widgets"
              "feature-x" "abcdef1" fresh_world (world created)) as (Hcalls & _ & Hdelete).
  split; [| exact Hdelete].
  intros Hin. vm_compute in Hin.
  repeat (destruct Hin as [Hin | Hin]; [discriminate Hin |]). exact Hin.
Defined.

(** X9.  [main] with the action [delete], once the command line is
    parsed and the client built, makes one provider call, the deletion of
    the derived name, and never ends in an exception: it exits with
    status 0 when the provider accepts the deletion or raises
    [NotFoundException], and with status 1 on any other exception.  This
    holds in both files. *)
Theorem delete_exit_status {P : Type} (boto3_client : string -> exn + Lightsail P)
    (parse_args : list string -> Z + Namespace) (argv : list string)
    (args : Namespace) (client : Lightsail P) (w : World P) :
  let instance_name :=
    Scripts.get_instance_name (arg_pr_number args) (arg_repo_name args) in
  let answer := lightsail_delete_instance client instance_name (cloud w) in
  let status :=
    match fst answer with
    | inr _ => 0
    | inl (NotFoundException _) => 0
    | inl _ => 1
    end in
  parse_args argv = inr args ->
  boto3_client (arg_region args) = inr client ->
  arg_action args = delete ->
  (out (Scripts.main boto3_client parse_args argv w) = Exit status
   /\ calls (log (Scripts.main boto3_client parse_args argv w))
      = [DeleteInstance instance_name]
   /\ cloud (world (Scripts.main boto3_client parse_args argv w)) = snd answer)
  /\ PrPreviewSystem.main boto3_client parse_args argv w
     = Scripts.main boto3_client parse_args argv w.
Proof.
  intros n answer status Hp Hcl Ha. subst status answer.
  assert (PrPreviewSystem.main boto3_client parse_args argv w
          = Scripts.main boto3_client parse_args argv w) as E.
  { rewrite (main_delete_scripts boto3_client parse_args argv args client w Hp Hcl Ha),
      (main_delete_upload boto3_client parse_args argv args client w Hp Hcl Ha).
    reflexivity. }
  split; [| exact E].
  rewrite (main_delete_scripts boto3_client parse_args argv args client w Hp Hcl Ha),
    delete_preview_scripts.
  fold n. rewrite delete_instance_scripts. cbn [Scripts.lightsail].
  destruct (lightsail_delete_instance client n (cloud w)) as [[[] | u] p']; repeat split.
Qed.

Lemma delete_exit_status_witness :
  let denied :=
    {| lightsail_get_instance := lightsail_get_instance (fake 2 "10.0.0.5");
       lightsail_create_instances := lightsail_create_instances (fake 2 "10.0.0.5");
       lightsail_put_instance_public_ports :=
         lightsail_put_instance_public_ports (fake 2 "10.0.0.5");
       lightsail_delete_instance := fun _ p => (inl (ProviderError "AccessDenied"), p) |} in
  out (Scripts.main (boto3_stub denied) plain_parse_args delete_argv fresh_world) = Exit 1
  /\ out (Scripts.main (boto3_stub (fake 2 "10.0.0.5")) plain_parse_args delete_argv
            fresh_world) = Exit 0.
Proof.
  intros denied.
  pose (args := mkNamespace delete 7 "acme/widgets" None None "us-east-1").
  split.
  - exact (proj1 (proj1 (delete_exit_status (boto3_stub denied) plain_parse_args
                           delete_argv args denied fresh_world eq_refl eq_refl eq_refl))).
  - exact (proj1 (proj1 (delete_exit_status (boto3_stub (fake 2 "10.0.0.5"))
                           plain_parse_args delete_argv args (fake 2 "10.0.0.5")
                           fresh_world eq_refl eq_refl eq_refl))).
Defined.

(** X10.  Only [NotFoundException] is caught by the existence check.  Any
    other exception of that query ends [create_preview] in the exception
    after that single call.  On the path of an instance that exists, an
    exception of the second query, [NotFoundException] included, also
    ends the run, after the two queries. *)
Theorem create_propagates_query_errors {P : Type} (self : Scripts.PreviewManager P)
    (pr_number : Z) (repo_name branch commit_sha : string) (w : World P) :
  let instance_name := Scripts.get_instance_name pr_number repo_name in
  let r := Scripts.create_preview self pr_number repo_name branch commit_sha w in
  (forall e p1,
      lightsail_get_instance (Scripts.lightsail self) instance_name (cloud w) = (inl e, p1) ->
      (forall msg, e <> NotFoundException msg) ->
      out r = Raise e /\ calls (log r) = [GetInstance instance_name]
      /\ cloud (world r) = p1)
  /\ (forall found p1 e p2,
        lightsail_get_instance (Scripts.lightsail self) instance_name (cloud w)
          = (inr found, p1) ->
        lightsail_get_instance (Scripts.lightsail self) instance_name p1 = (inl e, p2) ->
        out r = Raise e
        /\ calls (log r) = [GetInstance instance_name; GetInstance instance_name]
        /\ cloud (world r) = p2).
Proof.
  intros n r. subst r.
  rewrite create_preview_out_scripts, create_preview_calls_scripts,
    create_preview_cloud_scripts.
  fold n. rewrite ensure_instance_scripts. split.
  - intros e p1 G Hne. rewrite (ensure_check_raises _ _ _ _ n w e p1 G Hne).
    repeat split.
  - intros found p1 e p2 G1 G2.
    destruct (ensure_second_query_raises (Scripts.lightsail self)
                (Scripts.create_instances_args self n pr_number repo_name branch)
                Scripts.port_infos (Scripts.wait_for_instance self n 300) n
                w found p1 e p2 G1 G2) as (Ho & Hc & Hw).
    rewrite Ho, Hc, Hw. repeat split.
Qed.

Lemma create_propagates_query_errors_witness :
  let throttled := ProviderError "ThrottlingException" in
  let self := Scripts.mkPreviewManager (failing_queries (fake 2 "10.0.0.5") throttled)
                "us-east-1" in
  let r := Scripts.create_preview self 7 "acme/widgets" "feature-x" "abcdef1"
             fresh_world in
  out r = Raise throttled /\ calls (log r) = [GetInstance "pr-7-widgets"].
Proof.
  intros throttled self r.
  destruct (create_propagates_query_errors self 7 "acme/widgets" "feature-x" "abcdef1"
              fresh_world) as [Hfirst _].
  destruct (Hfirst throttled fake_empty) as (Ho & Hc & _);
    [reflexivity | discriminate |].
  split; [exact Ho | exact Hc].
Defined.

(** X11.  A refused creation request ends [create_preview] with exit
    status 1 straight away: after the existence check and the request
    there is no further provider call, no waiting (the clock and the
    environment are as before) and the refusal is printed. *)
Theorem refused_creation_exits_at_once {P : Type} (self : Scripts.PreviewManager P)
    (pr_number : Z) (repo_name branch commit_sha : string) (w : World P)
    (msg : string) (p1 : P) (e : exn) (p2 : P) :
  let instance_name := Scripts.get_instance_name pr_number repo_name in
  let args := Scripts.create_instances_args self instance_name pr_number repo_name branch in
  let r := Scripts.create_preview self pr_number repo_name branch commit_sha w in
  lightsail_get_instance (Scripts.lightsail self) instance_name (cloud w)
    = (inl (NotFoundException msg), p1) ->
  lightsail_create_instances (Scripts.lightsail self) args p1 = (inl e, p2) ->
  out r = Exit 1
  /\ calls (log r) = [GetInstance instance_name; CreateInstancesReq args]
  /\ world r = at_cloud w p2
  /\ last (log r) (Console EmptyString)
     = Console ("❌ Failed to create instance: " ++ exn_str e).
Proof.
  intros n args r G C. subst r.
  rewrite create_preview_scripts. fold n. rewrite ensure_instance_scripts.
  fold args. rewrite (ensure_refused _ _ _ _ n w msg p1 e p2 G C).
  repeat split.
Qed.

Lemma refused_creation_exits_at_once_witness :
  let quota := ProviderError "ServiceException" in
  let self := Scripts.mkPreviewManager (refusing_creation (fake 2 "10.0.0.5") quota)
                "us-east-1" in
  let r := Scripts.create_preview self 7 "acme/widgets" "feature-x" "abcdef1"
             fresh_world in
  out r = Exit 1 /\ now (world r) = 0.
Proof.
  intros quota self r.
  destruct (refused_creation_exits_at_once self 7 "acme/widgets" "feature-x" "abcdef1"
              fresh_world "NotFoundException" fake_empty quota fake_empty)
    as (Ho & _ & Hw & _); [reflexivity | reflexivity |].
  split; [exact Ho |]. fold r in Hw. rewrite Hw. reflexivity.
Defined.

(** X12.  When the wait after an accepted creation ends without a usable
    address, [create_preview] exits with status 1.  Its provider calls
    are the existence check, the creation request and the wait's queries:
    the ports are not set, and the instance that was created is not
    deleted, the provider being left as the wait left it. *)
Theorem create_without_address_leaves_the_instance {P : Type}
    (self : Scripts.PreviewManager P)
    (pr_number : Z) (repo_name branch commit_sha : string) (w : World P)
    (msg : string) (p1 : P) (created : unit) (p2 : P) (address : option string) :
  let instance_name := Scripts.get_instance_name pr_number repo_name in
  let args := Scripts.create_instances_args self instance_name pr_number repo_name branch in
  let waited := Scripts.wait_for_instance self instance_name 300 (at_cloud w p2) in
  let r := Scripts.create_preview self pr_number repo_name branch commit_sha w in
  lightsail_get_instance (Scripts.lightsail self) instance_name (cloud w)
    = (inl (NotFoundException msg), p1) ->
  lightsail_create_instances (Scripts.lightsail self) args p1 = (inr created, p2) ->
  out waited = Return address ->
  truthy_opt address = false ->
  out r = Exit 1
  /\ calls (log r)
     = GetInstance instance_name :: CreateInstancesReq args :: calls (log waited)
  /\ (forall req, In req (calls (log waited)) -> req = GetInstance instance_name)
  /\ world r = world waited.
Proof.
  intros n args waited r G C Hwait Hfalse. subst r.
  destruct (ensure_no_address (Scripts.lightsail self) args Scripts.port_infos
              (Scripts.wait_for_instance self n 300) n w msg p1 created p2 address
              G C Hwait Hfalse) as (Ho & Hc & Hw).
  pose proof (create_preview_scripts self pr_number repo_name branch commit_sha w) as E.
  cbv zeta in E. fold n in E.
  pose proof (create_preview_calls_scripts self pr_number repo_name branch commit_sha w) as Ec.
  pose proof (create_preview_out_scripts self pr_number repo_name branch commit_sha w) as Eo.
  fold n in Ec, Eo. rewrite ensure_instance_scripts in E, Ec, Eo. fold args in E, Ec, Eo.
  split; [| split; [| split]].
  - rewrite Eo, Ho. reflexivity.
  - rewrite Ec. exact Hc.
  - intros req Hin.
    pose proof (wait_polling_scripts self n 300 (at_cloud w p2)) as Hp. fold waited in Hp.
    clear - Hin Hp. induction Hp as [| ev l Hev _ IH]; [destruct Hin |].
    destruct ev as [s | req' raised | path mode writes]; cbn [calls] in Hin.
    + apply IH, Hin.
    + destruct Hin as [<- | Hin]; [| apply IH, Hin].
      destruct req'; cbn [polling] in Hev; first [f_equal; exact Hev | destruct Hev].
    + apply IH, Hin.
  - rewrite E. revert Ho Hw.
    destruct (ensure_flow (Scripts.lightsail self) args Scripts.port_infos
                (Scripts.wait_for_instance self n 300) n w) as [[ip | e | k] w1 l1];
      cbn [out world create_flow]; try discriminate.
    intros _ ->. reflexivity.
Qed.

Lemma create_without_address_leaves_the_instance_witness :
  let self := Scripts.mkPreviewManager (fake 31 "10.0.0.5") "us-east-1" in
  let r := Scripts.create_preview self 7 "acme/widgets" "feature-x" "abcdef1"
             fresh_world in
  out r = Exit 1 /\ present (fake 31 "10.0.0.5") "pr-7-widgets" (cloud (world r)) = true.
Proof.
  intros self r.
  edestruct (create_without_address_leaves_the_instance self 7 "acme/widgets"
               "feature-x" "abcdef1" fresh_world) as (Ho & _ & _ & Hw);
    [reflexivity | reflexivity | vm_compute; reflexivity | reflexivity |].
  split; [exact Ho |]. fold r in Hw. rewrite Hw. vm_compute. reflexivity.
Defined.

(** X13.  For an instance that already exists and whose record carries
    an address at the second query, [create_preview] asks the provider
    twice, once for the existence check and once for the address, and
    goes on with whatever address the second answer carries: the state
    of the instance is not looked at, nothing is created and no port is
    set.  The run sleeps the deployment pause and no more, 120 seconds in
    [src/scripts] and 60 in [src/pr-preview-system], and it returns
    [True] unless a file cannot be written: the output file, and in
    [src/pr-preview-system] the deployment script before it. *)
Theorem existing_instance_is_reused {P : Type} (c : Lightsail P) (region : string)
    (pr_number : Z) (repo_name branch commit_sha : string) (w : World P)
    (found : Instance) (p1 : P) (again : Instance) (p2 : P) (ip : string) :
  let instance_name := Scripts.get_instance_name pr_number repo_name in
  let r := Scripts.create_preview (Scripts.mkPreviewManager c region)
             pr_number repo_name branch commit_sha w in
  let r' := PrPreviewSystem.create_preview (PrPreviewSystem.mkPreviewManager c region)
              pr_number repo_name branch commit_sha w in
  lightsail_get_instance c instance_name (cloud w) = (inr found, p1) ->
  lightsail_get_instance c instance_name p1 = (inr again, p2) ->
  publicIpAddress again = Some ip ->
  (out r = create_outcome None (output_error w)
   /\ calls (log r) = [GetInstance instance_name; GetInstance instance_name]
   /\ cloud (world r) = p2
   /\ now (world r) = now w + 120
   /\ In (Console ("URL: http://" ++ ip ++ "/")) (log r))
  /\ (out r' = create_outcome (files w "/tmp/deploy.sh" "w") (output_error w)
      /\ calls (log r') = [GetInstance instance_name; GetInstance instance_name]
      /\ cloud (world r') = p2
      /\ now (world r') = now w + 60
      /\ (files w "/tmp/deploy.sh" "w" = None ->
          In (Console ("URL: http://" ++ ip ++ "/")) (log r'))).
Proof.
  intros n r r' G1 G2 Hip. subst r r'. split.
  - rewrite create_preview_calls_scripts, create_preview_cloud_scripts,
      create_preview_out_scripts, create_preview_now_scripts.
    rewrite create_preview_scripts. fold n. rewrite ensure_instance_scripts.
    cbn [Scripts.lightsail].
    rewrite (ensure_found c _ _ _ n w found p1 again p2 ip G1 G2 Hip).
    cbn [out world log at_cloud now cloud calls].
    repeat split.
    apply create_flow_deployed with (ip := ip);
      [reflexivity | reflexivity | right; apply report_url].
  - rewrite create_preview_calls_upload, create_preview_cloud_upload,
      create_preview_out_upload, create_preview_now_upload.
    rewrite create_preview_upload.
    change (PrPreviewSystem.get_instance_name pr_number repo_name) with n.
    rewrite ensure_instance_upload. cbn [PrPreviewSystem.lightsail].
    rewrite (ensure_found c _ _ _ n w found p1 again p2 ip G1 G2 Hip).
    cbn [out world log at_cloud now cloud calls].
    repeat split.
    intros Hf.
    apply create_flow_deployed with (ip := ip);
      [reflexivity | exact Hf | right; apply report_url].
Qed.

Lemma existing_instance_is_reused_witness :
  let w := mkWorld 0 (fake_set "pr-7-widgets" (Some 1%nat) fake_empty) (fun _ => None)
             (fun _ _ => None) in
  let r := Scripts.create_preview (Scripts.mkPreviewManager (fake 2 "10.0.0.5") "us-east-1")
             7 "acme/widgets" "feature-x" "abcdef1" w in
  out r = Return true /\ now (world r) = 120.
Proof.
  intros w r.
  edestruct (existing_instance_is_reused (fake 2 "10.0.0.5") "us-east-1" 7 "acme/widgets"
               "feature-x" "abcdef1" w) as [(Ho & _ & _ & Hnow & _) _];
    [reflexivity | reflexivity | reflexivity |].
  split; [exact Ho | exact Hnow].
Defined.

(** X14.  [main] never returns normally, in either file.  A command line
    that argparse rejects ends the process with the status of argparse.
    Every other run ends in [sys.exit] with status 0 or 1, or in an
    exception that was not caught; [main] itself uses no other status,
    whatever the provider answers. *)
Theorem main_ends_in_exit_or_exception {P : Type}
    (boto3_client : string -> exn + Lightsail P)
    (parse_args : list string -> Z + Namespace) (argv : list string) (w : World P) :
  ((exists status,
       parse_args argv = inl status
       /\ Scripts.main boto3_client parse_args argv w = mkRes (Exit status) w [])
   \/ (exists e, out (Scripts.main boto3_client parse_args argv w) = Raise e)
   \/ out (Scripts.main boto3_client parse_args argv w) = Exit 0
   \/ out (Scripts.main boto3_client parse_args argv w) = Exit 1)
  /\ ((exists status,
         parse_args argv = inl status
         /\ PrPreviewSystem.main boto3_client parse_args argv w = mkRes (Exit status) w [])
      \/ (exists e, out (PrPreviewSystem.main boto3_client parse_args argv w) = Raise e)
      \/ out (PrPreviewSystem.main boto3_client parse_args argv w) = Exit 0
      \/ out (PrPreviewSystem.main boto3_client parse_args argv w) = Exit 1).
Proof.
  destruct (parse_args argv) as [status | args] eqn:Hp.
  { split; left; exists status; (split; [reflexivity |]).
    - apply main_rejected_scripts. exact Hp.
    - apply main_rejected_upload. exact Hp. }
  destruct (boto3_client (arg_region args)) as [e | client] eqn:Hcl.
  { split; right; left; exists e.
    - rewrite (main_no_client_scripts boto3_client parse_args argv args e w Hp Hcl).
      reflexivity.
    - rewrite (main_no_client_upload boto3_client parse_args argv args e w Hp Hcl).
      reflexivity. }
  destruct (arg_action args) eqn:Ha.
  - destruct (truthy_opt (arg_branch args)) eqn:Hb;
      [destruct (truthy_opt (arg_commit_sha args)) eqn:Hc |].
    + split; right.
      * rewrite (main_create_out_scripts boto3_client parse_args argv args client w
                   Hp Hcl Ha Hb Hc).
        destruct (create_preview_exit_scripts
                    (Scripts.mkPreviewManager client (arg_region args))
                    (arg_pr_number args) (arg_repo_name args)
                    (str_value (arg_branch args)) (str_value (arg_commit_sha args)) w)
          as [[e ->] | [-> | ->]]; eauto.
      * rewrite (main_create_out_upload boto3_client parse_args argv args client w
                   Hp Hcl Ha Hb Hc).
        destruct (create_preview_exit_upload
                    (PrPreviewSystem.mkPreviewManager client (arg_region args))
                    (arg_pr_number args) (arg_repo_name args)
                    (str_value (arg_branch args)) (str_value (arg_commit_sha args)) w)
          as [[e ->] | [-> | ->]]; eauto.
    + split; right; right; right;
        [rewrite (main_usage_scripts boto3_client parse_args argv args client w
                    Hp Hcl Ha (or_intror Hc))
        | rewrite (main_usage_upload boto3_client parse_args argv args client w
                     Hp Hcl Ha (or_intror Hc))];
        reflexivity.
    + split; right; right; right;
        [rewrite (main_usage_scripts boto3_client parse_args argv args client w
                    Hp Hcl Ha (or_introl Hb))
        | rewrite (main_usage_upload boto3_client parse_args argv args client w
                     Hp Hcl Ha (or_introl Hb))];
        reflexivity.
  - split; right.
    + rewrite (main_delete_scripts boto3_client parse_args argv args client w Hp Hcl Ha),
        delete_preview_scripts, delete_instance_scripts.
      destruct (lightsail_delete_instance _ _ (cloud w)) as [[[] | u] p'];
        cbn [add_log out]; auto.
    + rewrite (main_delete_upload boto3_client parse_args argv args client w Hp Hcl Ha),
        delete_preview_upload, delete_instance_upload.
      destruct (lightsail_delete_instance _ _ (cloud w)) as [[[] | u] p'];
        cbn [add_log out]; auto.
Qed.

(** X15.  In [src/scripts] the only file output of a [create] run is the
    block that appends to the file named by [GITHUB_OUTPUT].  A completed
    write on the log means that the run returned [True], that the
    variable is set to a non-empty path and that the three lines
    [preview_url], [instance_ip] and [instance_name] of the address the
    instance was reached at were appended to that file.  Conversely, on a
    run that obtained an address with the variable set to a non-empty
    path, either the block completes, the write is on the log and the run
    returns [True], or the block raises, the run ends in that exception
    and no write is on the log. *)
Theorem output_file_written_only_on_success {P : Type} (self : Scripts.PreviewManager P)
    (pr_number : Z) (repo_name branch commit_sha : string) (w : World P) :
  let instance_name := Scripts.get_instance_name pr_number repo_name in
  let ensured := Scripts.ensure_instance self instance_name pr_number repo_name branch w in
  let r := Scripts.create_preview self pr_number repo_name branch commit_sha w in
  (forall path mode writes,
      In (FileOut path mode writes) (log r) ->
      out r = Return true
      /\ environ w "GITHUB_OUTPUT" = Some path /\ truthy path = true /\ mode = "a"
      /\ exists ip, out ensured = Return ip /\ writes = output_lines instance_name ip)
  /\ (forall ip path,
        out ensured = Return ip ->
        environ w "GITHUB_OUTPUT" = Some path -> truthy path = true ->
        match files w path "a" with
        | None =>
            out r = Return true
            /\ In (FileOut path "a" (output_lines instance_name ip)) (log r)
        | Some e =>
            out r = Raise e
            /\ forall path' mode writes, ~ In (FileOut path' mode writes) (log r)
        end).
Proof.
  intros n ensured r.
  assert (forall path mode writes,
      In (FileOut path mode writes) (log r) ->
      out r = Return true
      /\ environ w "GITHUB_OUTPUT" = Some path /\ truthy path = true /\ mode = "a"
      /\ exists ip, out ensured = Return ip /\ writes = output_lines n ip) as Hinv.
  { intros path mode writes Hin.
    apply create_preview_event_scripts in Hin. fold n ensured r in Hin.
    destruct Hin as [Hin | [Hin | (ip & Hip & [Hin | [Hin | [Hr Hin]]])]].
    - apply header_no_file in Hin. destruct Hin.
    - apply ensure_no_file_scripts in Hin. destruct Hin.
    - cbv [scripts_deploy_events] in Hin.
      repeat (destruct Hin as [Hin | Hin]; [discriminate Hin |]). destruct Hin.
    - apply report_lines_no_file in Hin. destruct Hin.
    - apply report_file_inv in Hin. destruct Hin as (Ht & Ho & -> & ->).
      split; [exact Hr | split; [exact Ho | split; [| split; [reflexivity |]]]].
      + rewrite Ho in Ht. exact Ht.
      + exists ip. split; [exact Hip | reflexivity]. }
  split; [exact Hinv |].
  intros ip path Hip Henv Ht.
  assert (out r = create_outcome None (output_error w)) as Hout.
  { subst r. rewrite create_preview_out_scripts. fold n ensured. rewrite Hip.
    reflexivity. }
  rewrite (output_error_path w path Henv Ht) in Hout.
  destruct (files w path "a") as [e |] eqn:Hf; cbn [create_outcome] in Hout.
  - split; [exact Hout |].
    intros path' mode writes Hin. apply Hinv in Hin. destruct Hin as [Hr _].
    rewrite Hout in Hr. discriminate Hr.
  - split; [exact Hout |].
    subst r. rewrite create_preview_scripts in Hout |- *. fold n ensured in Hout |- *.
    apply (create_flow_reports _ _ _ _ _ _ _ _ ip Hip Hout). right.
    destruct (ensure_host_scripts self n pr_number repo_name branch w) as [He _].
    fold ensured in He. rewrite He, Henv.
    apply report_file, Ht.
Qed.

Lemma output_file_written_only_on_success_witness :
  let self := Scripts.mkPreviewManager (fake 2 "10.0.0.5") "us-east-1" in
  let w := setenv "GITHUB_OUTPUT" "/tmp/out" fresh_world in
  In (FileOut "/tmp/out" "a"
        ["preview_url=http://10.0.0.5/" ++ nl; "instance_ip=10.0.0.5" ++ nl;
         "instance_name=pr-7-widgets" ++ nl])
     (log (Scripts.create_preview self 7 "acme/widgets" "feature-x" "abcdef1" w))
  /\ out (Scripts.create_preview self 7 "acme/widgets" "feature-x" "abcdef1"
            (unwritable "/tmp/out" "a" (OSError "[Errno 13] Permission denied") w))
     = Raise (OSError "[Errno 13] Permission denied").
Proof.
  intros self w. split.
  - exact (proj2 (proj2 (output_file_written_only_on_success self 7 "acme/widgets"
                           "feature-x" "abcdef1" w) "10.0.0.5" "/tmp/out"
                    ltac:(vm_compute; reflexivity) eq_refl eq_refl)).
  - exact (proj1 (proj2 (output_file_written_only_on_success self 7 "acme/widgets"
                           "feature-x" "abcdef1"
                           (unwritable "/tmp/out" "a"
                              (OSError "[Errno 13] Permission denied") w))
                    "10.0.0.5" "/tmp/out"
                    ltac:(vm_compute; reflexivity) eq_refl eq_refl)).
Defined.

(** X16.  In [src/pr-preview-system] a [create] run writes the deployment
    script, a function of the repository and the branch alone, to
    [/tmp/deploy.sh], opened for writing, exactly when it obtained an
    address and the block that writes the script completes.  Every run
    that returns [True] has written it, and so has a run that then fails
    on the output file.  Any other completed write of a run is the append
    to the file named by [GITHUB_OUTPUT], on a run that returns
    [True]. *)
Theorem deploy_script_written_on_success {P : Type}
    (self : PrPreviewSystem.PreviewManager P)
    (pr_number : Z) (repo_name branch commit_sha : string) (w : World P) :
  let instance_name := PrPreviewSystem.get_instance_name pr_number repo_name in
  let ensured :=
    PrPreviewSystem.ensure_instance self instance_name pr_number repo_name branch w in
  let r := PrPreviewSystem.create_preview self pr_number repo_name branch commit_sha w in
  let script := FileOut "/tmp/deploy.sh" "w"
                  [PrPreviewSystem.deploy_script repo_name branch] in
  (In script (log r) <->
   (exists ip, out ensured = Return ip) /\ files w "/tmp/deploy.sh" "w" = None)
  /\ (out r = Return true -> In script (log r))
  /\ (forall path mode writes,
        In (FileOut path mode writes) (log r) ->
        FileOut path mode writes = script
        \/ (out r = Return true
            /\ environ w "GITHUB_OUTPUT" = Some path /\ truthy path = true
            /\ mode = "a")).
Proof.
  intros n ensured r script.
  assert (forall path mode writes,
        In (FileOut path mode writes) (log r) ->
        (FileOut path mode writes = script
         /\ (exists ip, out ensured = Return ip) /\ files w "/tmp/deploy.sh" "w" = None)
        \/ (out r = Return true
            /\ environ w "GITHUB_OUTPUT" = Some path /\ truthy path = true
            /\ mode = "a")) as Hinv.
  { intros path mode writes Hin.
    apply create_preview_event_upload in Hin. fold n ensured r in Hin.
    destruct Hin as [Hin | [Hin | (ip & Hip & [[_ Hin] | [[Hf [Hin | Hin]] | [Hr Hin]]])]].
    - apply header_no_file in Hin. destruct Hin.
    - apply ensure_no_file_upload in Hin. destruct Hin.
    - cbv [upload_deploy_started] in Hin.
      repeat (destruct Hin as [Hin | Hin]; [discriminate Hin |]). destruct Hin.
    - left. cbv [upload_deploy_events] in Hin.
      destruct Hin as [Hin | [Hin | [Hin | [Hin | []]]]]; try discriminate Hin.
      split; [symmetry; exact Hin |]. split; [exists ip; exact Hip | exact Hf].
    - apply report_lines_no_file in Hin. destruct Hin.
    - right. apply report_file_inv in Hin. destruct Hin as (Ht & Ho & -> & _).
      rewrite Ho in Ht. repeat split; assumption. }
  assert ((exists ip, out ensured = Return ip) -> files w "/tmp/deploy.sh" "w" = None ->
          In script (log r)) as Hwritten.
  { intros [ip Hip] Hf. subst r. rewrite create_preview_upload. fold n ensured.
    apply (create_flow_deployed _ _ _ _ _ _ _ _ ip Hip).
    - destruct (ensure_errors_upload self n pr_number repo_name branch w) as [He _].
      fold ensured in He. rewrite He. exact Hf.
    - left. cbv [upload_deploy_events]. right. right. left. reflexivity. }
  split; [split |split].
  - intros Hin. apply Hinv in Hin. destruct Hin as [(_ & Hip & Hf) | (_ & _ & _ & Hm)].
    + split; assumption.
    + discriminate Hm.
  - intros [Hip Hf]. exact (Hwritten Hip Hf).
  - intros Hr. subst r. rewrite create_preview_out_upload in Hr. fold n ensured in Hr.
    destruct (out ensured) as [ip | e | k] eqn:Hip; try discriminate Hr.
    unfold create_outcome, upload_deploy_error in Hr.
    destruct (files w "/tmp/deploy.sh" "w") eqn:Hf; [discriminate Hr |].
    apply Hwritten; [exists ip; reflexivity | reflexivity].
  - intros path mode writes Hin. apply Hinv in Hin.
    destruct Hin as [(Hs & _) | H]; [left; exact Hs | right; exact H].
Qed.

Lemma deploy_script_written_on_success_witness :
  let self := PrPreviewSystem.mkPreviewManager (fake 2 "10.0.0.5") "us-east-1" in
  let failing := PrPreviewSystem.mkPreviewManager (fake 31 "10.0.0.5") "us-east-1" in
  In (FileOut "/tmp/deploy.sh" "w" [PrPreviewSystem.deploy_script "acme/widgets" "feature-x"])
     (log (PrPreviewSystem.create_preview self 7 "acme/widgets" "feature-x" "abcdef1"
             fresh_world))
  /\ ~ In (FileOut "/tmp/deploy.sh" "w"
             [PrPreviewSystem.deploy_script "acme/widgets" "feature-x"])
          (log (PrPreviewSystem.create_preview failing 7 "acme/widgets" "feature-x"
                  "abcdef1" fresh_world)).
Proof.
  intros self failing. split.
  - apply (proj1 (proj2 (deploy_script_written_on_success self 7 "acme/widgets"
                           "feature-x" "abcdef1" fresh_world))).
    vm_compute. reflexivity.
  - intros Hin.
    apply (proj1 (proj1 (deploy_script_written_on_success failing 7 "acme/widgets"
                           "feature-x" "abcdef1" fresh_world))) in Hin.
    destruct Hin as [[ip Hip] _]. vm_compute in Hip. discriminate Hip.
Defined.

(** X17.  A [create] run is bounded, whatever the provider answers.  It
    makes at most 33 provider calls: the existence check, the creation
    request, at most 30 queries of the wait and the port setting.  In
    [src/scripts] it sleeps for at most 410 seconds, 290 of the wait and
    120 of the deployment, and a run that returns has slept for the 120
    at least; in [src/pr-preview-system] the deployment pause is 60 and
    the bound 350. *)
Theorem create_preview_is_bounded {P : Type} (c : Lightsail P) (region : string)
    (pr_number : Z) (repo_name branch commit_sha : string) (w : World P) :
  let r := Scripts.create_preview (Scripts.mkPreviewManager c region)
             pr_number repo_name branch commit_sha w in
  let r' := PrPreviewSystem.create_preview (PrPreviewSystem.mkPreviewManager c region)
              pr_number repo_name branch commit_sha w in
  ((length (calls (log r)) <= 33)%nat
   /\ now w <= now (world r) <= now w + 410
   /\ (forall success, out r = Return success -> now w + 120 <= now (world r)))
  /\ ((length (calls (log r')) <= 33)%nat
      /\ now w <= now (world r') <= now w + 350
      /\ (forall success, out r' = Return success -> now w + 60 <= now (world r'))).
Proof.
  intros r r'. subst r r'. split.
  - set (self := Scripts.mkPreviewManager c region).
    rewrite create_preview_calls_scripts, create_preview_out_scripts,
      create_preview_now_scripts.
    destruct (ensure_timing_scripts self (Scripts.get_instance_name pr_number repo_name)
                pr_number repo_name branch w) as (Hq & Hnow & Hret).
    destruct (out (Scripts.ensure_instance self _ pr_number repo_name branch w))
      as [ip | e | k].
    + pose proof (Hret ip eq_refl). repeat split; first [lia | intros; lia].
    + repeat split; first [lia | discriminate].
    + repeat split; first [lia | discriminate].
  - set (self := PrPreviewSystem.mkPreviewManager c region).
    rewrite create_preview_calls_upload, create_preview_out_upload,
      create_preview_now_upload.
    destruct (ensure_timing_upload self
                (PrPreviewSystem.get_instance_name pr_number repo_name)
                pr_number repo_name branch w) as (Hq & Hnow & Hret).
    destruct (out (PrPreviewSystem.ensure_instance self _ pr_number repo_name branch w))
      as [ip | e | k].
    + pose proof (Hret ip eq_refl). repeat split; first [lia | intros; lia].
    + repeat split; first [lia | discriminate].
    + repeat split; first [lia | discriminate].
Qed.

Lemma create_preview_is_bounded_witness :
  let r := Scripts.create_preview (Scripts.mkPreviewManager (fake 29 "10.0.0.5") "us-east-1")
             7 "acme/widgets" "feature-x" "abcdef1" fresh_world in
  120 <= now (world r) /\ now (world r) = 410 /\ length (calls (log r)) = 33%nat.
Proof.
  intros r.
  destruct (create_preview_is_bounded (fake 29 "10.0.0.5") "us-east-1" 7 "acme/widgets"
              "feature-x" "abcdef1" fresh_world) as [(_ & _ & Hret) _].
  split; [apply (Hret true); vm_compute; reflexivity |].
  split; vm_compute; reflexivity.
Defined.

(** X18.  The commit identifier labels the run and does nothing else.
    Two [create] runs that differ in [commit_sha] only end alike, leave
    the same world and make the same provider calls; their logs differ in
    the one console line that shows the first seven characters of the
    identifier, so that the runs are equal when these agree.  This holds
    in both files: what is deployed is the branch. *)
Theorem commit_sha_only_labels_the_run {P : Type} (c : Lightsail P) (region : string)
    (pr_number : Z) (repo_name branch sha1 sha2 : string) (w : World P) :
  let run := Scripts.create_preview (Scripts.mkPreviewManager c region)
               pr_number repo_name branch in
  let run' := PrPreviewSystem.create_preview (PrPreviewSystem.mkPreviewManager c region)
                pr_number repo_name branch in
  (out (run sha1 w) = out (run sha2 w) /\ world (run sha1 w) = world (run sha2 w)
   /\ exists before after,
        log (run sha1 w) = (before ++ Console ("Commit: " ++ slice_to 7 sha1) :: after)%list
        /\ log (run sha2 w)
           = (before ++ Console ("Commit: " ++ slice_to 7 sha2) :: after)%list)
  /\ (out (run' sha1 w) = out (run' sha2 w) /\ world (run' sha1 w) = world (run' sha2 w)
      /\ exists before after,
           log (run' sha1 w)
           = (before ++ Console ("Commit: " ++ slice_to 7 sha1) :: after)%list
           /\ log (run' sha2 w)
              = (before ++ Console ("Commit: " ++ slice_to 7 sha2) :: after)%list).
Proof.
  intros run run'. subst run run'. split.
  - rewrite !create_preview_scripts.
    destruct (Scripts.ensure_instance _ _ pr_number repo_name branch w)
      as [[ip | e | k] w1 l1]; cbn [create_flow];
      try destruct (scripts_deploy_error w1); try destruct (output_error w1);
      cbn [out world log];
      (split; [reflexivity | split; [reflexivity |]]);
      unfold header_events;
      eexists [_; _; _; _; _; _], _; split; reflexivity.
  - rewrite !create_preview_upload.
    destruct (PrPreviewSystem.ensure_instance _ _ pr_number repo_name branch w)
      as [[ip | e | k] w1 l1]; cbn [create_flow];
      try destruct (upload_deploy_error w1); try destruct (output_error w1);
      cbn [out world log];
      (split; [reflexivity | split; [reflexivity |]]);
      unfold header_events;
      eexists [_; _; _; _; _; _], _; split; reflexivity.
Qed.
